(** * Property filter and CSV export of the molecule panels

    A shallow embedding of the two pieces of deterministic logic in the
    front end: the [handleFilterChange] / [exportResults] handlers of
    [VAEModule] and [SMILESModule], together with the [PropertyFilter]
    component that builds the [FilterCriteria] value.

    JavaScript numbers are IEEE-754 binary64 values; they are modelled by
    [spec_float] with the relational operators of ECMAScript written over
    [SFcompare], so that NaN and the infinities behave as in the source. *)

From Stdlib Require Import ZArith List String Ascii Bool Lia DecimalString.
From Stdlib Require Import Floats.SpecFloat.
From stdpp Require Import base list.

Import ListNotations.
Local Open Scope Z_scope.

(* ================================================================== *)
(** ** JavaScript numbers                                              *)
(* ================================================================== *)

Module JSNumber.

Local Open Scope string_scope.
Local Open Scope Z_scope.

Definition number : Type := spec_float.

Definition prec : Z := 53.
Definition emax : Z := 1024.

(** An integer literal. *)
Definition of_Z (z : Z) : number := binary_normalize prec emax z 0 false.

(** A decimal literal [m / 10^d], correctly rounded (both operands of the
    division are exact for the literals of the source). *)
Definition of_decimal (m : Z) (d : Z) : number :=
  SFdiv prec emax (of_Z m) (of_Z (10 ^ d)).

Definition NaN : number := S754_nan.

(** [Number::lessThan]: [None] is the specification's [undefined]. *)
Definition lessThan (x y : number) : option bool :=
  match SFcompare x y with
  | None => None
  | Some Lt => Some true
  | Some _ => Some false
  end.

(** [x < y] *)
Definition lt (x y : number) : bool :=
  match lessThan x y with Some true => true | _ => false end.

(** [x > y] *)
Definition gt (x y : number) : bool :=
  match lessThan y x with Some true => true | _ => false end.

(** [x <= y] *)
Definition le (x y : number) : bool :=
  match lessThan y x with Some false => true | _ => false end.

(** [x >= y] *)
Definition ge (x y : number) : bool :=
  match lessThan x y with Some false => true | _ => false end.

(** *** [Number::toString] (radix 10) *)

(** Decimal digits of a non-negative integer. *)
Definition digits (z : Z) : string :=
  NilZero.string_of_uint (N.to_uint (Z.to_N z)).

Fixpoint zeros (n : nat) : string :=
  match n with
  | O => EmptyString
  | S n' => String "0"%char (zeros n')
  end.

(** The reals that round to the finite positive [m * 2^e] form an interval
    around it; in units of [2^(e-2)] its ends are [lo] and [hi], and the
    ends belong to it when [m] is even (ties go to the even mantissa). *)
Record interval : Type := {
  lo : Z;
  mid : Z;
  hi : Z;
  closed : bool;
  unit_exp : Z
}.

Definition rounding_interval (m : positive) (e : Z) : interval :=
  let boundary := (Z.pos m =? 2 ^ (prec - 1)) && (emin prec emax <? e) in
  {| lo := 4 * Z.pos m - (if boundary then 1 else 2);
     mid := 4 * Z.pos m;
     hi := 4 * Z.pos m + 2;
     closed := Z.even (Z.pos m);
     unit_exp := e - 2 |}.

Definition ceil_div (a b : Z) : Z := - ((- a) / b).

(** Nearest integer to [a / b], ties to even ([b > 0]). *)
Definition round_div (a b : Z) : Z :=
  let q := a / b in
  let r := a mod b in
  match 2 * r ?= b with
  | Lt => q
  | Gt => q + 1
  | Eq => if Z.even q then q else q + 1
  end.

(** The integers [s] with [s * 10^q] inside the interval, as a pair of
    bounds, and the one nearest to the exact value. *)
Definition candidates (i : interval) (q : Z) : Z * Z * Z :=
  let a := 2 ^ Z.max (unit_exp i) 0 * 10 ^ Z.max (- q) 0 in
  let b := 2 ^ Z.max (- unit_exp i) 0 * 10 ^ Z.max q 0 in
  let smin := if closed i then ceil_div (lo i * a) b else (lo i * a) / b + 1 in
  let smax := if closed i then (hi i * a) / b else ceil_div (hi i * a) b - 1 in
  (smin, smax, round_div (mid i * a) b).

(** An exponent no candidate can exceed: the interval lies below
    [2^(bits of hi + unit_exp)], and [0.30103] bounds [log10 2] closely
    enough over the binary64 exponent range. *)
Definition start_exponent (i : interval) : Z :=
  ((Z.log2 (hi i) + 1 + unit_exp i) * 30103) / 100000 + 1.

(** The largest [q <= q0] for which a candidate exists gives the fewest
    digits; [s] is then the candidate nearest to the value. *)
Fixpoint shortest (fuel : nat) (i : interval) (q : Z) : Z * Z :=
  let '(smin, smax, near) := candidates i q in
  if (smin <=? smax) && (1 <=? smax) then (Z.max smin (Z.min near smax), q)
  else match fuel with
       | O => (near, q)
       | S fuel' => shortest fuel' i (q - 1)
       end.

(** Steps 5 to 10 of [Number::toString]: [s] has [k] digits and the value
    is [s * 10^(n-k)]. *)
Definition format (s : Z) (n : Z) : string :=
  let ds := digits s in
  let k := Z.of_nat (String.length ds) in
  if (k <=? n) && (n <=? 21) then
    ds ++ zeros (Z.to_nat (n - k))
  else if (0 <? n) && (n <=? 21) then
    substring 0 (Z.to_nat n) ds ++ "." ++ substring (Z.to_nat n) (Z.to_nat (k - n)) ds
  else if (-6 <? n) && (n <=? 0) then
    "0." ++ zeros (Z.to_nat (- n)) ++ ds
  else
    let e := n - 1 in
    let sign := if e <? 0 then "-" else "+" in
    if k =? 1 then
      ds ++ "e" ++ sign ++ digits (Z.abs e)
    else
      substring 0 1 ds ++ "." ++ substring 1 (Z.to_nat (k - 1)) ds
        ++ "e" ++ sign ++ digits (Z.abs e).

Definition toString (x : number) : string :=
  match x with
  | S754_nan => "NaN"
  | S754_zero _ => "0"
  | S754_infinity sg => if sg then "-Infinity" else "Infinity"
  | S754_finite sg m e =>
      let i := rounding_interval m e in
    let '(s, q) := shortest 64 i (start_exponent i) in
      let n := Z.of_nat (String.length (digits s)) + q in
      (if sg then "-" else "") ++ format s n
  end.

End JSNumber.

Declare Scope js_scope.
Delimit Scope js_scope with js.
Notation "x <# y" := (JSNumber.lt x y) (at level 70, no associativity) : js_scope.
Notation "x ># y" := (JSNumber.gt x y) (at level 70, no associativity) : js_scope.
Notation "x <=# y" := (JSNumber.le x y) (at level 70, no associativity) : js_scope.
Notation "x >=# y" := (JSNumber.ge x y) (at level 70, no associativity) : js_scope.
Abbreviation number := JSNumber.number.

(* ================================================================== *)
(** ** Flat objects, [join] and the CSV text                           *)
(* ================================================================== *)

Module JS.

Local Open Scope string_scope.

(** The scalar values stored in the exported rows. *)
Inductive value : Type :=
| VString (s : string)
| VBoolean (b : bool)
| VNumber (n : number).

(** An object literal: its own string keys in insertion order. *)
Definition object : Type := list (string * value).

Definition Object_keys (o : object) : list string := List.map fst o.
Definition Object_values (o : object) : list value := List.map snd o.

(** The abstract operation [ToString] on these values. *)
Definition ToString (v : value) : string :=
  match v with
  | VString s => s
  | VBoolean b => if b then "true" else "false"
  | VNumber n => JSNumber.toString n
  end.

(** [Array.prototype.join] on an array of strings. *)
Fixpoint join (sep : string) (l : list string) : string :=
  match l with
  | [] => ""
  | [x] => x
  | x :: rest => x ++ sep ++ join sep rest
  end.

(** [Array.prototype.join] on an array of scalar values: every element
    goes through [ToString]. *)
Definition join_values (sep : string) (l : list value) : string :=
  join sep (List.map ToString l).

Definition LF : string := String (ascii_of_nat 10) EmptyString.

Definition is_newline (c : ascii) : bool := Ascii.eqb c (ascii_of_nat 10).

Definition has_newline (s : string) : bool :=
  existsb is_newline (list_ascii_of_string s).

Definition count_newlines (s : string) : nat :=
  List.length (List.filter is_newline (list_ascii_of_string s)).

Definition ends_with_newline (s : string) : bool :=
  match rev (list_ascii_of_string s) with
  | c :: _ => is_newline c
  | [] => false
  end.

(** The text split at every line feed (what a reader of the file sees
    as its lines). *)
Fixpoint lines_from (cur : string) (s : string) : list string :=
  match s with
  | EmptyString => [cur]
  | String c s' =>
      if is_newline c
      then cur :: lines_from "" s'
      else lines_from (cur ++ String c "") s'
  end.

Definition lines (s : string) : list string := lines_from "" s.

(** What evaluating an expression gives: a value, or a thrown exception. *)
Inductive completion (A : Type) : Type :=
| Normal (a : A)
| Throw (error : string).
Arguments Normal {A} a.
Arguments Throw {A} error.

(** The CSV expression shared by both [exportResults] handlers:
    [[Object.keys(data[0]).join(','),
      ...data.map(row => Object.values(row).join(','))].join('\n')].
    [Object.keys(undefined)] throws a [TypeError]. *)
Definition csv (data : list object) : completion string :=
  match data with
  | [] => Throw "TypeError"
  | first :: _ =>
      Normal (join LF
                (join "," (Object_keys first)
                 :: List.map (fun row => join_values "," (Object_values row)) data))
  end.

Inductive variant : Type := default | destructive.

Record Toast : Type := {
  title : string;
  description : string;
  toast_variant : variant
}.

(** The file offered for download through the temporary anchor. *)
Record Download : Type := {
  download : string;
  mime : string;
  content : string
}.

(** What one click on "Export" does: at most one file, and one toast. *)
Record Effects : Type := {
  downloaded : option Download;
  toasted : Toast
}.

End JS.

(* ================================================================== *)
(** ** PropertyFilter.tsx                                              *)
(* ================================================================== *)

Module PropertyFilter.

Record FilterCriteria : Type := {
  mwRange : number * number;
  logpRange : number * number;
  hbdMax : number;
  hbaMax : number;
  tpsaRange : number * number;
  lipinskiCompliant : bool;
  qedMin : number;
  sasMax : number
}.

(** The component's [useState] cells.  The sliders hold arrays; the
    one-thumb sliders hold their single value. *)
Record State : Type := {
  st_mwRange : number * number;
  st_logpRange : number * number;
  st_hbdMax : number;
  st_hbaMax : number;
  st_tpsaRange : number * number;
  st_lipinskiCompliant : bool;
  st_qedMin : number;
  st_sasMax : number
}.

Definition applyFilters (s : State) : FilterCriteria :=
  {| mwRange := (fst (st_mwRange s), snd (st_mwRange s));
     logpRange := (fst (st_logpRange s), snd (st_logpRange s));
     hbdMax := st_hbdMax s;
     hbaMax := st_hbaMax s;
     tpsaRange := (fst (st_tpsaRange s), snd (st_tpsaRange s));
     lipinskiCompliant := st_lipinskiCompliant s;
     qedMin := st_qedMin s;
     sasMax := st_sasMax s |}.

Definition resetFilters (_ : State) : State :=
  {| st_mwRange := (JSNumber.of_Z 0, JSNumber.of_Z 1000);
     st_logpRange := (JSNumber.of_Z (-5), JSNumber.of_Z 5);
     st_hbdMax := JSNumber.of_Z 10;
     st_hbaMax := JSNumber.of_Z 20;
     st_tpsaRange := (JSNumber.of_Z 0, JSNumber.of_Z 200);
     st_lipinskiCompliant := false;
     st_qedMin := JSNumber.of_Z 0;
     st_sasMax := JSNumber.of_Z 10 |}.

(** The initial [useState] values are the ones [resetFilters] restores. *)
Definition initialState : State :=
  {| st_mwRange := (JSNumber.of_Z 0, JSNumber.of_Z 1000);
     st_logpRange := (JSNumber.of_Z (-5), JSNumber.of_Z 5);
     st_hbdMax := JSNumber.of_Z 10;
     st_hbaMax := JSNumber.of_Z 20;
     st_tpsaRange := (JSNumber.of_Z 0, JSNumber.of_Z 200);
     st_lipinskiCompliant := false;
     st_qedMin := JSNumber.of_Z 0;
     st_sasMax := JSNumber.of_Z 10 |}.

(** The criteria produced by "Reset" followed by "Apply Filters". *)
Definition defaultCriteria : FilterCriteria :=
  applyFilters (resetFilters initialState).

End PropertyFilter.

Import PropertyFilter.

Local Open Scope js_scope.

(* ================================================================== *)
(** ** VAEModule.tsx: the generator panel                              *)
(* ================================================================== *)

Module VAEModule.

Local Open Scope string_scope.

Record Properties : Type := {
  mw : number;
  logp : number;
  hbd : number;
  hba : number;
  tpsa : number
}.

Record GeneratedMolecule : Type := {
  id : string;
  smiles : string;
  properties : Properties;
  drugLikeness : number
}.

Definition mockMolecules : list GeneratedMolecule :=
  [ {| id := "1";
       smiles := "CC(=O)OC1=CC=CC=C1C(=O)O";
       properties := {| mw := JSNumber.of_decimal 18016 2; logp := JSNumber.of_decimal 119 2;
                        hbd := JSNumber.of_Z 1; hba := JSNumber.of_Z 4;
                        tpsa := JSNumber.of_decimal 636 1 |};
       drugLikeness := JSNumber.of_decimal 89 2 |};
    {| id := "2";
       smiles := "CN1CCN(CC1)C2=CC=C(C=C2)OC";
       properties := {| mw := JSNumber.of_decimal 20628 2; logp := JSNumber.of_decimal 184 2;
                        hbd := JSNumber.of_Z 0; hba := JSNumber.of_Z 3;
                        tpsa := JSNumber.of_decimal 153 1 |};
       drugLikeness := JSNumber.of_decimal 92 2 |};
    {| id := "3";
       smiles := "CC1=CC=C(C=C1)S(=O)(=O)NC2=CC=CC=N2";
       properties := {| mw := JSNumber.of_decimal 24830 2; logp := JSNumber.of_decimal 167 2;
                        hbd := JSNumber.of_Z 1; hba := JSNumber.of_Z 4;
                        tpsa := JSNumber.of_decimal 684 1 |};
       drugLikeness := JSNumber.of_decimal 76 2 |} ].

(** The callback handed to [generatedMolecules.filter]. *)
Definition matches (criteria : FilterCriteria) (mol : GeneratedMolecule) : bool :=
  let mw := mw (properties mol) in
  let logp := logp (properties mol) in
  let hbd := hbd (properties mol) in
  let hba := hba (properties mol) in
  let tpsa := tpsa (properties mol) in
  (mw >=# fst (mwRange criteria)) && (mw <=# snd (mwRange criteria)) &&
  (logp >=# fst (logpRange criteria)) && (logp <=# snd (logpRange criteria)) &&
  (hbd <=# hbdMax criteria) &&
  (hba <=# hbaMax criteria) &&
  (tpsa >=# fst (tpsaRange criteria)) && (tpsa <=# snd (tpsaRange criteria)) &&
  (drugLikeness mol >=# qedMin criteria).

(** The part of the component state the two handlers read and write. *)
Record State : Type := {
  generatedMolecules : list GeneratedMolecule;
  filteredMolecules : list GeneratedMolecule;
  showFilters : bool
}.

Definition setFilteredMolecules (l : list GeneratedMolecule) (s : State) : State :=
  {| generatedMolecules := generatedMolecules s;
     filteredMolecules := l;
     showFilters := showFilters s |}.

Definition handleFilterChange (criteria : FilterCriteria) (s : State) : State :=
  let filtered := List.filter (matches criteria) (generatedMolecules s) in
  setFilteredMolecules filtered s.

(** [setGeneratedMolecules] followed by the effect that re-initialises
    the filtered list whenever the generated list changes. *)
Definition setGeneratedMolecules (l : list GeneratedMolecule) (s : State) : State :=
  {| generatedMolecules := l;
     filteredMolecules := l;
     showFilters := showFilters s |}.

(** The list the panel maps over when rendering the molecule cards. *)
Definition rendered (s : State) : list GeneratedMolecule :=
  if showFilters s then filteredMolecules s else generatedMolecules s.

(** The object literal built for one molecule in [exportResults]. *)
Definition row (mol : GeneratedMolecule) : JS.object :=
  [ ("SMILES", JS.VString (smiles mol));
    ("DrugLikeness", JS.VNumber (drugLikeness mol));
    ("MolecularWeight", JS.VNumber (mw (properties mol)));
    ("LogP", JS.VNumber (logp (properties mol)));
    ("HBD", JS.VNumber (hbd (properties mol)));
    ("HBA", JS.VNumber (hba (properties mol)));
    ("TPSA", JS.VNumber (tpsa (properties mol))) ].

(** The array handed to the CSV expression. *)
Definition data (s : State) : list JS.object := List.map row (generatedMolecules s).

Definition length_text {A} (l : list A) : string :=
  JSNumber.toString (JSNumber.of_Z (Z.of_nat (List.length l))).

Definition exportResults (s : State) : JS.Effects :=
  if (List.length (generatedMolecules s) =? 0)%nat then
    {| JS.downloaded := None;
       JS.toasted := {| JS.title := "No Data to Export";
                        JS.description := "Generate some molecules first before exporting";
                        JS.toast_variant := JS.destructive |} |}
  else
    match JS.csv (data s) with
    | JS.Normal csv =>
        {| JS.downloaded := Some {| JS.download := "vae_generated_molecules.csv";
                                    JS.mime := "text/csv";
                                    JS.content := csv |};
           JS.toasted := {| JS.title := "Export Complete";
                            JS.description :=
                              "Exported " ++ length_text (data s)
                                ++ " molecules to CSV file";
                            JS.toast_variant := JS.default |} |}
    | JS.Throw _ =>
        {| JS.downloaded := None;
           JS.toasted := {| JS.title := "Export Failed";
                            JS.description := "There was an error exporting the data";
                            JS.toast_variant := JS.destructive |} |}
    end.

End VAEModule.


(* ================================================================== *)
(** ** SMILESModule.tsx: the analyzer panel                            *)
(* ================================================================== *)

Module SMILESModule.

Local Open Scope string_scope.

Record Lipinski : Type := {
  lip_mw : bool;
  lip_logp : bool;
  lip_hbd : bool;
  lip_hba : bool;
  violations : number
}.

Record SMILESAnalysis : Type := {
  smiles : string;
  isValid : bool;
  molecularWeight : number;
  atomCount : number;
  bondCount : number;
  rings : number;
  aromaticRings : number;
  heteroatoms : number;
  rotatable : number;
  formula : string;
  lipinski : Lipinski
}.

(** The callback handed to [batchResults.filter]. *)
Definition matches (criteria : FilterCriteria) (result : SMILESAnalysis) : bool :=
  let mw := molecularWeight result in
  (mw >=# fst (mwRange criteria)) && (mw <=# snd (mwRange criteria)) &&
  (heteroatoms result <=# hbaMax criteria) &&
  (violations (lipinski result)
     <=# (if lipinskiCompliant criteria then JSNumber.of_Z 0 else JSNumber.of_Z 4)).

Record State : Type := {
  batchResults : list SMILESAnalysis;
  filteredResults : list SMILESAnalysis;
  showFilters : bool
}.

Definition setFilteredResults (l : list SMILESAnalysis) (s : State) : State :=
  {| batchResults := batchResults s;
     filteredResults := l;
     showFilters := showFilters s |}.

Definition handleFilterChange (criteria : FilterCriteria) (s : State) : State :=
  let filtered := List.filter (matches criteria) (batchResults s) in
  setFilteredResults filtered s.

(** The list the panel maps over when rendering the batch rows. *)
Definition rendered (s : State) : list SMILESAnalysis :=
  if showFilters s then filteredResults s else batchResults s.

(** The object literal built for one result in [exportResults]. *)
Definition row (result : SMILESAnalysis) : JS.object :=
  [ ("SMILES", JS.VString (smiles result));
    ("Valid", JS.VBoolean (isValid result));
    ("MolecularWeight", JS.VNumber (molecularWeight result));
    ("Formula", JS.VString (formula result));
    ("Atoms", JS.VNumber (atomCount result));
    ("Bonds", JS.VNumber (bondCount result));
    ("Rings", JS.VNumber (rings result));
    ("AromaticRings", JS.VNumber (aromaticRings result));
    ("Heteroatoms", JS.VNumber (heteroatoms result));
    ("RotatableBonds", JS.VNumber (rotatable result));
    ("LipinskiViolations", JS.VNumber (violations (lipinski result))) ].

(** The array handed to the CSV expression. *)
Definition data (s : State) : list JS.object := List.map row (batchResults s).

Definition length_text {A} (l : list A) : string :=
  JSNumber.toString (JSNumber.of_Z (Z.of_nat (List.length l))).

Definition exportResults (s : State) : JS.Effects :=
  if (List.length (batchResults s) =? 0)%nat then
    {| JS.downloaded := None;
       JS.toasted := {| JS.title := "No Data to Export";
                        JS.description := "Analyze some molecules first before exporting";
                        JS.toast_variant := JS.destructive |} |}
  else
    match JS.csv (data s) with
    | JS.Normal csv =>
        {| JS.downloaded := Some {| JS.download := "smiles_analysis_results.csv";
                                    JS.mime := "text/csv";
                                    JS.content := csv |};
           JS.toasted := {| JS.title := "Export Complete";
                            JS.description :=
                              "Exported " ++ length_text (data s)
                                ++ " analysis results to CSV file";
                            JS.toast_variant := JS.default |} |}
    | JS.Throw _ =>
        {| JS.downloaded := None;
           JS.toasted := {| JS.title := "Export Failed";
                            JS.description := "There was an error exporting the data";
                            JS.toast_variant := JS.destructive |} |}
    end.

End SMILESModule.

(* ================================================================== *)
(** ** Statement-side definitions                                      *)
(* ================================================================== *)

Module Stated.

(** A generated molecule whose fields lie inside the bounds that "Reset"
    restores: molecular weight in [0,1000], logP in [-5,5], at most 10
    donors and 20 acceptors, TPSA in [0,200], drug-likeness at least 0. *)
Definition vae_within_default (mol : VAEModule.GeneratedMolecule) : Prop :=
  let p := VAEModule.properties mol in
  (JSNumber.of_Z 0 <=# VAEModule.mw p) = true /\
  (VAEModule.mw p <=# JSNumber.of_Z 1000) = true /\
  (JSNumber.of_Z (-5) <=# VAEModule.logp p) = true /\
  (VAEModule.logp p <=# JSNumber.of_Z 5) = true /\
  (VAEModule.hbd p <=# JSNumber.of_Z 10) = true /\
  (VAEModule.hba p <=# JSNumber.of_Z 20) = true /\
  (JSNumber.of_Z 0 <=# VAEModule.tpsa p) = true /\
  (VAEModule.tpsa p <=# JSNumber.of_Z 200) = true /\
  (JSNumber.of_Z 0 <=# VAEModule.drugLikeness mol) = true.

(** The same for a batch-analysis record, on the fields its filter reads:
    molecular weight in [0,1000], at most 20 heteroatoms, and a violation
    count within the 0..4 scale. *)
Definition smiles_within_default (r : SMILESModule.SMILESAnalysis) : Prop :=
  (JSNumber.of_Z 0 <=# SMILESModule.molecularWeight r) = true /\
  (SMILESModule.molecularWeight r <=# JSNumber.of_Z 1000) = true /\
  (SMILESModule.heteroatoms r <=# JSNumber.of_Z 20) = true /\
  (SMILESModule.violations (SMILESModule.lipinski r) <=# JSNumber.of_Z 4) = true.

(** [{...criteria, lipinskiCompliant: b}] *)
Definition withLipinskiCompliant (b : bool) (c : FilterCriteria) : FilterCriteria :=
  {| mwRange := mwRange c;
     logpRange := logpRange c;
     hbdMax := hbdMax c;
     hbaMax := hbaMax c;
     tpsaRange := tpsaRange c;
     lipinskiCompliant := b;
     qedMin := qedMin c;
     sasMax := sasMax c |}.

(** [out] is the stable selection of the elements of [l] that satisfy
    [f]: a subsequence of [l] made of matching elements only, and the
    greatest such subsequence. *)
Definition stable_selection {A} (f : A -> bool) (l out : list A) : Prop :=
  out `sublist_of` l /\
  Forall (fun x => f x = true) out /\
  (forall l', l' `sublist_of` l -> Forall (fun x => f x = true) l' -> l' `sublist_of` out).

End Stated.

(** The CSV text as the specification words it: a header line made of the
    first record's keys, then one line per record, each introduced by a
    line feed. *)
Module CSVSpec.

Local Open Scope string_scope.

Definition header_line (first : JS.object) : string :=
  JS.join "," (List.map fst first).

(** Numbers in decimal, booleans as [true]/[false], strings verbatim. *)
Definition field_text (v : JS.value) : string :=
  match v with
  | JS.VString s => s
  | JS.VBoolean true => "true"
  | JS.VBoolean false => "false"
  | JS.VNumber n => JSNumber.toString n
  end.

Definition record_line (r : JS.object) : string :=
  JS.join "," (List.map (fun kv => field_text (snd kv)) r).

Fixpoint following_lines (ls : list string) : string :=
  match ls with
  | [] => ""
  | l :: ls' => JS.LF ++ l ++ following_lines ls'
  end.

(** The text of the file an export produced, if it produced one. *)
Definition exported (e : JS.Effects) : option string :=
  match JS.downloaded e with
  | Some d => Some (JS.content d)
  | None => None
  end.

(** The "No Data to Export" notification. *)
Definition is_empty_export (e : JS.Effects) : Prop :=
  JS.downloaded e = None /\
  JS.title (JS.toasted e) = "No Data to Export" /\
  JS.toast_variant (JS.toasted e) = JS.destructive.

(** The record of the specification's round-trip example. *)
Definition example_record : JS.object :=
  [ ("SMILES", JS.VString "CCO");
    ("Valid", JS.VBoolean true);
    ("MolecularWeight", JS.VNumber (JSNumber.of_decimal 4607 2)) ].

End CSVSpec.

(** Concrete session states used to exercise the statements. *)
Module Samples.

Local Open Scope string_scope.

Definition vae_state : VAEModule.State :=
  {| VAEModule.generatedMolecules := VAEModule.mockMolecules;
     VAEModule.filteredMolecules := VAEModule.mockMolecules;
     VAEModule.showFilters := true |}.

(** One analysis as [mockAnalyzeSMILES] can return it. *)
Definition analysis (smiles : string) (mw heteroatoms violations : Z)
  : SMILESModule.SMILESAnalysis :=
  {| SMILESModule.smiles := smiles;
     SMILESModule.isValid := true;
     SMILESModule.molecularWeight := JSNumber.of_Z mw;
     SMILESModule.atomCount := JSNumber.of_Z 21;
     SMILESModule.bondCount := JSNumber.of_Z 25;
     SMILESModule.rings := JSNumber.of_Z 1;
     SMILESModule.aromaticRings := JSNumber.of_Z 1;
     SMILESModule.heteroatoms := JSNumber.of_Z heteroatoms;
     SMILESModule.rotatable := JSNumber.of_Z 3;
     SMILESModule.formula := "C12H16N1O4";
     SMILESModule.lipinski :=
       {| SMILESModule.lip_mw := (mw <=? 500)%Z;
          SMILESModule.lip_logp := true;
          SMILESModule.lip_hbd := true;
          SMILESModule.lip_hba := true;
          SMILESModule.violations := JSNumber.of_Z violations |} |}.

Definition smiles_state : SMILESModule.State :=
  {| SMILESModule.batchResults :=
       [ analysis "CC(=O)OC1=CC=CC=C1C(=O)O" 180 4 0;
         analysis "C1=CC=C(C=C1)C2=CC=CC=C2" 154 0 2;
         analysis "O=C(O)CCCCCCCCCCCCCCC" 256 2 1 ];
     SMILESModule.filteredResults := [];
     SMILESModule.showFilters := true |}.

(** The default criteria with the molecular-weight thumbs crossed. *)
Definition inverted : FilterCriteria :=
  {| mwRange := (JSNumber.of_Z 500, JSNumber.of_Z 100);
     logpRange := logpRange defaultCriteria;
     hbdMax := hbdMax defaultCriteria;
     hbaMax := hbaMax defaultCriteria;
     tpsaRange := tpsaRange defaultCriteria;
     lipinskiCompliant := false;
     qedMin := qedMin defaultCriteria;
     sasMax := sasMax defaultCriteria |}.

(** The default criteria with the molecular weight capped at 200. *)
Definition light_only : FilterCriteria :=
  {| mwRange := (JSNumber.of_Z 0, JSNumber.of_Z 200);
     logpRange := logpRange defaultCriteria;
     hbdMax := hbdMax defaultCriteria;
     hbaMax := hbaMax defaultCriteria;
     tpsaRange := tpsaRange defaultCriteria;
     lipinskiCompliant := false;
     qedMin := qedMin defaultCriteria;
     sasMax := sasMax defaultCriteria |}.

End Samples.

(* ================================================================== *)
(** ** [Math] and [Number.prototype] operations used by the panels     *)
(* ================================================================== *)

Module JSMath.

Local Open Scope string_scope.
Local Open Scope Z_scope.

Definition is_NaN (x : number) : bool :=
  match x with S754_nan => true | _ => false end.

Definition add (x y : number) : number := SFadd JSNumber.prec JSNumber.emax x y.
Definition sub (x y : number) : number := SFsub JSNumber.prec JSNumber.emax x y.
Definition mul (x y : number) : number := SFmul JSNumber.prec JSNumber.emax x y.
Definition div (x y : number) : number := SFdiv JSNumber.prec JSNumber.emax x y.

Definition is_negative_zero (x : number) : bool :=
  match x with S754_zero true => true | _ => false end.

(** [Math.min(x, y)]: NaN if either is NaN; [-0] counts as below [+0]. *)
Definition min (x y : number) : number :=
  if is_NaN x || is_NaN y then JSNumber.NaN
  else if y <# x then y
  else if x <# y then x
  else if is_negative_zero y then y else x.

(** [Math.max(x, y)]: NaN if either is NaN; [+0] counts as above [-0]. *)
Definition max (x y : number) : number :=
  if is_NaN x || is_NaN y then JSNumber.NaN
  else if x <# y then y
  else if y <# x then x
  else if is_negative_zero x then y else x.

(** [Math.floor]. *)
Definition floor (x : number) : number :=
  match x with
  | S754_finite sg m e =>
      if 0 <=? e then x
      else
        let q := (if sg then - Z.pos m else Z.pos m) / 2 ^ (- e) in
        if q =? 0 then S754_zero false else JSNumber.of_Z q
  | _ => x
  end.

(** The digits of [n] with a point before the last [f] of them, padded
    with zeros on the left up to [f + 1] digits. *)
Definition fixed_point (f : nat) (n : Z) : string :=
  let m := JSNumber.digits n in
  let k := String.length m in
  if (f =? 0)%nat then m
  else
    let m' := if (k <=? f)%nat then JSNumber.zeros (f + 1 - k) ++ m else m in
    let k' := String.length m' in
    substring 0 (k' - f) m' ++ "." ++ substring (k' - f) f m'.

(** [Number.prototype.toFixed(f)] for [0 <= f <= 100] (the source passes
    1, 2, 3 and 4). *)
Definition toFixed (f : nat) (x : number) : string :=
  match x with
  | S754_nan | S754_infinity _ => JSNumber.toString x
  | S754_zero _ => fixed_point f 0
  | S754_finite sg m e =>
      let sign := if sg then "-" else "" in
      let large := if 0 <=? e then 10 ^ 21 <=? Z.pos m * 2 ^ e
                   else 10 ^ 21 * 2 ^ (- e) <=? Z.pos m in
      if large then sign ++ JSNumber.toString (S754_finite false m e)
      else
        let scaled := Z.pos m * 10 ^ Z.of_nat f in
        let n := if 0 <=? e then scaled * 2 ^ e
                 else (2 * scaled + 2 ^ (- e)) / (2 * 2 ^ (- e)) in
        sign ++ fixed_point f n
  end.

Inductive integer_or_infinity : Type :=
| Integer (z : Z)
| PlusInfinity
| MinusInfinity.

(** [ToIntegerOrInfinity]: NaN and the zeros go to 0, the rest is
    truncated towards zero. *)
Definition ToIntegerOrInfinity (x : number) : integer_or_infinity :=
  match x with
  | S754_nan | S754_zero _ => Integer 0
  | S754_infinity sg => if sg then MinusInfinity else PlusInfinity
  | S754_finite sg m e =>
      let t := if 0 <=? e then Z.pos m * 2 ^ e else Z.pos m / 2 ^ (- e) in
      Integer (if sg then - t else t)
  end.

(** [array.slice(0, end)]. *)
Definition slice_to {A} (finish : number) (l : list A) : list A :=
  let len := Z.of_nat (List.length l) in
  let final :=
    match ToIntegerOrInfinity finish with
    | MinusInfinity => 0
    | PlusInfinity => len
    | Integer rel => if rel <? 0 then Z.max (len + rel) 0 else Z.min rel len
    end in
  firstn (Z.to_nat final) l.

End JSMath.

(* ================================================================== *)
(** ** PropertyFilter.tsx: the "Active Filters" summary                *)
(* ================================================================== *)

Module FilterSummary.

(** The badges of the summary, with the values their text shows. *)
Inductive Badge : Type :=
| MW (lo hi : number)
| LogP (lo hi : number)
| HBD (most : number)
| HBA (most : number)
| QED (least : string)
| Lipinski.

Definition activeFilters (st : PropertyFilter.State) : list Badge :=
  ((if (fst (st_mwRange st) ># JSNumber.of_Z 0)
       || (snd (st_mwRange st) <# JSNumber.of_Z 1000)
    then [MW (fst (st_mwRange st)) (snd (st_mwRange st))] else [])
   ++ (if (fst (st_logpRange st) ># JSNumber.of_Z (-5))
          || (snd (st_logpRange st) <# JSNumber.of_Z 5)
       then [LogP (fst (st_logpRange st)) (snd (st_logpRange st))] else [])
   ++ (if st_hbdMax st <# JSNumber.of_Z 10 then [HBD (st_hbdMax st)] else [])
   ++ (if st_hbaMax st <# JSNumber.of_Z 20 then [HBA (st_hbaMax st)] else [])
   ++ (if st_qedMin st ># JSNumber.of_Z 0
       then [QED (JSMath.toFixed 2 (st_qedMin st))] else [])
   ++ (if st_lipinskiCompliant st then [Lipinski] else []))%list.

(** Every thumb inside the [min]..[max] of its slider. *)
Definition within_sliders (st : PropertyFilter.State) : Prop :=
  (JSNumber.of_Z 0 <=# fst (st_mwRange st)) = true /\
  (snd (st_mwRange st) <=# JSNumber.of_Z 1000) = true /\
  (JSNumber.of_Z (-5) <=# fst (st_logpRange st)) = true /\
  (snd (st_logpRange st) <=# JSNumber.of_Z 5) = true /\
  (st_hbdMax st <=# JSNumber.of_Z 10) = true /\
  (st_hbaMax st <=# JSNumber.of_Z 20) = true /\
  (JSNumber.of_Z 0 <=# st_qedMin st) = true.

(** The six summarised settings at their reset positions ([===] on
    numbers). *)
Definition summarised_at_reset (st : PropertyFilter.State) : Prop :=
  SFeqb (fst (st_mwRange st)) (JSNumber.of_Z 0) = true /\
  SFeqb (snd (st_mwRange st)) (JSNumber.of_Z 1000) = true /\
  SFeqb (fst (st_logpRange st)) (JSNumber.of_Z (-5)) = true /\
  SFeqb (snd (st_logpRange st)) (JSNumber.of_Z 5) = true /\
  SFeqb (st_hbdMax st) (JSNumber.of_Z 10) = true /\
  SFeqb (st_hbaMax st) (JSNumber.of_Z 20) = true /\
  SFeqb (st_qedMin st) (JSNumber.of_Z 0) = true /\
  st_lipinskiCompliant st = false.

(** [c'] is at least as permissive as [c] on every bound the generator
    profile reads. *)
Definition widens (c c' : FilterCriteria) : Prop :=
  (fst (mwRange c') <=# fst (mwRange c)) = true /\
  (snd (mwRange c) <=# snd (mwRange c')) = true /\
  (fst (logpRange c') <=# fst (logpRange c)) = true /\
  (snd (logpRange c) <=# snd (logpRange c')) = true /\
  (hbdMax c <=# hbdMax c') = true /\
  (hbaMax c <=# hbaMax c') = true /\
  (fst (tpsaRange c') <=# fst (tpsaRange c)) = true /\
  (snd (tpsaRange c) <=# snd (tpsaRange c')) = true /\
  (qedMin c' <=# qedMin c) = true.

End FilterSummary.

(* ================================================================== *)
(** ** Characters of the exported text                                 *)
(* ================================================================== *)

Module CSVShape.

Local Open Scope string_scope.

Definition is_comma (c : ascii) : bool := Ascii.eqb c ","%char.

Definition count_commas (s : string) : nat :=
  List.length (List.filter is_comma (list_ascii_of_string s)).

(** All characters of [s] satisfy [p]. *)
Definition only (p : ascii -> bool) (s : string) : bool :=
  forallb p (list_ascii_of_string s).

(** Neither a comma nor a line feed. *)
Definition plain_char (c : ascii) : bool := negb (is_comma c) && negb (JS.is_newline c).

(** The characters [Number::toString] can produce. *)
Definition numeric_char (c : ascii) : bool :=
  existsb (Ascii.eqb c) (list_ascii_of_string "0123456789.e+-NaInfity").

End CSVShape.

(* ================================================================== *)
(** ** MolecularVisualizer.tsx                                         *)
(* ================================================================== *)

(** Where the source looks inside a string (regular expressions, [trim],
    [includes]), a [string] is read as its sequence of code units, each
    below 256. *)
Module MolecularVisualizer.

Local Open Scope string_scope.

Definition is_upper (c : ascii) : bool :=
  (65 <=? nat_of_ascii c)%nat && (nat_of_ascii c <=? 90)%nat.

Definition is_lower (c : ascii) : bool :=
  (97 <=? nat_of_ascii c)%nat && (nat_of_ascii c <=? 122)%nat.

Definition is_bond (c : ascii) : bool :=
  Ascii.eqb c "-"%char || Ascii.eqb c "="%char || Ascii.eqb c "#"%char.

(** The successive matches of [/[A-Z][a-z]?/g], left to right. *)
Fixpoint scan_atoms (s : string) : list string :=
  match s with
  | EmptyString => []
  | String c s' =>
      if is_upper c then
        match s' with
        | String d s'' =>
            if is_lower d
            then String c (String d "") :: scan_atoms s''
            else String c "" :: scan_atoms s'
        | EmptyString => [String c ""]
        end
      else scan_atoms s'
  end.

(** The successive matches of [/[-=#]/g]. *)
Fixpoint scan_bonds (s : string) : list string :=
  match s with
  | EmptyString => []
  | String c s' => if is_bond c then String c "" :: scan_bonds s' else scan_bonds s'
  end.

(** [String.prototype.match] with a global pattern: [null] when nothing
    matches. *)
Definition match_all (found : list string) : option (list string) :=
  match found with
  | [] => None
  | _ => Some found
  end.

(** [m || []] *)
Definition or_empty (m : option (list string)) : list string :=
  match m with
  | Some l => l
  | None => []
  end.

Definition atoms (smiles : string) : list string :=
  or_empty (match_all (scan_atoms smiles)).

Definition bondCount (smiles : string) : nat :=
  List.length (or_empty (match_all (scan_bonds smiles))).

(** [atomCounts[atom] = (atomCounts[atom] || 0) + 1] on an object that
    keeps its keys in insertion order. *)
Fixpoint bump (atom : string) (counts : list (string * nat)) : list (string * nat) :=
  match counts with
  | [] => [(atom, 1%nat)]
  | (k, n) :: rest =>
      if String.eqb k atom then (k, S n) :: rest else (k, n) :: bump atom rest
  end.

Definition atomCounts (atoms : list string) : list (string * nat) :=
  fold_left (fun counts atom => bump atom counts) atoms [].

(** [atomCounts[atom]], with 0 for a missing key. *)
Fixpoint count_of (atom : string) (counts : list (string * nat)) : nat :=
  match counts with
  | [] => 0
  | (k, n) :: rest => if String.eqb k atom then n else count_of atom rest
  end.

Inductive ColorScheme : Type := cpk | element | property.

Definition elementColors : list string :=
  ["bg-purple-500"; "bg-cyan-500"; "bg-pink-500"; "bg-indigo-500"; "bg-teal-500";
   "bg-rose-500"].

(** [getAtomColor]; the [default] arm of the [switch] is not reachable
    for a [colorScheme] of its declared type. *)
Definition getAtomColor (colorScheme : ColorScheme) (mw : number)
    (atom : string) (index : nat) : string :=
  match colorScheme with
  | cpk =>
      if String.eqb atom "C" then "bg-zinc-600 text-white border-zinc-400"
      else if String.eqb atom "N" then "bg-blue-600 text-white border-blue-400"
      else if String.eqb atom "O" then "bg-red-600 text-white border-red-400"
      else if String.eqb atom "S" then "bg-yellow-500 text-black border-yellow-300"
      else if String.eqb atom "P" then "bg-orange-600 text-white border-orange-400"
      else if String.eqb atom "F" then "bg-green-500 text-white border-green-300"
      else if String.eqb atom "Cl" then "bg-green-600 text-white border-green-400"
      else if String.eqb atom "Br" then "bg-amber-700 text-white border-amber-500"
      else "bg-primary text-primary-foreground border-primary/60"
  | element =>
      nth (index mod List.length elementColors) elementColors "undefined"
        ++ " text-white border-white/30"
  | property =>
      let mwColor := if mw ># JSNumber.of_Z 300 then "bg-red-500"
                     else if mw ># JSNumber.of_Z 200 then "bg-orange-500"
                     else "bg-green-500" in
      mwColor ++ " text-white border-white/30"
  end.

(** One atom of the backbone row. *)
Record AtomView : Type := {
  symbol : string;
  colour : string;
  yOffset : Z;
  bond : bool;
  hydrogens : bool
}.

(** What [renderMolecule] draws. *)
Record View : Type := {
  backbone : list AtomView;
  ring : bool;
  formula : list (string * option nat);
  caption : string
}.

Record Settings : Type := {
  showBonds : bool;
  showHydrogens : bool;
  colorScheme : ColorScheme
}.

Fixpoint backbone_from (st : Settings) (mw : number) (total : nat)
    (index : nat) (shown : list string) : list AtomView :=
  match shown with
  | [] => []
  | atom :: rest =>
      let isRingAtom := (index mod 3 =? 0)%nat in
      {| symbol := atom;
         colour := getAtomColor (colorScheme st) mw atom index;
         yOffset := if isRingAtom then -20
                    else if (index mod 2 =? 0)%nat then 0 else 20;
         bond := showBonds st && (Z.of_nat index <? Z.of_nat total - 1)%Z;
         hydrogens := showHydrogens st && String.eqb atom "C" |}
      :: backbone_from st mw total (S index) rest
  end.

Definition renderMolecule (st : Settings) (smiles : string) (mw : number) : View :=
  let atoms := atoms smiles in
  {| backbone := backbone_from st mw (List.length atoms) 0 (firstn 8 atoms);
     ring := (6 <? List.length atoms)%nat;
     formula := List.map (fun '(atom, count) =>
                            (atom, if (1 <? count)%nat then Some count else None))
                  (atomCounts atoms);
     caption := smiles |}.

(** Distinct keys, no count of zero. *)
Definition tally_ok (counts : list (string * nat)) : Prop :=
  NoDup (List.map fst counts) /\ Forall (fun kn => (1 <= snd kn)%nat) counts.

(** Number of capital letters of a string. *)
Definition capitals (s : string) : nat :=
  List.length (List.filter is_upper (list_ascii_of_string s)).

(** The atom that starts at the head of [l]: a capital letter, together
    with the character after it when that one is a small letter. *)
Definition atom_at (l : list ascii) : option string :=
  match l with
  | c :: rest =>
      if is_upper c then
        Some (match rest with
              | d :: _ => if is_lower d then String c (String d "") else String c ""
              | [] => String c ""
              end)
      else None
  | [] => None
  end.

(** The non-empty suffixes of [l], longest first: one per position. *)
Fixpoint suffixes (l : list ascii) : list (list ascii) :=
  match l with
  | [] => []
  | _ :: rest => l :: suffixes rest
  end.

(** A capital letter, possibly followed by one small letter. *)
Definition atom_shaped (a : string) : Prop :=
  exists c, is_upper c = true /\
            (a = String c "" \/ exists d, is_lower d = true /\ a = String c (String d "")).

End MolecularVisualizer.

(* ================================================================== *)
(** ** SMILESModule.tsx: analysing single strings and batches          *)
(* ================================================================== *)

Module SMILESPanel.

Import SMILESModule.
Local Open Scope string_scope.

(** White space and line terminators among the code units below 256:
    TAB, LF, VT, FF, CR, SP and NBSP. *)
Definition is_space (c : ascii) : bool :=
  let n := nat_of_ascii c in
  ((n =? 9) || (n =? 10) || (n =? 11) || (n =? 12) || (n =? 13) || (n =? 32)
   || (n =? 160))%nat.

Fixpoint trimStart (s : string) : string :=
  match s with
  | EmptyString => EmptyString
  | String c s' => if is_space c then trimStart s' else s
  end.

Fixpoint trimEnd (s : string) : string :=
  match s with
  | EmptyString => EmptyString
  | String c s' =>
      match trimEnd s' with
      | EmptyString => if is_space c then EmptyString else String c EmptyString
      | t => String c t
      end
  end.

(** [String.prototype.trim] *)
Definition trim (s : string) : string := trimEnd (trimStart s).

(** A string used as a condition: only the empty string is falsy. *)
Definition truthy (s : string) : bool := negb (String.eqb s "").

(** [s.includes("X")] *)
Definition includes_X (s : string) : bool :=
  existsb (Ascii.eqb "X"%char) (list_ascii_of_string s).

Definition sampleMolecules : list string :=
  [ "CC(=O)OC1=CC=CC=C1C(=O)O";
    "CN1CCN(CC1)C2=CC=C(C=C2)OC";
    "CC1=CC=C(C=C1)S(=O)(=O)NC2=CC=CC=N2";
    "C1=CC=C(C=C1)C2=CC=CC=C2";
    "O=C(O)CCCCCCCCCCCCCCC" ].

(** [mockAnalyzeSMILES]; [random k] is the result of the [k]-th call of
    [Math.random] made while the function runs (eleven calls). *)
Definition mockAnalyzeSMILES (random : nat -> number) (smiles : string) : SMILESAnalysis :=
  let atomCount :=
    JSMath.add (JSMath.floor (JSMath.mul (random 0%nat) (JSNumber.of_Z 50))) (JSNumber.of_Z 10) in
  let mw :=
    JSMath.add (JSMath.floor (JSMath.mul (random 1%nat) (JSNumber.of_Z 400))) (JSNumber.of_Z 150) in
  {| smiles := smiles;
     isValid := (5 <? String.length smiles)%nat && negb (includes_X smiles);
     molecularWeight := mw;
     atomCount := atomCount;
     bondCount := JSMath.floor (JSMath.mul atomCount (JSNumber.of_decimal 12 1));
     rings := JSMath.floor (JSMath.mul (random 2%nat) (JSNumber.of_Z 4));
     aromaticRings := JSMath.floor (JSMath.mul (random 3%nat) (JSNumber.of_Z 3));
     heteroatoms := JSMath.floor (JSMath.mul (random 4%nat) (JSNumber.of_Z 8));
     rotatable := JSMath.floor (JSMath.mul (random 5%nat) (JSNumber.of_Z 10));
     formula :=
       "C" ++ JSNumber.toString (JSMath.floor (JSMath.mul atomCount (JSNumber.of_decimal 6 1)))
       ++ "H" ++ JSNumber.toString (JSMath.floor (JSMath.mul atomCount (JSNumber.of_decimal 8 1)))
       ++ "N" ++ JSNumber.toString (JSMath.floor (JSMath.mul (random 6%nat) (JSNumber.of_Z 3)))
       ++ "O" ++ JSNumber.toString (JSMath.floor (JSMath.mul (random 7%nat) (JSNumber.of_Z 5)));
     lipinski :=
       {| lip_mw := mw <=# JSNumber.of_Z 500;
          lip_logp := true;
          lip_hbd := random 8%nat ># JSNumber.of_decimal 3 1;
          lip_hba := random 9%nat ># JSNumber.of_decimal 2 1;
          violations := JSMath.floor (JSMath.mul (random 10%nat) (JSNumber.of_Z 3)) |} |}.

(** The state cells of the panel: the three lists cells of
    [SMILESModule.State] and the cells of the two input tabs. *)
Record Panel : Type := {
  lists : State;
  inputSMILES : string;
  analysis : option SMILESAnalysis;
  batchInput : string;
  isAnalyzing : bool;
  selectedMolecule : option string
}.

Definition setBatchResults (l : list SMILESAnalysis) (s : State) : State :=
  {| batchResults := l;
     filteredResults := filteredResults s;
     showFilters := showFilters s |}.

(** The state once [analyzeSingle] has run to its end, and its toast. *)
Definition analyzeSingle (random : nat -> number) (p : Panel) : Panel * JS.Toast :=
  if negb (truthy (trim (inputSMILES p))) then
    (p, {| JS.title := "Error";
           JS.description := "Please enter a SMILES string";
           JS.toast_variant := JS.destructive |})
  else
    let result := mockAnalyzeSMILES random (trim (inputSMILES p)) in
    ({| lists := lists p;
        inputSMILES := inputSMILES p;
        analysis := Some result;
        batchInput := batchInput p;
        isAnalyzing := false;
        selectedMolecule := selectedMolecule p |},
     {| JS.title := if isValid result then "Analysis Complete" else "Invalid SMILES";
        JS.description :=
          if isValid result
          then "Molecular weight: " ++ JSMath.toFixed 1 (molecularWeight result) ++ " Da"
          else "The SMILES string appears to be invalid";
        JS.toast_variant := if isValid result then JS.default else JS.destructive |}).

(** The lines of the batch field that are analysed. *)
Definition smilesList (batchInput : string) : list string :=
  List.filter (fun s => truthy (trim s)) (JS.lines (trim batchInput)).

(** The [for ... of] loop: the [k]-th analysis makes the draws
    [11 * k] to [11 * k + 10]. *)
Fixpoint analyzeAll (random : nat -> number) (k : nat) (l : list string)
  : list SMILESAnalysis :=
  match l with
  | [] => []
  | smiles :: rest =>
      mockAnalyzeSMILES (fun i => random (11 * k + i)%nat) (trim smiles)
      :: analyzeAll random (S k) rest
  end.

Definition count_text (n : nat) : string :=
  JSNumber.toString (JSNumber.of_Z (Z.of_nat n)).

(** The state once [analyzeBatch] has run to its end, and its toast. *)
Definition analyzeBatch (random : nat -> number) (p : Panel) : Panel * JS.Toast :=
  if negb (truthy (trim (batchInput p))) then
    (p, {| JS.title := "Error";
           JS.description := "Please enter SMILES strings (one per line)";
           JS.toast_variant := JS.destructive |})
  else
    let results := analyzeAll random 0 (smilesList (batchInput p)) in
    let validCount := List.length (List.filter isValid results) in
    ({| lists := setBatchResults results (lists p);
        inputSMILES := inputSMILES p;
        analysis := analysis p;
        batchInput := batchInput p;
        isAnalyzing := false;
        selectedMolecule := selectedMolecule p |},
     {| JS.title := "Batch Analysis Complete";
        JS.description :=
          "Analyzed " ++ count_text (List.length results) ++ " molecules, "
            ++ count_text validCount ++ " valid";
        JS.toast_variant := JS.default |}).

(** "Load Samples": [setBatchInput(sampleMolecules.join('\n'))]. *)
Definition loadSamples (p : Panel) : Panel :=
  {| lists := lists p;
     inputSMILES := inputSMILES p;
     analysis := analysis p;
     batchInput := JS.join JS.LF sampleMolecules;
     isAnalyzing := isAnalyzing p;
     selectedMolecule := selectedMolecule p |}.

(** The callback of [findSimilarMolecules]: reading [analysis!] when no
    analysis has been made throws, which happens as soon as a result
    with another SMILES string is met. *)
Definition similar (targetSmiles : string) (a : option SMILESAnalysis)
    (result : SMILESAnalysis) : JS.completion bool :=
  if String.eqb (smiles result) targetSmiles then JS.Normal false
  else
    match a with
    | None => JS.Throw "TypeError"
    | Some a =>
        JS.Normal
          ((molecularWeight result
              ># JSMath.mul (molecularWeight a) (JSNumber.of_decimal 8 1))
           && (molecularWeight result
                 <# JSMath.mul (molecularWeight a) (JSNumber.of_decimal 12 1)))
    end.

(** [Array.prototype.filter] with a callback that can throw. *)
Fixpoint filter_throwing {A} (f : A -> JS.completion bool) (l : list A)
  : JS.completion (list A) :=
  match l with
  | [] => JS.Normal []
  | x :: rest =>
      match f x with
      | JS.Throw e => JS.Throw e
      | JS.Normal keep =>
          match filter_throwing f rest with
          | JS.Throw e => JS.Throw e
          | JS.Normal kept => JS.Normal (if keep then x :: kept else kept)
          end
      end
  end.

(** [findSimilarMolecules]: the list returned and the toast shown. *)
Definition findSimilarMolecules (targetSmiles : string) (p : Panel)
  : JS.completion (list SMILESAnalysis * JS.Toast) :=
  match filter_throwing (similar targetSmiles (analysis p)) (batchResults (lists p)) with
  | JS.Throw e => JS.Throw e
  | JS.Normal found =>
      JS.Normal
        (found,
         {| JS.title := "Similarity Search";
            JS.description :=
              "Found " ++ count_text (List.length found) ++ " potentially similar molecules";
            JS.toast_variant := JS.default |})
  end.

(** Neither leading nor trailing white space, and not empty. *)
Definition clean_line (s : string) : Prop :=
  s <> "" /\ trimStart s = s /\ trimEnd s = s /\ JS.has_newline s = false.

End SMILESPanel.

(* ================================================================== *)
(** ** VAEModule.tsx: generating molecules and resetting the model     *)
(* ================================================================== *)

Module VAEPanel.

Import VAEModule.
Local Open Scope string_scope.

Inductive ModelStatus : Type := untrained | training | trained.

(** The state cells the modelled handlers read or write: the three
    list cells of [VAEModule.State], the status and metric cells, and the
    sliders that enter the generation. *)
Record Panel : Type := {
  lists : State;
  modelStatus : ModelStatus;
  isGenerating : bool;
  progress : number;
  trainingLoss : number;
  klDivergence : number;
  reconstructionLoss : number;
  selectedMolecule : option string;
  latentDimensions : number;
  temperature : number;
  batchSize : number;
  diversityWeight : number
}.

Definition initial : Panel :=
  {| lists := {| generatedMolecules := []; filteredMolecules := []; showFilters := false |};
     modelStatus := untrained;
     isGenerating := false;
     progress := JSNumber.of_Z 0;
     trainingLoss := JSNumber.of_Z 0;
     klDivergence := JSNumber.of_Z 0;
     reconstructionLoss := JSNumber.of_Z 0;
     selectedMolecule := None;
     latentDimensions := JSNumber.of_Z 128;
     temperature := JSNumber.of_decimal 8 1;
     batchSize := JSNumber.of_Z 10;
     diversityWeight := JSNumber.of_decimal 5 1 |}.

Definition calculateGenerationQuality (p : Panel) : number :=
  let tempFactor :=
    JSMath.max (JSNumber.of_decimal 1 1)
      (JSMath.min (JSNumber.of_Z 1)
         (JSMath.sub (JSNumber.of_decimal 12 1) (temperature p))) in
  let dimFactor :=
    JSMath.min (JSNumber.of_Z 1) (JSMath.div (latentDimensions p) (JSNumber.of_Z 256)) in
  let diversityFactor := diversityWeight p in
  JSMath.mul (JSMath.mul tempFactor dimFactor) diversityFactor.

(** The callback of [.map] in [generateMolecules]; [draw] is the result
    of its call of [Math.random]. *)
Definition vary (p : Panel) (quality draw : number) (mol : GeneratedMolecule)
  : GeneratedMolecule :=
  {| id := id mol;
     smiles := smiles mol;
     properties :=
       {| mw := JSMath.mul (mw (properties mol))
                  (JSMath.add (JSNumber.of_decimal 8 1)
                     (JSMath.mul (temperature p) (JSNumber.of_decimal 4 1)));
          logp := JSMath.mul (logp (properties mol))
                    (JSMath.add (JSNumber.of_decimal 7 1)
                       (JSMath.mul (diversityWeight p) (JSNumber.of_decimal 6 1)));
          hbd := hbd (properties mol);
          hba := hba (properties mol);
          tpsa := tpsa (properties mol) |};
     drugLikeness :=
       JSMath.min (JSNumber.of_decimal 99 2)
         (JSMath.add (JSMath.mul (drugLikeness mol) quality)
            (JSMath.mul draw (JSNumber.of_decimal 1 1))) |}.

(** [.map] over the selected molecules: the [k]-th callback makes the
    [k]-th draw. *)
Fixpoint vary_all (p : Panel) (quality : number) (random : nat -> number) (k : nat)
    (l : list GeneratedMolecule) : list GeneratedMolecule :=
  match l with
  | [] => []
  | mol :: rest => vary p quality (random k) mol :: vary_all p quality random (S k) rest
  end.

Definition selectedMolecules (random : nat -> number) (p : Panel) : list GeneratedMolecule :=
  let quality := calculateGenerationQuality p in
  let numMolecules :=
    JSMath.min (batchSize p) (JSNumber.of_Z (Z.of_nat (List.length mockMolecules))) in
  vary_all p quality random 0 (JSMath.slice_to numMolecules mockMolecules).

Definition steps : list string :=
  [ "Sampling from latent space...";
    "Applying temperature scaling...";
    "Decoding to SMILES...";
    "Filtering by novelty threshold...";
    "Validating molecular structures..." ].

(** The state once a call of [generateMolecules] has run to its end
    with nothing else happening on the panel meanwhile, and the toasts
    it raised in order.  Setting the generated list runs the effect that
    copies it to the filtered list.  The call is followed [await] by
    [await] in [handle] below. *)
Definition generateMolecules (random : nat -> number) (p : Panel) : Panel * list JS.Toast :=
  match modelStatus p with
  | trained =>
      let quality := calculateGenerationQuality p in
      let selected := selectedMolecules random p in
      ({| lists := setGeneratedMolecules selected (lists p);
          modelStatus := modelStatus p;
          isGenerating := false;
          progress := JSNumber.of_Z ((4 + 1) * 20);
          trainingLoss := trainingLoss p;
          klDivergence := klDivergence p;
          reconstructionLoss := reconstructionLoss p;
          selectedMolecule := selectedMolecule p;
          latentDimensions := latentDimensions p;
          temperature := temperature p;
          batchSize := batchSize p;
          diversityWeight := diversityWeight p |},
       (List.map (fun step => {| JS.title := "VAE Generation";
                                 JS.description := step;
                                 JS.toast_variant := JS.default |}) steps
        ++ [ {| JS.title := "Generation Complete";
                JS.description :=
                  "Generated "
                    ++ JSNumber.toString (JSNumber.of_Z (Z.of_nat (List.length selected)))
                    ++ " molecules with "
                    ++ JSMath.toFixed 1 (JSMath.mul quality (JSNumber.of_Z 100))
                    ++ "% quality score";
                JS.toast_variant := JS.default |} ])%list)
  | _ =>
      (p, [ {| JS.title := "Model Not Trained";
               JS.description :=
                 "Please train the VAE model first before generating molecules";
               JS.toast_variant := JS.destructive |} ])
  end.

Definition resetModel (p : Panel) : Panel * JS.Toast :=
  ({| lists := {| generatedMolecules := [];
                  filteredMolecules := [];
                  showFilters := showFilters (lists p) |};
      modelStatus := untrained;
      isGenerating := isGenerating p;
      progress := JSNumber.of_Z 0;
      trainingLoss := JSNumber.of_Z 0;
      klDivergence := JSNumber.of_Z 0;
      reconstructionLoss := JSNumber.of_Z 0;
      selectedMolecule := None;
      latentDimensions := latentDimensions p;
      temperature := temperature p;
      batchSize := batchSize p;
      diversityWeight := diversityWeight p |},
   {| JS.title := "Model Reset";
      JS.description := "VAE model has been reset to untrained state";
      JS.toast_variant := JS.default |}).

Definition with_lists (l : State) (p : Panel) : Panel :=
  {| lists := l;
     modelStatus := modelStatus p;
     isGenerating := isGenerating p;
     progress := progress p;
     trainingLoss := trainingLoss p;
     klDivergence := klDivergence p;
     reconstructionLoss := reconstructionLoss p;
     selectedMolecule := selectedMolecule p;
     latentDimensions := latentDimensions p;
     temperature := temperature p;
     batchSize := batchSize p;
     diversityWeight := diversityWeight p |}.

Definition with_status (st : ModelStatus) (p : Panel) : Panel :=
  {| lists := lists p;
     modelStatus := st;
     isGenerating := isGenerating p;
     progress := progress p;
     trainingLoss := trainingLoss p;
     klDivergence := klDivergence p;
     reconstructionLoss := reconstructionLoss p;
     selectedMolecule := selectedMolecule p;
     latentDimensions := latentDimensions p;
     temperature := temperature p;
     batchSize := batchSize p;
     diversityWeight := diversityWeight p |}.

Definition with_isGenerating (b : bool) (p : Panel) : Panel :=
  {| lists := lists p;
     modelStatus := modelStatus p;
     isGenerating := b;
     progress := progress p;
     trainingLoss := trainingLoss p;
     klDivergence := klDivergence p;
     reconstructionLoss := reconstructionLoss p;
     selectedMolecule := selectedMolecule p;
     latentDimensions := latentDimensions p;
     temperature := temperature p;
     batchSize := batchSize p;
     diversityWeight := diversityWeight p |}.

Definition with_progress (x : number) (p : Panel) : Panel :=
  {| lists := lists p;
     modelStatus := modelStatus p;
     isGenerating := isGenerating p;
     progress := x;
     trainingLoss := trainingLoss p;
     klDivergence := klDivergence p;
     reconstructionLoss := reconstructionLoss p;
     selectedMolecule := selectedMolecule p;
     latentDimensions := latentDimensions p;
     temperature := temperature p;
     batchSize := batchSize p;
     diversityWeight := diversityWeight p |}.

Definition with_metrics (loss kl recon : number) (p : Panel) : Panel :=
  {| lists := lists p;
     modelStatus := modelStatus p;
     isGenerating := isGenerating p;
     progress := progress p;
     trainingLoss := loss;
     klDivergence := kl;
     reconstructionLoss := recon;
     selectedMolecule := selectedMolecule p;
     latentDimensions := latentDimensions p;
     temperature := temperature p;
     batchSize := batchSize p;
     diversityWeight := diversityWeight p |}.

Definition with_selected (s : option string) (p : Panel) : Panel :=
  {| lists := lists p;
     modelStatus := modelStatus p;
     isGenerating := isGenerating p;
     progress := progress p;
     trainingLoss := trainingLoss p;
     klDivergence := klDivergence p;
     reconstructionLoss := reconstructionLoss p;
     selectedMolecule := s;
     latentDimensions := latentDimensions p;
     temperature := temperature p;
     batchSize := batchSize p;
     diversityWeight := diversityWeight p |}.

Definition with_sliders (latent temp batch diversity : number) (p : Panel) : Panel :=
  {| lists := lists p;
     modelStatus := modelStatus p;
     isGenerating := isGenerating p;
     progress := progress p;
     trainingLoss := trainingLoss p;
     klDivergence := klDivergence p;
     reconstructionLoss := reconstructionLoss p;
     selectedMolecule := selectedMolecule p;
     latentDimensions := latent;
     temperature := temp;
     batchSize := batch;
     diversityWeight := diversity |}.

(** A panel whose model has been trained. *)
Definition trained_panel : Panel := with_status trained initial.

(** A call of [trainModel] or [generateMolecules] suspended at the
    [await] inside its loop.  A generation keeps the cells of the render
    in which it was started ([captured]) and the loop index [i]. *)
Inductive Task : Type :=
| Training
| Generating (captured : Panel) (i : nat).

(** The cells as rendered, and the calls waiting for their timers. *)
Record Session : Type := {
  shown : Panel;
  waiting : list Task
}.

(** What can happen next: a click or a slider move, handled on the
    cells as rendered, or the timer of the [k]-th waiting call firing, which
    runs that call up to its next [await] or to its end.  The metrics a
    training step stores come from [Math.exp] and [Math.random], and
    whether it was the last step from the epochs slider: both are
    parameters of the event.  Buttons that are hidden or disabled in some
    state are not excluded, so the runs of the panel are among the runs
    described here. *)
Inductive Event : Type :=
| ClickTrain
| ClickGenerate
| ClickReset
| ClickApplyFilters (criteria : FilterCriteria)
| ClickToggleFilters
| ClickExport
| ClickSelect (smiles : option string)
| Slide (latent temp batch diversity : number)
| ResumeTraining (k : nat) (progress loss kl recon : number) (last : bool)
| ResumeGeneration (k : nat) (random : nat -> number).

(** [generateMolecules] up to its first [await]. *)
Definition start_generation (s : Session) : Session :=
  match modelStatus (shown s) with
  | trained =>
      {| shown := with_lists (setGeneratedMolecules [] (lists (shown s)))
                    (with_progress (JSNumber.of_Z 0) (with_isGenerating true (shown s)));
         waiting := (waiting s ++ [Generating (shown s) 0])%list |}
  | _ => s
  end.

(** One more turn of the loop of [generateMolecules] and, after the
    last turn, the rest of the function. *)
Definition resume_generation (k : nat) (random : nat -> number) (s : Session) : Session :=
  match waiting s !! k with
  | Some (Generating captured i) =>
      let q := with_progress (JSNumber.of_Z ((Z.of_nat i + 1) * 20)) (shown s) in
      if (S i <? List.length steps)%nat then
        {| shown := q; waiting := <[k := Generating captured (S i)]> (waiting s) |}
      else
        {| shown := with_isGenerating false
                      (with_lists (setGeneratedMolecules (selectedMolecules random captured)
                                     (lists q)) q);
           waiting := delete k (waiting s) |}
  | _ => s
  end.

(** [trainModel] up to its first [await]: the epochs slider ranges over
    50..500, so the loop is entered. *)
Definition start_training (s : Session) : Session :=
  {| shown := with_progress (JSNumber.of_Z 0)
                (with_isGenerating true (with_status training (shown s)));
     waiting := (waiting s ++ [Training])%list |}.

(** One more turn of the loop of [trainModel] and, after the last turn,
    the rest of the function. *)
Definition resume_training (k : nat) (pr loss kl recon : number) (last : bool)
    (s : Session) : Session :=
  match waiting s !! k with
  | Some Training =>
      let q := with_metrics loss kl recon (with_progress pr (shown s)) in
      if last then
        {| shown := with_isGenerating false (with_status trained q);
           waiting := delete k (waiting s) |}
      else {| shown := q; waiting := waiting s |}
  | _ => s
  end.

Definition on_shown (f : Panel -> Panel) (s : Session) : Session :=
  {| shown := f (shown s); waiting := waiting s |}.

Definition handle (e : Event) (s : Session) : Session :=
  match e with
  | ClickTrain => start_training s
  | ClickGenerate => start_generation s
  | ClickReset => on_shown (fun p => fst (resetModel p)) s
  | ClickApplyFilters criteria =>
      on_shown (fun p => with_lists (handleFilterChange criteria (lists p)) p) s
  | ClickToggleFilters =>
      on_shown (fun p =>
                  with_lists {| generatedMolecules := generatedMolecules (lists p);
                                filteredMolecules := filteredMolecules (lists p);
                                showFilters := negb (showFilters (lists p)) |} p) s
  | ClickExport => s
  | ClickSelect smiles => on_shown (with_selected smiles) s
  | Slide latent temp batch diversity =>
      on_shown (with_sliders latent temp batch diversity) s
  | ResumeTraining k pr loss kl recon last => resume_training k pr loss kl recon last s
  | ResumeGeneration k random => resume_generation k random s
  end.

(** The session after a sequence of events on a fresh panel. *)
Definition run_from (s : Session) (events : list Event) : Session :=
  fold_left (fun s e => handle e s) events s.

Definition run (events : list Event) : Session :=
  run_from {| shown := initial; waiting := [] |} events.

(** What every reachable state satisfies. *)
Definition consistent (p : Panel) : Prop :=
  filteredMolecules (lists p) `sublist_of` generatedMolecules (lists p) /\
  List.map smiles (generatedMolecules (lists p)) `prefix_of` List.map smiles mockMolecules.

(** A generation running undisturbed: the click and the five timers. *)
Definition undisturbed_generation (random : nat -> number) : list Event :=
  [ ClickGenerate; ResumeGeneration 0 random; ResumeGeneration 0 random;
    ResumeGeneration 0 random; ResumeGeneration 0 random; ResumeGeneration 0 random ].

(** A reset while the generation started after a training is waiting. *)
Definition reset_during_generation (random : nat -> number) : list Event :=
  [ ClickTrain;
    ResumeTraining 0 (JSNumber.of_Z 76) (JSNumber.of_Z 1) (JSNumber.of_Z 1)
      (JSNumber.of_Z 0) true;
    ClickGenerate; ResumeGeneration 0 random; ClickReset; ResumeGeneration 0 random;
    ResumeGeneration 0 random; ResumeGeneration 0 random; ResumeGeneration 0 random ].

End VAEPanel.

(* ================================================================== *)
(** * Properties                                                       *)
(* ================================================================== *)

(** ** The order on numbers *)

Section NumberOrder.

Implicit Types x y z : number.

Lemma ge_is_flipped_le x y : (x >=# y) = (y <=# x).
Proof. reflexivity. Qed.

Lemma gt_is_flipped_lt x y : (x ># y) = (y <# x).
Proof. reflexivity. Qed.

(** [x <= y] read off the three-way comparison. *)
Lemma le_compare x y :
  (x <=# y) = true <-> SFcompare x y = Some Lt \/ SFcompare x y = Some Eq.
Proof.
  unfold JSNumber.le, JSNumber.lessThan.
  destruct x as [sx| sx| |sx mx ex], y as [sy| sy| |sy my ey]; simpl;
    repeat match goal with b : bool |- _ => destruct b end; simpl;
    try (split; [intros; (discriminate || (left; reflexivity) || (right; reflexivity))
                | intros [?|?]; (discriminate || reflexivity)]).
  all: rewrite (Z.compare_antisym ey ex);
    change (Pos.compare_cont Eq my mx) with (Pos.compare my mx);
    change (Pos.compare_cont Eq mx my) with (Pos.compare mx my);
    rewrite (Pos.compare_antisym my mx);
    destruct (Z.compare ey ex); simpl;
    destruct (Pos.compare my mx); simpl;
    split; try (intros [?|?]); intros;
      (discriminate || reflexivity || (left; reflexivity) || (right; reflexivity)).
Qed.

Lemma lt_compare x y : (x <# y) = true <-> SFcompare x y = Some Lt.
Proof.
  unfold JSNumber.lt, JSNumber.lessThan.
  destruct (SFcompare x y) as [[]|]; split; intros; (discriminate || reflexivity).
Qed.

Lemma le_trans x y z :
  (x <=# y) = true -> (y <=# z) = true -> (x <=# z) = true.
Proof.
  rewrite !le_compare.
  destruct x as [sx| sx| |sx mx ex], y as [sy| sy| |sy my ey],
           z as [sz| sz| |sz mz ez]; simpl;
    repeat match goal with b : bool |- _ => destruct b end; simpl;
    try (intros [?|?] [?|?]; (discriminate || (left; reflexivity) || (right; reflexivity))).
  all: change (Pos.compare_cont Eq mx my) with (Pos.compare mx my);
    change (Pos.compare_cont Eq my mz) with (Pos.compare my mz);
    change (Pos.compare_cont Eq mx mz) with (Pos.compare mx mz);
    destruct (Z.compare_spec ex ey), (Z.compare_spec ey ez), (Z.compare_spec ex ez);
    try lia; simpl;
    try (intros [?|?] [?|?]; (discriminate || (left; reflexivity) || (right; reflexivity)));
    destruct (Pos.compare_spec mx my), (Pos.compare_spec my mz), (Pos.compare_spec mx mz);
    try lia; simpl;
    intros [?|?] [?|?]; (discriminate || (left; reflexivity) || (right; reflexivity)).
Qed.

(** Two numbers each below the other are equal in the sense of [===]
    on numbers ([SFeqb]: the two zeros are equal). *)
Lemma le_antisym x y :
  (x <=# y) = true -> (y <=# x) = true -> SFeqb x y = true.
Proof.
  rewrite !le_compare. unfold SFeqb.
  destruct x as [sx| sx| |sx mx ex], y as [sy| sy| |sy my ey]; simpl;
    repeat match goal with b : bool |- _ => destruct b end; simpl;
    try (intros [?|?] [?|?]; (discriminate || reflexivity)).
  all: rewrite (Z.compare_antisym ey ex);
    change (Pos.compare_cont Eq my mx) with (Pos.compare my mx);
    change (Pos.compare_cont Eq mx my) with (Pos.compare mx my);
    rewrite (Pos.compare_antisym my mx);
    destruct (Z.compare ey ex); simpl;
    destruct (Pos.compare my mx); simpl;
    intros [?|?] [?|?]; (discriminate || reflexivity).
Qed.

(** [x > y] and [x <= y] exclude each other. *)
Lemma gt_not_le x y : (x ># y) = true -> (x <=# y) = false.
Proof.
  unfold JSNumber.gt, JSNumber.le.
  destruct (JSNumber.lessThan y x) as [[]|]; intros; (discriminate || reflexivity).
Qed.

(** Unless one side is NaN, [x <= y] is the negation of [x > y]. *)
Lemma le_negb_gt x y :
  JSNumber.lessThan y x <> None -> (x <=# y) = negb (x ># y).
Proof.
  unfold JSNumber.gt, JSNumber.le.
  destruct (JSNumber.lessThan y x) as [[]|]; intros; (congruence || reflexivity).
Qed.

Lemma compare_None x y :
  SFcompare x y = None -> x = JSNumber.NaN \/ y = JSNumber.NaN.
Proof.
  destruct x, y; simpl; intros H; (discriminate H || (left; reflexivity) || (right; reflexivity)).
Qed.

(** A number below some bound is not NaN, so it compares with anything
    that is not NaN itself. *)
Lemma le_comparable x y z :
  (x <=# y) = true -> z <> JSNumber.NaN -> JSNumber.lessThan z x <> None.
Proof.
  intros Hle Hz Hnone.
  assert (Hx : x <> JSNumber.NaN).
  { intros ->. unfold JSNumber.le, JSNumber.lessThan, JSNumber.NaN in Hle.
    destruct y; discriminate Hle. }
  unfold JSNumber.lessThan in Hnone.
  destruct (SFcompare z x) as [[]|] eqn:Hc; try discriminate Hnone.
  apply compare_None in Hc. tauto.
Qed.

(** An empty range: nothing lies between [lo] and [hi] when [lo > hi]. *)
Lemma inverted_range_empty lo hi x :
  (lo ># hi) = true -> (x >=# lo) && (x <=# hi) = false.
Proof.
  intros Hinv. apply gt_not_le in Hinv.
  rewrite ge_is_flipped_le.
  destruct (lo <=# x) eqn:H1; [|reflexivity].
  destruct (x <=# hi) eqn:H2; [|reflexivity].
  rewrite (le_trans _ _ _ H1 H2) in Hinv. discriminate.
Qed.

End NumberOrder.

(** ** [Number::toString] on sample values *)

Example toString_samples :
  List.map JSNumber.toString
    [ JSNumber.of_decimal 4607 2; JSNumber.of_decimal 18016 2; JSNumber.of_Z 0;
      JSNumber.of_Z (-5); JSNumber.of_Z 1000; JSNumber.of_decimal 5 1;
      JSNumber.of_decimal 1 6; JSNumber.of_decimal 1 7;
      JSNumber.of_Z (10 ^ 20); JSNumber.of_Z (10 ^ 21);
      SFadd JSNumber.prec JSNumber.emax (JSNumber.of_decimal 1 1) (JSNumber.of_decimal 2 1);
      S754_finite false 1 (-1074); SFmax_float JSNumber.prec JSNumber.emax;
      S754_nan; S754_infinity true ]
  = [ "46.07"; "180.16"; "0"; "-5"; "1000"; "0.5"; "0.000001"; "1e-7";
      "100000000000000000000"; "1e+21"; "0.30000000000000004";
      "5e-324"; "1.7976931348623157e+308"; "NaN"; "-Infinity" ]%string.
Proof. vm_compute. reflexivity. Qed.

(** ** Selecting with [Array.prototype.filter] *)

Section Filter.

Context {A : Type} (f : A -> bool).

Lemma filter_sublist (l : list A) : List.filter f l `sublist_of` l.
Proof.
  induction l as [|x l IH]; simpl.
  - constructor.
  - destruct (f x); [apply sublist_skip | apply sublist_cons]; exact IH.
Qed.

Lemma filter_all_match (l : list A) : Forall (fun x => f x = true) (List.filter f l).
Proof.
  induction l as [|x l IH]; simpl.
  - constructor.
  - destruct (f x) eqn:Hx; [constructor|]; assumption.
Qed.

Lemma filter_greatest (l l' : list A) :
  l' `sublist_of` l -> Forall (fun x => f x = true) l' -> l' `sublist_of` List.filter f l.
Proof.
  induction 1 as [|x l1 l2 Hsub IH|x l1 l2 Hsub IH]; intros Hall; simpl.
  - constructor.
  - inversion Hall as [|? ? Hx Hrest]; subst. rewrite Hx.
    apply sublist_skip, IH, Hrest.
  - destruct (f x); [apply sublist_cons|]; apply IH, Hall.
Qed.

Lemma filter_stable_selection (l : list A) :
  Stated.stable_selection f l (List.filter f l).
Proof.
  split; [apply filter_sublist|].
  split; [apply filter_all_match|].
  intros l'. apply filter_greatest.
Qed.

Lemma filter_elem_of (l : list A) (x : A) :
  x ∈ List.filter f l <-> x ∈ l /\ f x = true.
Proof. rewrite !list_elem_of_In. apply filter_In. Qed.

Lemma filter_everything (l : list A) :
  Forall (fun x => f x = true) l -> List.filter f l = l.
Proof.
  induction 1 as [|x l Hx _ IH]; simpl; [reflexivity|].
  rewrite Hx, IH. reflexivity.
Qed.

Lemma filter_nothing (l : list A) :
  (forall x, f x = false) -> List.filter f l = [].
Proof.
  intros Hnone. induction l as [|x l IH]; simpl; [reflexivity|].
  rewrite Hnone. exact IH.
Qed.

End Filter.

Lemma filter_ext_eq {A} (f g : A -> bool) (l : list A) :
  (forall x, f x = g x) -> List.filter f l = List.filter g l.
Proof.
  intros Hfg. induction l as [|x l IH]; simpl; [reflexivity|].
  rewrite Hfg, IH. reflexivity.
Qed.

(** ** The generator profile *)

(** The conjunction computed by the generator's callback, with each
    comparison written bound-first. *)
Lemma vae_matches_iff (c : FilterCriteria) (mol : VAEModule.GeneratedMolecule) :
  VAEModule.matches c mol = true <->
  let p := VAEModule.properties mol in
  (fst (mwRange c) <=# VAEModule.mw p) = true /\
  (VAEModule.mw p <=# snd (mwRange c)) = true /\
  (fst (logpRange c) <=# VAEModule.logp p) = true /\
  (VAEModule.logp p <=# snd (logpRange c)) = true /\
  (VAEModule.hbd p <=# hbdMax c) = true /\
  (VAEModule.hba p <=# hbaMax c) = true /\
  (fst (tpsaRange c) <=# VAEModule.tpsa p) = true /\
  (VAEModule.tpsa p <=# snd (tpsaRange c)) = true /\
  (qedMin c <=# VAEModule.drugLikeness mol) = true.
Proof.
  unfold VAEModule.matches. cbv zeta.
  rewrite !andb_true_iff, !ge_is_flipped_le. tauto.
Qed.

(** C1. Generator profile: a molecule is in the filtered list exactly when
    it is one of the generated molecules and its molecular weight, logP and
    TPSA lie inside the criteria's ranges, its donor and acceptor counts do
    not exceed [hbdMax] and [hbaMax], and its drug-likeness is at least
    [qedMin].  Criteria that agree on those six fields select the same
    list, whatever their [lipinskiCompliant] and [sasMax]. *)
Theorem vae_filter_characterization :
  forall (c : FilterCriteria) (s : VAEModule.State),
    (forall mol : VAEModule.GeneratedMolecule,
        mol ∈ VAEModule.filteredMolecules (VAEModule.handleFilterChange c s) <->
        mol ∈ VAEModule.generatedMolecules s /\
        (fst (mwRange c) <=# VAEModule.mw (VAEModule.properties mol)) = true /\
        (VAEModule.mw (VAEModule.properties mol) <=# snd (mwRange c)) = true /\
        (fst (logpRange c) <=# VAEModule.logp (VAEModule.properties mol)) = true /\
        (VAEModule.logp (VAEModule.properties mol) <=# snd (logpRange c)) = true /\
        (VAEModule.hbd (VAEModule.properties mol) <=# hbdMax c) = true /\
        (VAEModule.hba (VAEModule.properties mol) <=# hbaMax c) = true /\
        (fst (tpsaRange c) <=# VAEModule.tpsa (VAEModule.properties mol)) = true /\
        (VAEModule.tpsa (VAEModule.properties mol) <=# snd (tpsaRange c)) = true /\
        (VAEModule.drugLikeness mol >=# qedMin c) = true)
    /\
    (forall (flag : bool) (sas : number),
        VAEModule.handleFilterChange
          {| mwRange := mwRange c; logpRange := logpRange c; hbdMax := hbdMax c;
             hbaMax := hbaMax c; tpsaRange := tpsaRange c;
             lipinskiCompliant := flag; qedMin := qedMin c; sasMax := sas |} s
        = VAEModule.handleFilterChange c s).
Proof.
  intros c s. split.
  - intros mol. unfold VAEModule.handleFilterChange. simpl.
    rewrite filter_elem_of, vae_matches_iff. cbv zeta.
    rewrite (ge_is_flipped_le (VAEModule.drugLikeness mol)). tauto.
  - intros flag sas. reflexivity.
Qed.

(** ** The analyzer profile *)

Lemma smiles_matches_iff (c : FilterCriteria) (r : SMILESModule.SMILESAnalysis) :
  SMILESModule.matches c r = true <->
  (fst (mwRange c) <=# SMILESModule.molecularWeight r) = true /\
  (SMILESModule.molecularWeight r <=# snd (mwRange c)) = true /\
  (SMILESModule.heteroatoms r <=# hbaMax c) = true /\
  (SMILESModule.violations (SMILESModule.lipinski r)
     <=# (if lipinskiCompliant c then JSNumber.of_Z 0 else JSNumber.of_Z 4)) = true.
Proof.
  unfold SMILESModule.matches. cbv zeta.
  rewrite !andb_true_iff, !ge_is_flipped_le. tauto.
Qed.

Lemma zero_le_four : (JSNumber.of_Z 0 <=# JSNumber.of_Z 4) = true.
Proof. reflexivity. Qed.

(** At most zero violations is: at most four, and not more than zero. *)
Lemma le_zero_split (v : number) :
  (v <=# JSNumber.of_Z 0) = (v <=# JSNumber.of_Z 4) && negb (v ># JSNumber.of_Z 0).
Proof.
  destruct (v <=# JSNumber.of_Z 4) eqn:H4; cbn [andb].
  - apply le_negb_gt. apply (le_comparable _ _ _ H4). discriminate.
  - apply not_true_is_false. intros H0.
    rewrite (le_trans _ _ _ H0 zero_le_four) in H4. discriminate.
Qed.

(** C2. Analyzer profile: a record is in the filtered list exactly when it
    is one of the batch results, its molecular weight lies inside
    [mwRange], its heteroatom count does not exceed [hbaMax], and its
    violation count is at most 0 when [lipinskiCompliant] is set and at
    most the literal 4 otherwise.  The fields [logpRange], [hbdMax],
    [tpsaRange], [qedMin] and [sasMax] play no part.  With the switch on,
    a passing record with a non-negative count has a count equal to zero;
    with either setting a count above 4 is rejected. *)
Theorem smiles_filter_characterization :
  forall (c : FilterCriteria) (s : SMILESModule.State),
    (forall r : SMILESModule.SMILESAnalysis,
        r ∈ SMILESModule.filteredResults (SMILESModule.handleFilterChange c s) <->
        r ∈ SMILESModule.batchResults s /\
        (fst (mwRange c) <=# SMILESModule.molecularWeight r) = true /\
        (SMILESModule.molecularWeight r <=# snd (mwRange c)) = true /\
        (SMILESModule.heteroatoms r <=# hbaMax c) = true /\
        (SMILESModule.violations (SMILESModule.lipinski r)
           <=# JSNumber.of_Z (if lipinskiCompliant c then 0 else 4)) = true)
    /\
    (forall (lp tp : number * number) (hbd qed sas : number),
        SMILESModule.handleFilterChange
          {| mwRange := mwRange c; logpRange := lp; hbdMax := hbd;
             hbaMax := hbaMax c; tpsaRange := tp;
             lipinskiCompliant := lipinskiCompliant c; qedMin := qed; sasMax := sas |} s
        = SMILESModule.handleFilterChange c s)
    /\
    (lipinskiCompliant c = true ->
     forall r : SMILESModule.SMILESAnalysis,
        r ∈ SMILESModule.filteredResults (SMILESModule.handleFilterChange c s) ->
        (JSNumber.of_Z 0 <=# SMILESModule.violations (SMILESModule.lipinski r)) = true ->
        SFeqb (SMILESModule.violations (SMILESModule.lipinski r)) (JSNumber.of_Z 0) = true)
    /\
    (forall r : SMILESModule.SMILESAnalysis,
        (SMILESModule.violations (SMILESModule.lipinski r) ># JSNumber.of_Z 4) = true ->
        r ∉ SMILESModule.filteredResults (SMILESModule.handleFilterChange c s)).
Proof.
  intros c s.
  assert (Hiff : forall r : SMILESModule.SMILESAnalysis,
        r ∈ SMILESModule.filteredResults (SMILESModule.handleFilterChange c s) <->
        r ∈ SMILESModule.batchResults s /\
        (fst (mwRange c) <=# SMILESModule.molecularWeight r) = true /\
        (SMILESModule.molecularWeight r <=# snd (mwRange c)) = true /\
        (SMILESModule.heteroatoms r <=# hbaMax c) = true /\
        (SMILESModule.violations (SMILESModule.lipinski r)
           <=# JSNumber.of_Z (if lipinskiCompliant c then 0 else 4)) = true).
  { intros r. unfold SMILESModule.handleFilterChange. simpl.
    rewrite filter_elem_of, smiles_matches_iff.
    destruct (lipinskiCompliant c); tauto. }
  split; [exact Hiff|].
  split; [intros lp tp hbd qed sas; reflexivity|].
  split.
  - intros Hflag r Hr Hnonneg. apply Hiff in Hr as (_ & _ & _ & _ & Hv).
    rewrite Hflag in Hv. apply le_antisym; assumption.
  - intros r Hgt Hr. apply Hiff in Hr as (_ & _ & _ & _ & Hv).
    apply gt_not_le in Hgt.
    destruct (lipinskiCompliant c).
    + rewrite le_zero_split, Hgt in Hv. discriminate.
    + rewrite Hgt in Hv. discriminate.
Qed.

(** The range example: of two analyses weighing 180 and 600, a
    molecular-weight range of [0,500] keeps the first only. *)
Example range_exclusivity :
  let s := {| SMILESModule.batchResults :=
                [ Samples.analysis "CC(=O)OC1=CC=CC=C1C(=O)O" 180 4 0;
                  Samples.analysis "O=C(O)CCCCCCCCCCCCCCC" 600 2 1 ];
              SMILESModule.filteredResults := [];
              SMILESModule.showFilters := true |} in
  let c := {| mwRange := (JSNumber.of_Z 0, JSNumber.of_Z 500);
              logpRange := logpRange defaultCriteria;
              hbdMax := hbdMax defaultCriteria;
              hbaMax := hbaMax defaultCriteria;
              tpsaRange := tpsaRange defaultCriteria;
              lipinskiCompliant := false;
              qedMin := qedMin defaultCriteria;
              sasMax := sasMax defaultCriteria |} in
  SMILESModule.filteredResults (SMILESModule.handleFilterChange c s)
    = [ Samples.analysis "CC(=O)OC1=CC=CC=C1C(=O)O" 180 4 0 ].
Proof. vm_compute. reflexivity. Qed.

(** ** Stability *)

(** C5. Applying criteria leaves the source list of the panel as it was;
    the list it stores as filtered is a subsequence of the source (same
    relative order, every element from the source) that holds matching
    records only and contains every subsequence of matching records. *)
Theorem filter_stable_and_non_mutating :
  (forall (c : FilterCriteria) (s : VAEModule.State),
      VAEModule.generatedMolecules (VAEModule.handleFilterChange c s)
        = VAEModule.generatedMolecules s /\
      Stated.stable_selection (VAEModule.matches c)
        (VAEModule.generatedMolecules s)
        (VAEModule.filteredMolecules (VAEModule.handleFilterChange c s)))
  /\
  (forall (c : FilterCriteria) (s : SMILESModule.State),
      SMILESModule.batchResults (SMILESModule.handleFilterChange c s)
        = SMILESModule.batchResults s /\
      Stated.stable_selection (SMILESModule.matches c)
        (SMILESModule.batchResults s)
        (SMILESModule.filteredResults (SMILESModule.handleFilterChange c s))).
Proof.
  split; intros c s; (split; [reflexivity|]); simpl; apply filter_stable_selection.
Qed.

(** ** Inverted ranges *)

(** C7. When the lower end of [mwRange] is greater than the upper end, no
    record satisfies the molecular-weight conjunct, so both panels store
    the empty list: the ends are used as given, neither swapped nor
    clamped.  For every criteria value, inverted or not, the handler
    returns a state whose filtered list is a subsequence of the source. *)
Theorem inverted_range_matches_nothing :
  (forall c : FilterCriteria,
      (fst (mwRange c) ># snd (mwRange c)) = true ->
      (forall x : number, (x >=# fst (mwRange c)) && (x <=# snd (mwRange c)) = false) /\
      (forall s, VAEModule.filteredMolecules (VAEModule.handleFilterChange c s) = []) /\
      (forall s, SMILESModule.filteredResults (SMILESModule.handleFilterChange c s) = []))
  /\
  (forall c : FilterCriteria,
      (forall s, exists out,
            VAEModule.handleFilterChange c s = VAEModule.setFilteredMolecules out s /\
            out `sublist_of` VAEModule.generatedMolecules s) /\
      (forall s, exists out,
            SMILESModule.handleFilterChange c s = SMILESModule.setFilteredResults out s /\
            out `sublist_of` SMILESModule.batchResults s)).
Proof.
  split.
  - intros c Hinv.
    assert (Hmw : forall x, (x >=# fst (mwRange c)) && (x <=# snd (mwRange c)) = false)
      by (intros x; apply inverted_range_empty, Hinv).
    split; [exact Hmw|].
    split; intros s; simpl; apply filter_nothing; intros r.
    + unfold VAEModule.matches. cbv zeta. rewrite Hmw. reflexivity.
    + unfold SMILESModule.matches. cbv zeta. rewrite Hmw. reflexivity.
  - intros c. split; intros s; eexists; (split; [reflexivity|]); apply filter_sublist.
Qed.

Lemma inverted_range_matches_nothing_witness :
  (fst (mwRange Samples.inverted) ># snd (mwRange Samples.inverted)) = true /\
  VAEModule.filteredMolecules
    (VAEModule.handleFilterChange Samples.inverted Samples.vae_state) = [] /\
  SMILESModule.filteredResults
    (SMILESModule.handleFilterChange Samples.inverted Samples.smiles_state) = [].
Proof.
  assert (H : (fst (mwRange Samples.inverted) ># snd (mwRange Samples.inverted)) = true)
    by (vm_compute; reflexivity).
  split; [exact H|].
  destruct (proj1 inverted_range_matches_nothing Samples.inverted H) as (_ & Hv & Hs).
  split; [apply Hv | apply Hs].
Defined.


(** ** The default criteria *)

Lemma default_criteria_values :
  defaultCriteria =
  {| mwRange := (JSNumber.of_Z 0, JSNumber.of_Z 1000);
     logpRange := (JSNumber.of_Z (-5), JSNumber.of_Z 5);
     hbdMax := JSNumber.of_Z 10;
     hbaMax := JSNumber.of_Z 20;
     tpsaRange := (JSNumber.of_Z 0, JSNumber.of_Z 200);
     lipinskiCompliant := false;
     qedMin := JSNumber.of_Z 0;
     sasMax := JSNumber.of_Z 10 |}.
Proof. reflexivity. Qed.

Lemma initial_state_is_reset (st : PropertyFilter.State) :
  resetFilters st = initialState.
Proof. reflexivity. Qed.

Lemma vae_default_matches (mol : VAEModule.GeneratedMolecule) :
  Stated.vae_within_default mol -> VAEModule.matches defaultCriteria mol = true.
Proof.
  intros H. apply vae_matches_iff. exact H.
Qed.

Lemma smiles_default_matches (r : SMILESModule.SMILESAnalysis) :
  Stated.smiles_within_default r -> SMILESModule.matches defaultCriteria r = true.
Proof.
  intros H. apply smiles_matches_iff. exact H.
Qed.

(** C8. With the criteria that "Reset" followed by "Apply Filters"
    produces, a source list whose records all lie inside the default bounds
    is stored as the filtered list unchanged: same records, same order.
    (The statement does not need the list to be non-empty.) *)
Theorem default_criteria_identity :
  (forall s : VAEModule.State,
      Forall Stated.vae_within_default (VAEModule.generatedMolecules s) ->
      VAEModule.filteredMolecules (VAEModule.handleFilterChange defaultCriteria s)
        = VAEModule.generatedMolecules s)
  /\
  (forall s : SMILESModule.State,
      Forall Stated.smiles_within_default (SMILESModule.batchResults s) ->
      SMILESModule.filteredResults (SMILESModule.handleFilterChange defaultCriteria s)
        = SMILESModule.batchResults s).
Proof.
  split; intros s Hall; simpl; apply filter_everything;
    (eapply Forall_impl; [exact Hall|]).
  - apply vae_default_matches.
  - apply smiles_default_matches.
Qed.

Lemma default_criteria_identity_witness :
  VAEModule.generatedMolecules Samples.vae_state <> [] /\
  Forall Stated.vae_within_default (VAEModule.generatedMolecules Samples.vae_state) /\
  VAEModule.filteredMolecules (VAEModule.handleFilterChange defaultCriteria Samples.vae_state)
    = VAEModule.mockMolecules.
Proof.
  assert (H : Forall Stated.vae_within_default
                (VAEModule.generatedMolecules Samples.vae_state)).
  { repeat constructor. }
  split; [discriminate|].
  split; [exact H|].
  exact (proj1 default_criteria_identity Samples.vae_state H).
Defined.

(** ** The Lipinski switch *)

Lemma filter_filter {A} (f g : A -> bool) (l : list A) :
  List.filter f (List.filter g l) = List.filter (fun x => g x && f x) l.
Proof.
  induction l as [|x l IH]; simpl; [reflexivity|].
  destruct (g x); simpl; [destruct (f x)|]; rewrite IH; reflexivity.
Qed.

Lemma smiles_matches_strict (c : FilterCriteria) (r : SMILESModule.SMILESAnalysis) :
  SMILESModule.matches (Stated.withLipinskiCompliant true c) r =
  SMILESModule.matches (Stated.withLipinskiCompliant false c) r
    && negb (SMILESModule.violations (SMILESModule.lipinski r) ># JSNumber.of_Z 0).
Proof.
  unfold SMILESModule.matches. cbn [Stated.withLipinskiCompliant mwRange hbaMax lipinskiCompliant].
  cbv zeta. rewrite le_zero_split, !andb_assoc. reflexivity.
Qed.

(** C9. With the switch on, the analyzer stores a subsequence of what it
    stores with the switch off (so never more records, and none that the
    lax setting rejects); what is dropped is exactly the records whose
    violation count is greater than zero. *)
Theorem lipinski_switch_monotone :
  forall (c : FilterCriteria) (s : SMILESModule.State),
    let strict := SMILESModule.filteredResults
                    (SMILESModule.handleFilterChange (Stated.withLipinskiCompliant true c) s) in
    let lax := SMILESModule.filteredResults
                 (SMILESModule.handleFilterChange (Stated.withLipinskiCompliant false c) s) in
    strict `sublist_of` lax /\
    (forall r, r ∈ strict -> r ∈ lax) /\
    (List.length strict <= List.length lax)%nat /\
    strict = List.filter
               (fun r => negb (SMILESModule.violations (SMILESModule.lipinski r)
                                 ># JSNumber.of_Z 0)) lax.
Proof.
  intros c s strict lax.
  assert (Heq : strict = List.filter
               (fun r => negb (SMILESModule.violations (SMILESModule.lipinski r)
                                 ># JSNumber.of_Z 0)) lax).
  { subst strict lax. simpl. rewrite filter_filter.
    apply filter_ext_eq. intros r. apply smiles_matches_strict. }
  assert (Hsub : strict `sublist_of` lax) by (rewrite Heq; apply filter_sublist).
  split; [exact Hsub|].
  split; [intros r Hr; exact (elem_of_sublist _ _ _ Hr Hsub)|].
  split; [apply sublist_length, Hsub | exact Heq].
Qed.

(** ** What "Export" serializes *)

(** The export handlers read the source list only, so applying criteria
    changes nothing for them. *)
Lemma vae_export_after_filter (c : FilterCriteria) (s : VAEModule.State) :
  VAEModule.exportResults (VAEModule.handleFilterChange c s) = VAEModule.exportResults s.
Proof. reflexivity. Qed.

Lemma smiles_export_after_filter (c : FilterCriteria) (s : SMILESModule.State) :
  SMILESModule.exportResults (SMILESModule.handleFilterChange c s)
    = SMILESModule.exportResults s.
Proof. reflexivity. Qed.

(** C4, as stated, fails: after capping the molecular weight at 200 the
    generator panel renders one molecule, and the rows handed to the CSV
    expression are still those of all three generated molecules. *)
Lemma export_serializes_filtered_list_counterexample :
  let s := VAEModule.handleFilterChange Samples.light_only Samples.vae_state in
  VAEModule.rendered s = VAEModule.filteredMolecules s /\
  List.length (VAEModule.filteredMolecules s) = 1%nat /\
  VAEModule.data s <> List.map VAEModule.row (VAEModule.filteredMolecules s).
Proof.
  cbv zeta. split; [reflexivity|]. split; [vm_compute; reflexivity|].
  intros H. apply (f_equal (@List.length JS.object)) in H.
  vm_compute in H. discriminate H.
Qed.

(** C4, amended. Whatever criteria have been applied, the rows handed to
    the CSV expression are those of the whole source list
    ([generatedMolecules], [batchResults]) in its order, and the export
    has the same outcome as before the criteria were applied. *)
Theorem export_serializes_source_list :
  (forall (c : FilterCriteria) (s : VAEModule.State),
      VAEModule.data (VAEModule.handleFilterChange c s)
        = List.map VAEModule.row (VAEModule.generatedMolecules s) /\
      VAEModule.exportResults (VAEModule.handleFilterChange c s)
        = VAEModule.exportResults s)
  /\
  (forall (c : FilterCriteria) (s : SMILESModule.State),
      SMILESModule.data (SMILESModule.handleFilterChange c s)
        = List.map SMILESModule.row (SMILESModule.batchResults s) /\
      SMILESModule.exportResults (SMILESModule.handleFilterChange c s)
        = SMILESModule.exportResults s).
Proof.
  split; intros c s; split; reflexivity.
Qed.


(** ** Strings as character lists *)

Section Strings.

Local Open Scope string_scope.
Local Open Scope nat_scope.

Implicit Types a b cur : string.

Lemma append_nil_r a : a ++ "" = a.
Proof. induction a as [|c a IH]; simpl; [|rewrite IH]; reflexivity. Qed.

Lemma append_assoc a b c : (a ++ b) ++ c = a ++ (b ++ c).
Proof. induction a as [|x a IH]; simpl; [|rewrite IH]; reflexivity. Qed.

Lemma chars_app a b :
  list_ascii_of_string (a ++ b) = (list_ascii_of_string a ++ list_ascii_of_string b)%list.
Proof. induction a as [|c a IH]; simpl; [|rewrite IH]; reflexivity. Qed.

Lemma has_newline_app a b :
  JS.has_newline (a ++ b) = JS.has_newline a || JS.has_newline b.
Proof. unfold JS.has_newline. rewrite chars_app. apply existsb_app. Qed.

Lemma count_newlines_app a b :
  JS.count_newlines (a ++ b) = JS.count_newlines a + JS.count_newlines b.
Proof.
  unfold JS.count_newlines.
  rewrite chars_app, List.filter_app, List.length_app. reflexivity.
Qed.

Lemma count_newlines_none a : JS.has_newline a = false -> JS.count_newlines a = 0.
Proof.
  unfold JS.has_newline, JS.count_newlines.
  induction (list_ascii_of_string a) as [|c l IH]; cbn [existsb List.filter]; [reflexivity|].
  destruct (JS.is_newline c); cbn [orb]; [discriminate | exact IH].
Qed.

Lemma ends_with_newline_none a : JS.has_newline a = false -> JS.ends_with_newline a = false.
Proof.
  unfold JS.has_newline, JS.ends_with_newline. intros H.
  destruct (rev (list_ascii_of_string a)) as [|c l] eqn:E; [reflexivity|].
  assert (Hin : In c (list_ascii_of_string a)).
  { apply in_rev. rewrite E. left. reflexivity. }
  destruct (JS.is_newline c) eqn:Hc; [|reflexivity].
  assert (Hex : existsb JS.is_newline (list_ascii_of_string a) = true).
  { apply existsb_exists. exists c. split; [exact Hin | exact Hc]. }
  rewrite Hex in H. discriminate.
Qed.

Lemma ends_with_newline_app a b :
  b <> "" -> JS.ends_with_newline (a ++ b) = JS.ends_with_newline b.
Proof.
  intros Hb. unfold JS.ends_with_newline. rewrite chars_app, rev_app_distr.
  destruct b as [|c b]; [contradiction|].
  destruct (rev (list_ascii_of_string (String c b))) as [|d l] eqn:E.
  - apply (f_equal (@List.length ascii)) in E. rewrite length_rev in E. discriminate.
  - reflexivity.
Qed.

Lemma lines_from_no_newline cur a b :
  JS.has_newline a = false ->
  JS.lines_from cur (a ++ b) = JS.lines_from (cur ++ a) b.
Proof.
  revert cur. induction a as [|c a IH]; intros cur H; simpl.
  - rewrite append_nil_r. reflexivity.
  - unfold JS.has_newline in H. cbn [list_ascii_of_string existsb] in H.
    apply orb_false_iff in H as [Hc Ha].
    rewrite Hc, IH by exact Ha.
    rewrite append_assoc. reflexivity.
Qed.

Lemma lines_from_end cur a :
  JS.has_newline a = false -> JS.lines_from cur a = [cur ++ a].
Proof.
  intros H. rewrite <- (append_nil_r a) at 1.
  rewrite lines_from_no_newline by exact H. reflexivity.
Qed.

(** *** [join] *)

Lemma join_cons sep (x y : string) (l : list string) :
  JS.join sep (x :: y :: l) = x ++ sep ++ JS.join sep (y :: l).
Proof. reflexivity. Qed.

Lemma join_as_following_lines (h : string) (l : list string) :
  JS.join JS.LF (h :: l) = h ++ CSVSpec.following_lines l.
Proof.
  revert h. induction l as [|x l IH]; intros h.
  - simpl. rewrite append_nil_r. reflexivity.
  - rewrite join_cons, IH. reflexivity.
Qed.

Lemma join_comma_no_newline (l : list string) :
  Forall (fun x => JS.has_newline x = false) l ->
  JS.has_newline (JS.join "," l) = false.
Proof.
  induction 1 as [|x l Hx Hl IH]; [reflexivity|].
  destruct l as [|y l]; [exact Hx|].
  rewrite join_cons, !has_newline_app, Hx, IH. reflexivity.
Qed.

Lemma join_comma_not_empty sep (x y : string) (l : list string) :
  sep <> "" -> JS.join sep (x :: y :: l) <> "".
Proof.
  intros Hsep. rewrite join_cons. destruct x; simpl; [|discriminate].
  destruct sep; [contradiction | discriminate].
Qed.

Lemma following_lines_count (l : list string) :
  Forall (fun x => JS.has_newline x = false) l ->
  JS.count_newlines (CSVSpec.following_lines l) = List.length l.
Proof.
  induction 1 as [|x l Hx Hl IH]; [reflexivity|].
  cbn [CSVSpec.following_lines List.length].
  rewrite !count_newlines_app, IH, (count_newlines_none x Hx). reflexivity.
Qed.

Lemma following_lines_split cur (l : list string) :
  Forall (fun x => JS.has_newline x = false) l ->
  JS.lines_from cur (CSVSpec.following_lines l) = cur :: l.
Proof.
  intros H. revert cur. induction H as [|x l Hx Hl IH]; intros cur; [reflexivity|].
  cbn [CSVSpec.following_lines]. unfold JS.LF at 1. cbn [append JS.lines_from].
  change (JS.is_newline (ascii_of_nat 10)) with true. cbv iota. destruct l as [|y l].
  - simpl. rewrite append_nil_r, lines_from_end by exact Hx. reflexivity.
  - rewrite lines_from_no_newline by exact Hx. simpl append at 1.
    rewrite IH. reflexivity.
Qed.

Lemma following_lines_end (l : list string) :
  Forall (fun x => JS.has_newline x = false) l ->
  List.last l "x" <> "" ->
  forall h, JS.has_newline h = false ->
  JS.ends_with_newline (h ++ CSVSpec.following_lines l) = false.
Proof.
  induction 1 as [|x l Hx Hl IH]; intros Hlast h Hh.
  - simpl. rewrite append_nil_r. apply ends_with_newline_none, Hh.
  - cbn [CSVSpec.following_lines].
    rewrite ends_with_newline_app by (unfold JS.LF; discriminate).
    destruct l as [|y l].
    + cbn [CSVSpec.following_lines]. rewrite append_nil_r.
      cbn [List.last] in Hlast.
      rewrite ends_with_newline_app by exact Hlast.
      apply ends_with_newline_none, Hx.
    + rewrite ends_with_newline_app.
      * apply IH; [exact Hlast | exact Hx].
      * cbn [CSVSpec.following_lines]. destruct x; unfold JS.LF; discriminate.
Qed.

End Strings.


(** ** The CSV text *)

Section CSV.

Local Open Scope string_scope.

Lemma field_text_ToString (v : JS.value) : CSVSpec.field_text v = JS.ToString v.
Proof. destruct v as [?|[]|?]; reflexivity. Qed.

Lemma record_line_values (r : JS.object) :
  JS.join_values "," (JS.Object_values r) = CSVSpec.record_line r.
Proof.
  unfold JS.join_values, JS.Object_values, CSVSpec.record_line.
  rewrite List.map_map. apply (f_equal (JS.join ",")), List.map_ext.
  intros kv. symmetry. apply field_text_ToString.
Qed.

Lemma csv_is_spec_text (first : JS.object) (rest : list JS.object) :
  JS.csv (first :: rest) =
  JS.Normal (CSVSpec.header_line first
               ++ CSVSpec.following_lines (List.map CSVSpec.record_line (first :: rest))).
Proof.
  unfold JS.csv. rewrite join_as_following_lines. f_equal. f_equal. f_equal.
  apply List.map_ext. intros r. apply record_line_values.
Qed.

Lemma record_line_no_newline (r : JS.object) :
  Forall (fun v => JS.has_newline (JS.ToString v) = false) (JS.Object_values r) ->
  JS.has_newline (CSVSpec.record_line r) = false.
Proof.
  intros H. rewrite <- record_line_values. unfold JS.join_values.
  apply join_comma_no_newline. apply Forall_map. exact H.
Qed.

Lemma record_line_not_empty (r : JS.object) :
  (2 <= List.length r)%nat -> CSVSpec.record_line r <> "".
Proof.
  destruct r as [|kv1 [|kv2 r]]; cbn [List.length]; try lia.
  intros _. unfold CSVSpec.record_line. cbn [List.map].
  apply join_comma_not_empty. discriminate.
Qed.

Lemma last_not_empty (l : list string) (d : string) :
  l <> [] -> Forall (fun x => x <> "") l -> List.last l d <> "".
Proof.
  intros Hne H. induction H as [|x l Hx Hl IH]; [contradiction|].
  destruct l as [|y l]; [exact Hx|]. apply IH. discriminate.
Qed.

(** The shape of the text for rows of at least two fields whose keys and
    field texts are free of line feeds. *)
Lemma csv_lines (first : JS.object) (rest : list JS.object) :
  Forall (fun k => JS.has_newline k = false) (JS.Object_keys first) ->
  Forall (fun r => Forall (fun v => JS.has_newline (JS.ToString v) = false)
                     (JS.Object_values r)) (first :: rest) ->
  Forall (fun r => (2 <= List.length r)%nat) (first :: rest) ->
  exists t,
    JS.csv (first :: rest) = JS.Normal t /\
    JS.count_newlines t = List.length (first :: rest) /\
    JS.lines t = CSVSpec.header_line first :: List.map CSVSpec.record_line (first :: rest) /\
    JS.ends_with_newline t = false.
Proof.
  intros Hkeys Hvals Hlen.
  set (rows := List.map CSVSpec.record_line (first :: rest)).
  assert (Hhead : JS.has_newline (CSVSpec.header_line first) = false)
    by (apply join_comma_no_newline, Hkeys).
  assert (Hrows : Forall (fun x => JS.has_newline x = false) rows).
  { apply Forall_map. eapply Forall_impl; [exact Hvals|].
    intros r Hr. apply record_line_no_newline, Hr. }
  assert (Hlast : List.last rows "x" <> "").
  { apply last_not_empty; [discriminate|].
    apply Forall_map. eapply Forall_impl; [exact Hlen|].
    intros r Hr. apply record_line_not_empty, Hr. }
  exists (CSVSpec.header_line first ++ CSVSpec.following_lines rows).
  split; [apply csv_is_spec_text|].
  split.
  { rewrite count_newlines_app, (count_newlines_none _ Hhead), following_lines_count
      by exact Hrows.
    subst rows. rewrite List.length_map. reflexivity. }
  split.
  { unfold JS.lines. rewrite lines_from_no_newline by exact Hhead.
    apply following_lines_split, Hrows. }
  apply following_lines_end; assumption.
Qed.

End CSV.

(** C3. For a non-empty sequence of flat records the CSV expression gives
    the first record's keys joined with commas, then for each record in
    order a line feed and that record's own values (numbers in decimal,
    booleans as [true]/[false], strings verbatim) joined with commas.  The
    record [{SMILES: "CCO", Valid: true, MolecularWeight: 46.07}] gives
    the header [SMILES,Valid,MolecularWeight], a line feed and
    [CCO,true,46.07]; a string field is copied as it is, whatever it
    contains. *)
Theorem csv_serialization_format :
  (forall (first : JS.object) (rest : list JS.object),
      JS.csv (first :: rest) =
      JS.Normal (CSVSpec.header_line first
                   ++ CSVSpec.following_lines
                        (List.map CSVSpec.record_line (first :: rest)))%string)
  /\
  JS.csv [CSVSpec.example_record] =
    JS.Normal ("SMILES,Valid,MolecularWeight" ++ JS.LF ++ "CCO,true,46.07")%string
  /\
  (forall (k1 k2 : string) (v1 v2 : string),
      JS.csv [[(k1, JS.VString v1); (k2, JS.VString v2)]] =
      JS.Normal (k1 ++ "," ++ k2 ++ JS.LF ++ v1 ++ "," ++ v2)%string).
Proof.
  split; [exact csv_is_spec_text|].
  split; [vm_compute; reflexivity|].
  intros k1 k2 v1 v2. unfold JS.csv. cbn [List.map JS.Object_keys JS.Object_values fst snd].
  unfold JS.join_values. cbn [List.map JS.ToString JS.join].
  rewrite !append_assoc. reflexivity.
Qed.

(** ** The export handlers *)

Lemma vae_export_empty (s : VAEModule.State) :
  VAEModule.generatedMolecules s = [] ->
  CSVSpec.is_empty_export (VAEModule.exportResults s) /\
  CSVSpec.exported (VAEModule.exportResults s) = None.
Proof.
  intros H. unfold VAEModule.exportResults. rewrite H. cbn [List.length Nat.eqb].
  repeat split.
Qed.

Lemma vae_export_nonempty (s : VAEModule.State) :
  VAEModule.generatedMolecules s <> [] ->
  exists t, JS.csv (VAEModule.data s) = JS.Normal t /\
            CSVSpec.exported (VAEModule.exportResults s) = Some t.
Proof.
  intros H. unfold VAEModule.exportResults, VAEModule.data.
  destruct (VAEModule.generatedMolecules s) as [|mol l]; [contradiction|].
  cbn [List.length Nat.eqb List.map]. rewrite csv_is_spec_text.
  eexists. split; reflexivity.
Qed.

Lemma smiles_export_empty (s : SMILESModule.State) :
  SMILESModule.batchResults s = [] ->
  CSVSpec.is_empty_export (SMILESModule.exportResults s) /\
  CSVSpec.exported (SMILESModule.exportResults s) = None.
Proof.
  intros H. unfold SMILESModule.exportResults. rewrite H. cbn [List.length Nat.eqb].
  repeat split.
Qed.

Lemma smiles_export_nonempty (s : SMILESModule.State) :
  SMILESModule.batchResults s <> [] ->
  exists t, JS.csv (SMILESModule.data s) = JS.Normal t /\
            CSVSpec.exported (SMILESModule.exportResults s) = Some t.
Proof.
  intros H. unfold SMILESModule.exportResults, SMILESModule.data.
  destruct (SMILESModule.batchResults s) as [|r l]; [contradiction|].
  cbn [List.length Nat.eqb List.map]. rewrite csv_is_spec_text.
  eexists. split; reflexivity.
Qed.

Lemma vae_export_success (s : VAEModule.State) :
  VAEModule.generatedMolecules s <> [] ->
  exists t,
    JS.csv (List.map VAEModule.row (VAEModule.generatedMolecules s)) = JS.Normal t /\
    VAEModule.exportResults s =
    {| JS.downloaded := Some {| JS.download := "vae_generated_molecules.csv";
                                JS.mime := "text/csv";
                                JS.content := t |};
       JS.toasted :=
         {| JS.title := "Export Complete";
            JS.description :=
              ("Exported "
                 ++ JSNumber.toString
                      (JSNumber.of_Z (Z.of_nat (List.length (VAEModule.generatedMolecules s))))
                 ++ " molecules to CSV file")%string;
            JS.toast_variant := JS.default |} |}.
Proof.
  intros H. unfold VAEModule.exportResults, VAEModule.data, VAEModule.length_text.
  destruct (VAEModule.generatedMolecules s) as [|mol l]; [contradiction|].
  cbn [List.length Nat.eqb]. rewrite List.length_map.
  cbn [List.map List.length]. rewrite csv_is_spec_text.
  eexists. split; reflexivity.
Qed.

Lemma smiles_export_success (s : SMILESModule.State) :
  SMILESModule.batchResults s <> [] ->
  exists t,
    JS.csv (List.map SMILESModule.row (SMILESModule.batchResults s)) = JS.Normal t /\
    SMILESModule.exportResults s =
    {| JS.downloaded := Some {| JS.download := "smiles_analysis_results.csv";
                                JS.mime := "text/csv";
                                JS.content := t |};
       JS.toasted :=
         {| JS.title := "Export Complete";
            JS.description :=
              ("Exported "
                 ++ JSNumber.toString
                      (JSNumber.of_Z (Z.of_nat (List.length (SMILESModule.batchResults s))))
                 ++ " analysis results to CSV file")%string;
            JS.toast_variant := JS.default |} |}.
Proof.
  intros H. unfold SMILESModule.exportResults, SMILESModule.data, SMILESModule.length_text.
  destruct (SMILESModule.batchResults s) as [|r l]; [contradiction|].
  cbn [List.length Nat.eqb]. rewrite List.length_map.
  cbn [List.map List.length]. rewrite csv_is_spec_text.
  eexists. split; reflexivity.
Qed.

(** C6. With no records the export raises the "No Data to Export"
    notification and offers no file, and does nothing else.  With at
    least one record it succeeds: the file offered holds the CSV text of
    the rows of the whole source list, under the panel's file name, and
    the toast is "Export Complete" with the number of rows.  Hence a file
    with its text is produced exactly when there is at least one
    record. *)
Theorem empty_export_notifies :
  (forall s : VAEModule.State,
      (VAEModule.generatedMolecules s = [] ->
       CSVSpec.is_empty_export (VAEModule.exportResults s) /\
       CSVSpec.exported (VAEModule.exportResults s) = None /\
       VAEModule.exportResults s =
       {| JS.downloaded := None;
          JS.toasted :=
            {| JS.title := "No Data to Export";
               JS.description := "Generate some molecules first before exporting";
               JS.toast_variant := JS.destructive |} |}) /\
      (VAEModule.generatedMolecules s <> [] ->
       exists t,
         JS.csv (List.map VAEModule.row (VAEModule.generatedMolecules s)) = JS.Normal t /\
         CSVSpec.exported (VAEModule.exportResults s) = Some t /\
         VAEModule.exportResults s =
         {| JS.downloaded := Some {| JS.download := "vae_generated_molecules.csv";
                                     JS.mime := "text/csv";
                                     JS.content := t |};
            JS.toasted :=
              {| JS.title := "Export Complete";
                 JS.description :=
                   ("Exported "
                      ++ JSNumber.toString
                           (JSNumber.of_Z
                              (Z.of_nat (List.length (VAEModule.generatedMolecules s))))
                      ++ " molecules to CSV file")%string;
                 JS.toast_variant := JS.default |} |}) /\
      (is_Some (CSVSpec.exported (VAEModule.exportResults s)) <->
       VAEModule.generatedMolecules s <> []))
  /\
  (forall s : SMILESModule.State,
      (SMILESModule.batchResults s = [] ->
       CSVSpec.is_empty_export (SMILESModule.exportResults s) /\
       CSVSpec.exported (SMILESModule.exportResults s) = None /\
       SMILESModule.exportResults s =
       {| JS.downloaded := None;
          JS.toasted :=
            {| JS.title := "No Data to Export";
               JS.description := "Analyze some molecules first before exporting";
               JS.toast_variant := JS.destructive |} |}) /\
      (SMILESModule.batchResults s <> [] ->
       exists t,
         JS.csv (List.map SMILESModule.row (SMILESModule.batchResults s)) = JS.Normal t /\
         CSVSpec.exported (SMILESModule.exportResults s) = Some t /\
         SMILESModule.exportResults s =
         {| JS.downloaded := Some {| JS.download := "smiles_analysis_results.csv";
                                     JS.mime := "text/csv";
                                     JS.content := t |};
            JS.toasted :=
              {| JS.title := "Export Complete";
                 JS.description :=
                   ("Exported "
                      ++ JSNumber.toString
                           (JSNumber.of_Z
                              (Z.of_nat (List.length (SMILESModule.batchResults s))))
                      ++ " analysis results to CSV file")%string;
                 JS.toast_variant := JS.default |} |}) /\
      (is_Some (CSVSpec.exported (SMILESModule.exportResults s)) <->
       SMILESModule.batchResults s <> [])).
Proof.
  split; intros s.
  - split.
    { intros H. destruct (vae_export_empty s H) as [H1 H2].
      split; [exact H1|]. split; [exact H2|].
      unfold VAEModule.exportResults. rewrite H. reflexivity. }
    split.
    { intros Hne. destruct (vae_export_success s Hne) as (t & Hcsv & Heq).
      exists t. split; [exact Hcsv|]. split; [rewrite Heq; reflexivity | exact Heq]. }
    split.
    + intros [t Ht] Hnil. apply vae_export_empty in Hnil as [_ Hnone]. congruence.
    + intros Hne. destruct (vae_export_nonempty s Hne) as (t & _ & Ht). exists t. exact Ht.
  - split.
    { intros H. destruct (smiles_export_empty s H) as [H1 H2].
      split; [exact H1|]. split; [exact H2|].
      unfold SMILESModule.exportResults. rewrite H. reflexivity. }
    split.
    { intros Hne. destruct (smiles_export_success s Hne) as (t & Hcsv & Heq).
      exists t. split; [exact Hcsv|]. split; [rewrite Heq; reflexivity | exact Heq]. }
    split.
    + intros [t Ht] Hnil. apply smiles_export_empty in Hnil as [_ Hnone]. congruence.
    + intros Hne. destruct (smiles_export_nonempty s Hne) as (t & _ & Ht). exists t. exact Ht.
Qed.

Lemma empty_export_notifies_witness :
  let s := {| VAEModule.generatedMolecules := [];
              VAEModule.filteredMolecules := [];
              VAEModule.showFilters := false |} in
  VAEModule.generatedMolecules s = [] /\
  CSVSpec.is_empty_export (VAEModule.exportResults s) /\
  CSVSpec.exported (VAEModule.exportResults s) = None.
Proof.
  cbv zeta. split; [reflexivity|].
  destruct (proj1 (proj1 empty_export_notifies
                     {| VAEModule.generatedMolecules := [];
                        VAEModule.filteredMolecules := [];
                        VAEModule.showFilters := false |}) eq_refl) as (H1 & H2 & _).
  split; [exact H1 | exact H2].
Defined.

(** ** Lines of the exported file *)

Lemma vae_row_shape (mol : VAEModule.GeneratedMolecule) :
  Forall (fun k => JS.has_newline k = false) (JS.Object_keys (VAEModule.row mol)) /\
  (2 <= List.length (VAEModule.row mol))%nat /\
  CSVSpec.header_line (VAEModule.row mol)
    = "SMILES,DrugLikeness,MolecularWeight,LogP,HBD,HBA,TPSA"%string.
Proof.
  split; [repeat constructor|]. split; [cbn; lia | reflexivity].
Qed.

Lemma smiles_row_shape (r : SMILESModule.SMILESAnalysis) :
  Forall (fun k => JS.has_newline k = false) (JS.Object_keys (SMILESModule.row r)) /\
  (2 <= List.length (SMILESModule.row r))%nat /\
  CSVSpec.header_line (SMILESModule.row r)
    = ("SMILES,Valid,MolecularWeight,Formula,Atoms,Bonds,Rings,"
       ++ "AromaticRings,Heteroatoms,RotatableBonds,LipinskiViolations")%string.
Proof.
  split; [repeat constructor|]. split; [cbn; lia | reflexivity].
Qed.

(** C10. For a non-empty source list of [n] records whose serialized
    field values hold no line feed, the exported text has exactly [n]
    line feeds, splits into [n + 1] lines (the header, then one line per
    record in source order) and does not end with a line feed. *)
Theorem csv_line_count :
  (forall s : VAEModule.State,
      VAEModule.generatedMolecules s <> [] ->
      Forall (fun mol => Forall (fun v => JS.has_newline (JS.ToString v) = false)
                           (JS.Object_values (VAEModule.row mol)))
             (VAEModule.generatedMolecules s) ->
      exists t,
        CSVSpec.exported (VAEModule.exportResults s) = Some t /\
        JS.count_newlines t = List.length (VAEModule.generatedMolecules s) /\
        JS.lines t =
          "SMILES,DrugLikeness,MolecularWeight,LogP,HBD,HBA,TPSA"%string
          :: List.map (fun mol => CSVSpec.record_line (VAEModule.row mol))
               (VAEModule.generatedMolecules s) /\
        List.length (JS.lines t) = S (List.length (VAEModule.generatedMolecules s)) /\
        JS.ends_with_newline t = false)
  /\
  (forall s : SMILESModule.State,
      SMILESModule.batchResults s <> [] ->
      Forall (fun r => Forall (fun v => JS.has_newline (JS.ToString v) = false)
                         (JS.Object_values (SMILESModule.row r)))
             (SMILESModule.batchResults s) ->
      exists t,
        CSVSpec.exported (SMILESModule.exportResults s) = Some t /\
        JS.count_newlines t = List.length (SMILESModule.batchResults s) /\
        JS.lines t =
          ("SMILES,Valid,MolecularWeight,Formula,Atoms,Bonds,Rings,"
           ++ "AromaticRings,Heteroatoms,RotatableBonds,LipinskiViolations")%string
          :: List.map (fun r => CSVSpec.record_line (SMILESModule.row r))
               (SMILESModule.batchResults s) /\
        List.length (JS.lines t) = S (List.length (SMILESModule.batchResults s)) /\
        JS.ends_with_newline t = false).
Proof.
  split; intros s Hne Hvals.
  - destruct (vae_export_nonempty s Hne) as (t & Hcsv & Hexp).
    unfold VAEModule.data in Hcsv.
    destruct (VAEModule.generatedMolecules s) as [|mol l]; [contradiction|].
    destruct (vae_row_shape mol) as (Hkeys & _ & Hhead).
    destruct (csv_lines (VAEModule.row mol) (List.map VAEModule.row l)) as (t' & Ht' & Hcount & Hlines & Hend).
    + exact Hkeys.
    + apply (Forall_map VAEModule.row _ (mol :: l)). exact Hvals.
    + apply (Forall_map VAEModule.row _ (mol :: l)).
      apply List.Forall_forall. intros x _. apply vae_row_shape.
    + cbn [List.map] in Hcsv. rewrite Ht' in Hcsv. injection Hcsv as <-.
      exists t'. split; [exact Hexp|].
      rewrite Hhead in Hlines.
      change (VAEModule.row mol :: List.map VAEModule.row l)
        with (List.map VAEModule.row (mol :: l)) in *.
      rewrite List.map_map in Hlines. rewrite List.length_map in Hcount.
      split; [exact Hcount|]. split; [exact Hlines|].
      split; [|exact Hend].
      rewrite Hlines. cbn [List.length]. rewrite List.length_map. reflexivity.
  - destruct (smiles_export_nonempty s Hne) as (t & Hcsv & Hexp).
    unfold SMILESModule.data in Hcsv.
    destruct (SMILESModule.batchResults s) as [|r l]; [contradiction|].
    destruct (smiles_row_shape r) as (Hkeys & _ & Hhead).
    destruct (csv_lines (SMILESModule.row r) (List.map SMILESModule.row l)) as (t' & Ht' & Hcount & Hlines & Hend).
    + exact Hkeys.
    + apply (Forall_map SMILESModule.row _ (r :: l)). exact Hvals.
    + apply (Forall_map SMILESModule.row _ (r :: l)).
      apply List.Forall_forall. intros x _. apply smiles_row_shape.
    + cbn [List.map] in Hcsv. rewrite Ht' in Hcsv. injection Hcsv as <-.
      exists t'. split; [exact Hexp|].
      rewrite Hhead in Hlines.
      change (SMILESModule.row r :: List.map SMILESModule.row l)
        with (List.map SMILESModule.row (r :: l)) in *.
      rewrite List.map_map in Hlines. rewrite List.length_map in Hcount.
      split; [exact Hcount|]. split; [exact Hlines|].
      split; [|exact Hend].
      rewrite Hlines. cbn [List.length]. rewrite List.length_map. reflexivity.
Qed.

Lemma csv_line_count_witness :
  exists t,
    CSVSpec.exported (SMILESModule.exportResults Samples.smiles_state) = Some t /\
    JS.count_newlines t = 3%nat /\
    List.length (JS.lines t) = 4%nat /\
    JS.ends_with_newline t = false.
Proof.
  assert (Hne : SMILESModule.batchResults Samples.smiles_state <> []) by discriminate.
  assert (Hvals : Forall (fun r => Forall (fun v => JS.has_newline (JS.ToString v) = false)
                                     (JS.Object_values (SMILESModule.row r)))
                    (SMILESModule.batchResults Samples.smiles_state)).
  { repeat (apply List.Forall_cons;
            [repeat (apply List.Forall_cons; [vm_compute; reflexivity|]);
             apply List.Forall_nil|]).
    apply List.Forall_nil. }
  destruct (proj2 csv_line_count Samples.smiles_state Hne Hvals)
    as (t & Hexp & Hcount & _ & Hlen & Hend).
  exists t. split; [exact Hexp|]. split; [exact Hcount|]. split; [exact Hlen | exact Hend].
Defined.

(** ** [toFixed] on sample values *)

Example toFixed_samples :
  [ JSMath.toFixed 1 (JSNumber.of_decimal 18016 2);
    JSMath.toFixed 2 (JSNumber.of_decimal 5 3);
    JSMath.toFixed 1 (JSNumber.of_decimal 25 2);
    JSMath.toFixed 2 (JSNumber.of_decimal 1005 3);
    JSMath.toFixed 1 (JSNumber.of_Z 0);
    JSMath.toFixed 3 (JSNumber.of_decimal (-12345) 4);
    JSMath.toFixed 0 (JSNumber.of_decimal 25 1);
    JSMath.toFixed 2 (JSNumber.of_Z (10 ^ 21));
    JSMath.toFixed 1 (JSNumber.of_decimal (-4) 2);
    JSMath.toFixed 2 JSNumber.NaN ]
  = [ "180.2"; "0.01"; "0.3"; "1.00"; "0.0"; "-1.234"; "3"; "1e+21"; "-0.0"; "NaN" ]%string.
Proof. vm_compute. reflexivity. Qed.

Example floor_samples :
  List.map (fun x => JSNumber.toString (JSMath.floor x))
    [ JSNumber.of_decimal 25 1; JSNumber.of_decimal (-25) 1; JSNumber.of_decimal 5 1;
      JSNumber.of_decimal (-5) 1; JSNumber.of_Z 7; JSNumber.of_decimal 3999 1 ]
  = [ "2"; "-3"; "0"; "-1"; "7"; "399" ]%string.
Proof. vm_compute. reflexivity. Qed.

(** ** Further properties of the two filters *)

Lemma filter_sublist_mono {A} (f g : A -> bool) (l : list A) :
  (forall x, f x = true -> g x = true) ->
  List.filter f l `sublist_of` List.filter g l.
Proof.
  intros Hfg. induction l as [|x l IH]; simpl; [constructor|].
  destruct (f x) eqn:Hf.
  - rewrite (Hfg x Hf). apply sublist_skip, IH.
  - destruct (g x); [apply sublist_cons|]; exact IH.
Qed.

(** X1. Applying criteria never narrows an earlier selection: the stored
    list depends on the source list and the last criteria only, so a
    second application replaces the first, and re-applying the same
    criteria changes nothing. *)
Theorem filter_replaces_previous_selection :
  (forall (c1 c2 : FilterCriteria) (s : VAEModule.State),
      VAEModule.handleFilterChange c2 (VAEModule.handleFilterChange c1 s)
        = VAEModule.handleFilterChange c2 s /\
      VAEModule.handleFilterChange c1 (VAEModule.handleFilterChange c1 s)
        = VAEModule.handleFilterChange c1 s)
  /\
  (forall (c1 c2 : FilterCriteria) (s : SMILESModule.State),
      SMILESModule.handleFilterChange c2 (SMILESModule.handleFilterChange c1 s)
        = SMILESModule.handleFilterChange c2 s /\
      SMILESModule.handleFilterChange c1 (SMILESModule.handleFilterChange c1 s)
        = SMILESModule.handleFilterChange c1 s).
Proof.
  split; intros c1 c2 s; split; reflexivity.
Qed.

Lemma vae_matches_widens (c c' : FilterCriteria) (mol : VAEModule.GeneratedMolecule) :
  FilterSummary.widens c c' ->
  VAEModule.matches c mol = true -> VAEModule.matches c' mol = true.
Proof.
  intros (W1 & W2 & W3 & W4 & W5 & W6 & W7 & W8 & W9).
  rewrite !vae_matches_iff. cbv zeta.
  intros (H1 & H2 & H3 & H4 & H5 & H6 & H7 & H8 & H9).
  repeat split; eauto using le_trans.
Qed.

(** X2. Widening every bound of the criteria can only add records: the
    list the generator panel stores for the narrower criteria is a
    subsequence of the list it stores for the wider ones. *)
Theorem vae_filter_monotone :
  forall (c c' : FilterCriteria) (s : VAEModule.State),
    FilterSummary.widens c c' ->
    VAEModule.filteredMolecules (VAEModule.handleFilterChange c s)
      `sublist_of` VAEModule.filteredMolecules (VAEModule.handleFilterChange c' s).
Proof.
  intros c c' s Hw. simpl. apply filter_sublist_mono.
  intros mol. apply vae_matches_widens, Hw.
Qed.

Lemma vae_filter_monotone_witness :
  FilterSummary.widens Samples.light_only defaultCriteria /\
  VAEModule.filteredMolecules (VAEModule.handleFilterChange Samples.light_only Samples.vae_state)
    `sublist_of`
  VAEModule.filteredMolecules (VAEModule.handleFilterChange defaultCriteria Samples.vae_state).
Proof.
  assert (H : FilterSummary.widens Samples.light_only defaultCriteria)
    by (repeat split; reflexivity).
  split; [exact H|].
  exact (vae_filter_monotone Samples.light_only defaultCriteria Samples.vae_state H).
Defined.

(** ** The summary of active filters *)

Lemma eqb_not_lt x y :
  SFeqb x y = true -> (x <# y) = false /\ (y <# x) = false.
Proof.
  unfold SFeqb, JSNumber.lt, JSNumber.lessThan.
  destruct x as [sx| sx| |sx mx ex], y as [sy| sy| |sy my ey]; simpl;
    repeat match goal with b : bool |- _ => destruct b end; simpl;
    try (intros; (discriminate || (split; reflexivity))).
  all: rewrite (Z.compare_antisym ey ex);
    change (Pos.compare_cont Eq my mx) with (Pos.compare my mx);
    change (Pos.compare_cont Eq mx my) with (Pos.compare mx my);
    rewrite (Pos.compare_antisym my mx);
    destruct (Z.compare ey ex); simpl;
    destruct (Pos.compare my mx); simpl;
    intros; (discriminate || (split; reflexivity)).
Qed.

Lemma lessThan_None_sym x y :
  JSNumber.lessThan x y = None -> JSNumber.lessThan y x = None.
Proof.
  unfold JSNumber.lessThan.
  destruct (SFcompare x y) as [[]|] eqn:E; try discriminate. intros _.
  apply compare_None in E as [->| ->]; [destruct y | destruct x]; reflexivity.
Qed.

(** Not above a bound one is at least: equal to it. *)
Lemma not_gt_at_least x y :
  (x ># y) = false -> (y <=# x) = true -> SFeqb x y = true.
Proof.
  intros Hgt Hle. apply le_antisym; [|exact Hle].
  unfold JSNumber.gt in Hgt. unfold JSNumber.le in *.
  destruct (JSNumber.lessThan y x) as [[]|] eqn:E; [discriminate | reflexivity |].
  apply lessThan_None_sym in E. rewrite E in Hle. discriminate.
Qed.

(** Not below a bound one is at most: equal to it. *)
Lemma not_lt_at_most x y :
  (x <# y) = false -> (x <=# y) = true -> SFeqb x y = true.
Proof.
  intros Hlt Hle. apply le_antisym; [exact Hle|].
  unfold JSNumber.lt in Hlt. unfold JSNumber.le in *.
  destruct (JSNumber.lessThan x y) as [[]|] eqn:E; [discriminate | reflexivity |].
  apply lessThan_None_sym in E. rewrite E in Hle. discriminate.
Qed.

Lemma app_if_nil {A} (b : bool) (x : A) (l : list A) :
  ((if b then [x] else []) ++ l = [] <-> b = false /\ l = [])%list.
Proof.
  destruct b; simpl; split; try discriminate; intros; try tauto.
  destruct H; discriminate.
Qed.

(** X3. With every thumb inside its slider, the summary shows no badge
    exactly when molecular weight, logP, donors, acceptors and QED are at
    their reset positions and the Lipinski switch is off; the TPSA range
    and the SAS limit are never summarised, whatever they are set to. *)
Theorem summary_empty_iff_reset :
  forall st : PropertyFilter.State,
    FilterSummary.within_sliders st ->
    (FilterSummary.activeFilters st = [] <-> FilterSummary.summarised_at_reset st).
Proof.
  intros st (B1 & B2 & B3 & B4 & B5 & B6 & B7).
  unfold FilterSummary.activeFilters, FilterSummary.summarised_at_reset.
  rewrite !app_if_nil, !orb_false_iff.
  split.
  - intros ((M1 & M2) & (L1 & L2) & Hd & Ha & Hq & Hl).
    repeat split;
      try (apply not_gt_at_least; assumption);
      try (apply not_lt_at_most; assumption).
    destruct (st_lipinskiCompliant st); [discriminate | reflexivity].
  - intros (M1 & M2 & L1 & L2 & Hd & Ha & Hq & Hl).
    rewrite Hl.
    apply eqb_not_lt in M1, M2, L1, L2, Hd, Ha, Hq.
    unfold JSNumber.gt.
    change (match JSNumber.lessThan (JSNumber.of_Z 0) (fst (st_mwRange st)) with
            | Some true => true | _ => false end)
      with (JSNumber.of_Z 0 <# fst (st_mwRange st)).
    change (match JSNumber.lessThan (JSNumber.of_Z (-5)) (fst (st_logpRange st)) with
            | Some true => true | _ => false end)
      with (JSNumber.of_Z (-5) <# fst (st_logpRange st)).
    change (match JSNumber.lessThan (JSNumber.of_Z 0) (st_qedMin st) with
            | Some true => true | _ => false end)
      with (JSNumber.of_Z 0 <# st_qedMin st).
    intuition.
Qed.

Lemma summary_empty_iff_reset_witness :
  let st := {| st_mwRange := (JSNumber.of_Z 0, JSNumber.of_Z 1000);
               st_logpRange := (JSNumber.of_Z (-5), JSNumber.of_Z 5);
               st_hbdMax := JSNumber.of_Z 10;
               st_hbaMax := JSNumber.of_Z 20;
               st_tpsaRange := (JSNumber.of_Z 50, JSNumber.of_Z 60);
               st_lipinskiCompliant := false;
               st_qedMin := JSNumber.of_Z 0;
               st_sasMax := JSNumber.of_Z 3 |} in
  FilterSummary.within_sliders st /\ FilterSummary.activeFilters st = [] /\
  VAEModule.filteredMolecules
    (VAEModule.handleFilterChange (applyFilters st) Samples.vae_state) = [].
Proof.
  cbv zeta. split; [repeat split|]. split; [|vm_compute; reflexivity].
  apply summary_empty_iff_reset; repeat split.
Defined.

(** ** The characters of a printed number *)

Section Characters.

Local Open Scope string_scope.

Variable p : ascii -> bool.

Lemma only_app (a b : string) :
  CSVShape.only p (a ++ b) = CSVShape.only p a && CSVShape.only p b.
Proof. unfold CSVShape.only. rewrite chars_app. apply forallb_app. Qed.

Lemma only_substring (n m : nat) (s : string) :
  CSVShape.only p s = true -> CSVShape.only p (substring n m s) = true.
Proof.
  revert n m. induction s as [|c s IH]; intros n m H.
  - destruct n, m; reflexivity.
  - unfold CSVShape.only in H. cbn [list_ascii_of_string forallb] in H.
    apply andb_true_iff in H as [Hc Hs].
    destruct n as [|n]; [destruct m as [|m]; [reflexivity|] |]; cbn [substring].
    + unfold CSVShape.only. cbn [list_ascii_of_string forallb].
      rewrite Hc. apply (IH 0%nat m Hs).
    + apply (IH n m Hs).
Qed.

Lemma only_zeros (n : nat) :
  p "0"%char = true -> CSVShape.only p (JSNumber.zeros n) = true.
Proof.
  intros H0. induction n as [|n IH]; [reflexivity|].
  unfold CSVShape.only. cbn [JSNumber.zeros list_ascii_of_string forallb].
  rewrite H0. exact IH.
Qed.

End Characters.

Lemma only_impl (p q : ascii -> bool) (s : string) :
  (forall c, p c = true -> q c = true) ->
  CSVShape.only p s = true -> CSVShape.only q s = true.
Proof.
  intros Hpq. unfold CSVShape.only.
  induction (list_ascii_of_string s) as [|c l IH]; [reflexivity|].
  cbn [forallb]. intros H. apply andb_true_iff in H as [Hc Hl].
  rewrite (Hpq c Hc), (IH Hl). reflexivity.
Qed.

Lemma only_digits_uint (d : Decimal.uint) :
  CSVShape.only CSVShape.numeric_char (NilEmpty.string_of_uint d) = true.
Proof.
  induction d; try reflexivity;
    unfold CSVShape.only; cbn [NilEmpty.string_of_uint list_ascii_of_string forallb];
    (apply andb_true_iff; split; [reflexivity | exact IHd]).
Qed.

Lemma only_digits (z : Z) :
  CSVShape.only CSVShape.numeric_char (JSNumber.digits z) = true.
Proof.
  unfold JSNumber.digits, NilZero.string_of_uint.
  destruct (N.to_uint (Z.to_N z)); try reflexivity; apply only_digits_uint.
Qed.

Lemma digits_not_empty (z : Z) : JSNumber.digits z <> ""%string.
Proof.
  unfold JSNumber.digits, NilZero.string_of_uint.
  destruct (N.to_uint (Z.to_N z)); discriminate.
Qed.

Ltac numeric_pieces :=
  repeat (rewrite only_app; apply andb_true_iff; split);
  first [ apply only_digits
        | apply only_substring, only_digits
        | apply only_zeros; reflexivity
        | reflexivity ].

Lemma only_format (s n : Z) :
  CSVShape.only CSVShape.numeric_char (JSNumber.format s n) = true.
Proof.
  unfold JSNumber.format. cbv zeta.
  repeat match goal with
         | |- context [if ?b then _ else _] => destruct b
         end; numeric_pieces.
Qed.

Lemma append_not_empty_l (a b : string) : a <> ""%string -> (a ++ b)%string <> ""%string.
Proof. destruct a; [contradiction | discriminate]. Qed.

Lemma append_not_empty_r (a b : string) : b <> ""%string -> (a ++ b)%string <> ""%string.
Proof. destruct a; [intros H; exact H | discriminate]. Qed.

Lemma format_not_empty (s n : Z) : JSNumber.format s n <> ""%string.
Proof.
  unfold JSNumber.format. cbv zeta.
  repeat match goal with
         | |- context [if ?b then _ else _] => destruct b
         end;
    first [ apply append_not_empty_l, digits_not_empty
          | apply append_not_empty_r; discriminate
          | discriminate ].
Qed.

Lemma toString_shape :
  forall x : number,
    JSNumber.toString x <> ""%string /\
    CSVShape.only CSVShape.numeric_char (JSNumber.toString x) = true /\
    CSVShape.only CSVShape.plain_char (JSNumber.toString x) = true /\
    JS.has_newline (JSNumber.toString x) = false /\
    CSVShape.count_commas (JSNumber.toString x) = 0%nat.
Proof.
  intros x.
  assert (Hne : JSNumber.toString x <> ""%string).
  { destruct x as [sg|sg| |sg m e]; cbn [JSNumber.toString]; try discriminate.
    - destruct sg; discriminate.
    - cbv zeta. destruct (JSNumber.shortest _ _ _) as [s q].
      apply append_not_empty_r, format_not_empty. }
  assert (Hnum : CSVShape.only CSVShape.numeric_char (JSNumber.toString x) = true).
  { destruct x as [sg|sg| |sg m e]; cbn [JSNumber.toString]; try reflexivity.
    - destruct sg; reflexivity.
    - cbv zeta. destruct (JSNumber.shortest _ _ _) as [s q].
      rewrite only_app, only_format. destruct sg; reflexivity. }
  assert (Hplain : CSVShape.only CSVShape.plain_char (JSNumber.toString x) = true).
  { apply (only_impl CSVShape.numeric_char); [|exact Hnum].
    intros c Hc. unfold CSVShape.numeric_char in Hc.
    cbn [list_ascii_of_string existsb] in Hc.
    repeat (apply orb_true_iff in Hc as [Hc|Hc];
            [apply Ascii.eqb_eq in Hc; subst c; reflexivity|]).
    discriminate. }
  split; [exact Hne|]. split; [exact Hnum|]. split; [exact Hplain|].
  unfold CSVShape.only in Hplain. unfold JS.has_newline, CSVShape.count_commas.
  induction (list_ascii_of_string (JSNumber.toString x)) as [|c l IH]; [split; reflexivity|].
  cbn [forallb existsb List.filter] in *.
  apply andb_true_iff in Hplain as [Hc Hl].
  unfold CSVShape.plain_char in Hc. apply andb_true_iff in Hc as [Hc1 Hc2].
  apply negb_true_iff in Hc1, Hc2. rewrite Hc1, Hc2. cbn [orb]. exact (IH Hl).
Qed.

(** X4. A printed number is never empty and is made of digits, [.], [e],
    [+], [-] and the letters of [NaN] and [Infinity] only; in particular
    it holds neither a comma nor a line feed. *)
Theorem toString_characters :
  forall x : number,
    JSNumber.toString x <> ""%string /\
    CSVShape.only CSVShape.numeric_char (JSNumber.toString x) = true /\
    JS.has_newline (JSNumber.toString x) = false /\
    CSVShape.count_commas (JSNumber.toString x) = 0%nat.
Proof.
  intros x. destruct (toString_shape x) as (H1 & H2 & _ & H3 & H4). auto.
Qed.

(** ** Rectangular CSV *)

Section Rectangular.

Local Open Scope string_scope.

Lemma plain_spec (s : string) :
  CSVShape.only CSVShape.plain_char s = true ->
  JS.has_newline s = false /\ CSVShape.count_commas s = 0%nat.
Proof.
  unfold CSVShape.only, JS.has_newline, CSVShape.count_commas.
  induction (list_ascii_of_string s) as [|c l IH]; [split; reflexivity|].
  cbn [forallb existsb List.filter]. intros H.
  apply andb_true_iff in H as [Hc Hl].
  unfold CSVShape.plain_char in Hc. apply andb_true_iff in Hc as [Hc1 Hc2].
  apply negb_true_iff in Hc1, Hc2. rewrite Hc1, Hc2. cbn [orb]. exact (IH Hl).
Qed.

Lemma count_commas_app (a b : string) :
  CSVShape.count_commas (a ++ b) = (CSVShape.count_commas a + CSVShape.count_commas b)%nat.
Proof.
  unfold CSVShape.count_commas.
  rewrite chars_app, List.filter_app, List.length_app. reflexivity.
Qed.

Lemma count_commas_join (l : list string) :
  Forall (fun x => CSVShape.count_commas x = 0%nat) l ->
  CSVShape.count_commas (JS.join "," l) = Nat.pred (List.length l).
Proof.
  induction 1 as [|x l Hx Hl IH]; [reflexivity|].
  destruct l as [|y l]; [exact Hx|].
  rewrite join_cons, !count_commas_app, Hx, IH. reflexivity.
Qed.

Lemma ToString_plain (v : JS.value) :
  match v with
  | JS.VString s => CSVShape.only CSVShape.plain_char s = true
  | _ => True
  end ->
  JS.has_newline (JS.ToString v) = false /\ CSVShape.count_commas (JS.ToString v) = 0%nat.
Proof.
  destruct v as [s|[]|n]; cbn [JS.ToString].
  - apply plain_spec.
  - intros _. split; reflexivity.
  - intros _. split; reflexivity.
  - intros _. destruct (toString_shape n) as (_ & _ & _ & H1 & H2). split; assumption.
Qed.

(** A row whose string fields are plain gives a line free of line feeds
    with one comma less than it has fields. *)
Lemma record_line_commas (r : JS.object) :
  Forall (fun v => match v with
                   | JS.VString s => CSVShape.only CSVShape.plain_char s = true
                   | _ => True
                   end) (JS.Object_values r) ->
  Forall (fun v => JS.has_newline (JS.ToString v) = false) (JS.Object_values r) /\
  CSVShape.count_commas (CSVSpec.record_line r) = Nat.pred (List.length r).
Proof.
  intros H. split.
  - eapply Forall_impl; [exact H|]. intros v Hv. apply ToString_plain, Hv.
  - rewrite <- record_line_values. unfold JS.join_values.
    rewrite count_commas_join.
    + unfold JS.Object_values. rewrite !List.length_map. reflexivity.
    + apply Forall_map. eapply Forall_impl; [exact H|].
      intros v Hv. apply ToString_plain, Hv.
Qed.

Lemma vae_row_plain (mol : VAEModule.GeneratedMolecule) :
  CSVShape.only CSVShape.plain_char (VAEModule.smiles mol) = true ->
  Forall (fun v => JS.has_newline (JS.ToString v) = false)
    (JS.Object_values (VAEModule.row mol)) /\
  CSVShape.count_commas (CSVSpec.record_line (VAEModule.row mol)) = 6%nat.
Proof.
  intros H. apply (record_line_commas (VAEModule.row mol)).
  cbn [VAEModule.row JS.Object_values List.map snd]. repeat constructor. exact H.
Qed.

Lemma smiles_row_plain (r : SMILESModule.SMILESAnalysis) :
  CSVShape.only CSVShape.plain_char (SMILESModule.smiles r) = true ->
  CSVShape.only CSVShape.plain_char (SMILESModule.formula r) = true ->
  Forall (fun v => JS.has_newline (JS.ToString v) = false)
    (JS.Object_values (SMILESModule.row r)) /\
  CSVShape.count_commas (CSVSpec.record_line (SMILESModule.row r)) = 10%nat.
Proof.
  intros H1 H2. apply (record_line_commas (SMILESModule.row r)).
  cbn [SMILESModule.row JS.Object_values List.map snd]. repeat constructor; assumption.
Qed.

End Rectangular.

(** X5. When no SMILES string (and, in the analyzer, no formula) holds a
    comma or a line feed, the exported file is rectangular: one header
    line and one line per source record, every line with the same number
    of commas (6 in the generator file, 10 in the analyzer file), and no
    line feed at the end.  Numbers never break a row. *)
Theorem csv_rectangular :
  (forall s : VAEModule.State,
      VAEModule.generatedMolecules s <> [] ->
      Forall (fun mol => CSVShape.only CSVShape.plain_char (VAEModule.smiles mol) = true)
             (VAEModule.generatedMolecules s) ->
      exists t,
        CSVSpec.exported (VAEModule.exportResults s) = Some t /\
        List.length (JS.lines t) = S (List.length (VAEModule.generatedMolecules s)) /\
        Forall (fun line => CSVShape.count_commas line = 6%nat) (JS.lines t) /\
        JS.ends_with_newline t = false)
  /\
  (forall s : SMILESModule.State,
      SMILESModule.batchResults s <> [] ->
      Forall (fun r => CSVShape.only CSVShape.plain_char (SMILESModule.smiles r) = true /\
                       CSVShape.only CSVShape.plain_char (SMILESModule.formula r) = true)
             (SMILESModule.batchResults s) ->
      exists t,
        CSVSpec.exported (SMILESModule.exportResults s) = Some t /\
        List.length (JS.lines t) = S (List.length (SMILESModule.batchResults s)) /\
        Forall (fun line => CSVShape.count_commas line = 10%nat) (JS.lines t) /\
        JS.ends_with_newline t = false).
Proof.
  split; intros s Hne Hplain.
  - destruct (vae_export_nonempty s Hne) as (t & Hcsv & Hexp).
    unfold VAEModule.data in Hcsv.
    destruct (VAEModule.generatedMolecules s) as [|mol l]; [contradiction|].
    destruct (vae_row_shape mol) as (Hkeys & _ & Hhead).
    destruct (csv_lines (VAEModule.row mol) (List.map VAEModule.row l))
      as (t' & Ht' & _ & Hlines & Hend).
    + exact Hkeys.
    + apply (Forall_map VAEModule.row _ (mol :: l)).
      eapply Forall_impl; [exact Hplain|]. intros x Hx. apply vae_row_plain, Hx.
    + apply (Forall_map VAEModule.row _ (mol :: l)).
      apply List.Forall_forall. intros x _. apply vae_row_shape.
    + cbn [List.map] in Hcsv. rewrite Ht' in Hcsv. injection Hcsv as <-.
      exists t'. split; [exact Hexp|].
      rewrite Hlines. split; [cbn [List.length]; rewrite !List.length_map; cbn [List.length]; rewrite ?List.length_map; reflexivity|].
      split; [|exact Hend].
      constructor; [rewrite Hhead; reflexivity|].
      apply Forall_map. apply (Forall_map VAEModule.row _ (mol :: l)).
      eapply Forall_impl; [exact Hplain|]. intros x Hx. apply vae_row_plain, Hx.
  - destruct (smiles_export_nonempty s Hne) as (t & Hcsv & Hexp).
    unfold SMILESModule.data in Hcsv.
    destruct (SMILESModule.batchResults s) as [|r l]; [contradiction|].
    destruct (smiles_row_shape r) as (Hkeys & _ & Hhead).
    destruct (csv_lines (SMILESModule.row r) (List.map SMILESModule.row l))
      as (t' & Ht' & _ & Hlines & Hend).
    + exact Hkeys.
    + apply (Forall_map SMILESModule.row _ (r :: l)).
      eapply Forall_impl; [exact Hplain|]. intros x [Hx1 Hx2]. apply smiles_row_plain; assumption.
    + apply (Forall_map SMILESModule.row _ (r :: l)).
      apply List.Forall_forall. intros x _. apply smiles_row_shape.
    + cbn [List.map] in Hcsv. rewrite Ht' in Hcsv. injection Hcsv as <-.
      exists t'. split; [exact Hexp|].
      rewrite Hlines. split; [cbn [List.length]; rewrite !List.length_map; cbn [List.length]; rewrite ?List.length_map; reflexivity|].
      split; [|exact Hend].
      constructor; [rewrite Hhead; reflexivity|].
      apply Forall_map. apply (Forall_map SMILESModule.row _ (r :: l)).
      eapply Forall_impl; [exact Hplain|]. intros x [Hx1 Hx2]. apply smiles_row_plain; assumption.
Qed.

Lemma csv_rectangular_witness :
  exists t,
    CSVSpec.exported (VAEModule.exportResults Samples.vae_state) = Some t /\
    List.length (JS.lines t) = 4%nat /\
    Forall (fun line => CSVShape.count_commas line = 6%nat) (JS.lines t).
Proof.
  assert (Hne : VAEModule.generatedMolecules Samples.vae_state <> []) by discriminate.
  assert (Hplain : Forall (fun mol => CSVShape.only CSVShape.plain_char
                                        (VAEModule.smiles mol) = true)
                     (VAEModule.generatedMolecules Samples.vae_state)).
  { repeat (apply List.Forall_cons; [vm_compute; reflexivity|]). apply List.Forall_nil. }
  destruct (proj1 csv_rectangular Samples.vae_state Hne Hplain) as (t & H1 & H2 & H3 & _).
  exists t. split; [exact H1|]. split; [exact H2 | exact H3].
Defined.

(** ** The molecule viewer *)

Section Viewer.

Import MolecularVisualizer.
Local Open Scope string_scope.
Local Open Scope nat_scope.

Lemma lower_not_upper (c : ascii) : is_lower c = true -> is_upper c = false.
Proof.
  unfold is_lower, is_upper. intros H. apply andb_true_iff in H as [H1 H2].
  apply Nat.leb_le in H1. apply andb_false_iff. right. apply Nat.leb_gt. lia.
Qed.

Lemma scan_atoms_skip (d : ascii) (s : string) :
  is_upper d = false -> scan_atoms (String d s) = scan_atoms s.
Proof. intros H. cbn [scan_atoms]. rewrite H. reflexivity. Qed.

Lemma scan_atoms_count (s : string) : List.length (scan_atoms s) = capitals s.
Proof.
  unfold capitals. induction s as [|c s IH]; [reflexivity|].
  cbn [scan_atoms list_ascii_of_string List.filter].
  destruct (is_upper c); [|exact IH].
  destruct s as [|d s]; [reflexivity|].
  cbn [List.length]. destruct (is_lower d) eqn:Hd; cbn [List.length]; [|rewrite IH; reflexivity].
  rewrite <- IH, (scan_atoms_skip d s (lower_not_upper d Hd)). reflexivity.
Qed.

Lemma scan_atoms_shaped (s : string) : Forall atom_shaped (scan_atoms s).
Proof.
  induction s as [|c s IH]; [constructor|].
  cbn [scan_atoms]. destruct (is_upper c) eqn:Hc; [|exact IH].
  destruct s as [|d s].
  - constructor; [|constructor]. exists c. split; [exact Hc | left; reflexivity].
  - destruct (is_lower d) eqn:Hd.
    + constructor.
      * exists c. split; [exact Hc|]. right. exists d. split; [exact Hd | reflexivity].
      * rewrite <- (scan_atoms_skip d s (lower_not_upper d Hd)). exact IH.
    + constructor; [|exact IH]. exists c. split; [exact Hc | left; reflexivity].
Qed.

Lemma join_empty_cons (x : string) (l : list string) :
  JS.join "" (x :: l) = x ++ JS.join "" l.
Proof. destruct l; [cbn; rewrite append_nil_r|]; reflexivity. Qed.

Lemma scan_atoms_subsequence (s : string) :
  list_ascii_of_string (JS.join "" (scan_atoms s)) `sublist_of` list_ascii_of_string s.
Proof.
  remember (String.length s) as n eqn:Hn.
  assert (Hle : String.length s <= n) by lia. clear Hn.
  revert s Hle. induction n as [|n IH]; intros s Hle.
  - destruct s; [constructor | cbn in Hle; lia].
  - destruct s as [|c s]; [constructor|].
    cbn [String.length] in Hle.
    cbn [scan_atoms list_ascii_of_string].
    destruct (is_upper c); [|apply sublist_cons, IH; lia].
    destruct s as [|d s]; [cbn; apply sublist_skip; constructor|].
    cbn [String.length] in Hle.
    destruct (is_lower d) eqn:Hd; rewrite join_empty_cons;
      cbn [append list_ascii_of_string].
    + apply sublist_skip, sublist_skip, IH. lia.
    + apply sublist_skip. apply (IH (String d s)). cbn [String.length]. lia.
Qed.

End Viewer.

Section ViewerProperties.

Import MolecularVisualizer.
Local Open Scope string_scope.
Local Open Scope nat_scope.

Lemma atoms_scan (smiles : string) : atoms smiles = scan_atoms smiles.
Proof. unfold atoms, match_all. destruct (scan_atoms smiles); reflexivity. Qed.

Lemma bondCount_scan (smiles : string) :
  bondCount smiles = List.length (List.filter is_bond (list_ascii_of_string smiles)).
Proof.
  unfold bondCount, match_all.
  replace (or_empty match scan_bonds smiles with [] => None | _ :: _ => Some (scan_bonds smiles) end)
    with (scan_bonds smiles) by (destruct (scan_bonds smiles); reflexivity).
  induction smiles as [|c s IH]; [reflexivity|].
  cbn [scan_bonds list_ascii_of_string List.filter].
  destruct (is_bond c); cbn [List.length]; rewrite IH; reflexivity.
Qed.

Lemma bond_not_upper (c : ascii) : is_bond c = true -> is_upper c = false.
Proof.
  unfold is_bond. intros H.
  repeat (apply orb_true_iff in H as [H|H]);
    apply Ascii.eqb_eq in H; subst c; reflexivity.
Qed.

Lemma capitals_and_bonds (l : list ascii) :
  List.length (List.filter is_upper l) + List.length (List.filter is_bond l)
    <= List.length l.
Proof.
  induction l as [|c l IH]; [reflexivity|].
  cbn [List.filter List.length].
  destruct (is_bond c) eqn:Hb.
  - rewrite (bond_not_upper c Hb). cbn [List.length]. lia.
  - destruct (is_upper c); cbn [List.length]; lia.
Qed.

Lemma string_length_chars (s : string) :
  String.length s = List.length (list_ascii_of_string s).
Proof. induction s as [|c s IH]; [reflexivity|]. cbn. rewrite IH. reflexivity. Qed.

Lemma atom_at_not_upper (d : ascii) (l : list ascii) :
  is_upper d = false -> atom_at (d :: l) = None.
Proof. intros H. cbn [atom_at]. rewrite H. reflexivity. Qed.

Lemma scan_atoms_positions (s : string) :
  scan_atoms s = omap atom_at (suffixes (list_ascii_of_string s)).
Proof.
  remember (String.length s) as n eqn:Hn.
  assert (Hle : String.length s <= n) by lia. clear Hn.
  revert s Hle. induction n as [|n IH]; intros s Hle.
  - destruct s; [reflexivity | cbn in Hle; lia].
  - destruct s as [|c s]; [reflexivity|].
    cbn [String.length] in Hle.
    cbn [scan_atoms list_ascii_of_string suffixes omap list_omap atom_at].
    destruct (is_upper c).
    + destruct s as [|d s]; [reflexivity|].
      cbn [String.length] in Hle. cbn [list_ascii_of_string].
      destruct (is_lower d) eqn:Hd.
      * cbn [suffixes omap list_omap].
        rewrite (atom_at_not_upper d _ (lower_not_upper d Hd)).
        f_equal. apply IH. lia.
      * f_equal. apply (IH (String d s)). cbn [String.length]. lia.
    + apply IH. lia.
Qed.

(** X6. The atoms read off a SMILES string are, position by position,
    its capital letters, each taken together with the character after it
    when that character is a small letter (and alone otherwise).  So
    there are as many atoms as capitals, the atoms written one after the
    other form a subsequence of the string, and atoms and bond characters
    together never outnumber the characters of the string. *)
Theorem atoms_are_the_capitals :
  forall smiles : string,
    atoms smiles = omap atom_at (suffixes (list_ascii_of_string smiles)) /\
    List.length (atoms smiles) = capitals smiles /\
    Forall atom_shaped (atoms smiles) /\
    list_ascii_of_string (JS.join "" (atoms smiles))
      `sublist_of` list_ascii_of_string smiles /\
    List.length (atoms smiles) + bondCount smiles <= String.length smiles.
Proof.
  intros smiles. rewrite atoms_scan.
  split; [apply scan_atoms_positions|].
  split; [apply scan_atoms_count|].
  split; [apply scan_atoms_shaped|].
  split; [apply scan_atoms_subsequence|].
  rewrite scan_atoms_count, bondCount_scan, string_length_chars.
  apply capitals_and_bonds.
Qed.

Example atoms_of_a_halide :
  atoms "CCl4Br" = ["C"; "Cl"; "Br"] /\ bondCount "CC(=O)C#N" = 2 /\ atoms "c1ccccc1" = [].
Proof. repeat split. Qed.

(** *** The tally of atoms *)

Lemma bump_keys (a : string) (counts : list (string * nat)) (k : string) :
  k ∈ List.map fst (bump a counts) <-> k = a \/ k ∈ List.map fst counts.
Proof.
  induction counts as [|[k' n] rest IH]; cbn [bump List.map fst].
  - rewrite elem_of_cons, elem_of_nil. tauto.
  - destruct (String.eqb_spec k' a) as [->|Hne]; cbn [List.map fst].
    + rewrite elem_of_cons. tauto.
    + rewrite !elem_of_cons, IH. tauto.
Qed.

Lemma bump_ok (a : string) (counts : list (string * nat)) :
  tally_ok counts -> tally_ok (bump a counts).
Proof.
  intros [Hnd Hpos]. induction counts as [|[k n] rest IH]; cbn [bump].
  - split; [cbn; apply NoDup_singleton | repeat constructor].
  - cbn [List.map fst] in Hnd. apply NoDup_cons in Hnd as [Hnotin Hnd'].
    inversion Hpos as [|? ? Hn Hpos']; subst.
    destruct (String.eqb_spec k a) as [->|Hne].
    + split; [cbn [List.map fst]; apply NoDup_cons; split; assumption|].
      constructor; [cbn in *; lia | exact Hpos'].
    + destruct (IH Hnd' Hpos') as [IH1 IH2].
      split; [|constructor; assumption].
      cbn [List.map fst]. apply NoDup_cons. split; [|exact IH1].
      rewrite bump_keys. intros [->|Hin]; [exact (Hne eq_refl) | exact (Hnotin Hin)].
Qed.

Lemma bump_count_of (a k : string) (counts : list (string * nat)) :
  count_of k (bump a counts) =
  if String.eqb a k then S (count_of k counts) else count_of k counts.
Proof.
  induction counts as [|[k' n] rest IH]; cbn [bump count_of].
  - destruct (String.eqb a k); reflexivity.
  - destruct (String.eqb_spec k' a) as [->|Hne]; cbn [count_of].
    + destruct (String.eqb a k); reflexivity.
    + destruct (String.eqb_spec k' k) as [->|Hne'].
      * destruct (String.eqb_spec a k) as [->|]; [contradiction | reflexivity].
      * exact IH.
Qed.

Lemma bump_sum (a : string) (counts : list (string * nat)) :
  list_sum (List.map snd (bump a counts)) = S (list_sum (List.map snd counts)).
Proof.
  induction counts as [|[k n] rest IH]; cbn [bump]; [reflexivity|].
  destruct (String.eqb k a); unfold list_sum in *; cbn [List.map snd fold_right] in *; lia.
Qed.

Lemma count_of_in (k : string) (n : nat) (counts : list (string * nat)) :
  NoDup (List.map fst counts) -> (k, n) ∈ counts -> count_of k counts = n.
Proof.
  induction counts as [|[k' n'] rest IH]; [intros _ Hin; apply elem_of_nil in Hin as []|].
  cbn [List.map fst]. intros Hnd Hin.
  apply NoDup_cons in Hnd as [Hnotin Hnd']. apply elem_of_cons in Hin as [Heq|Hin].
  - injection Heq as -> ->. cbn [count_of]. rewrite String.eqb_refl. reflexivity.
  - cbn [count_of]. destruct (String.eqb_spec k' k) as [->|Hne]; [|apply IH; assumption].
    exfalso. apply Hnotin. apply list_elem_of_In. apply list_elem_of_In in Hin.
    exact (in_map fst _ _ Hin).
Qed.

Lemma tally_fold (l : list string) (acc : list (string * nat)) :
  tally_ok acc ->
  let counts := fold_left (fun counts atom => bump atom counts) l acc in
  tally_ok counts /\
  (forall k, count_of k counts = count_occ string_dec l k + count_of k acc) /\
  list_sum (List.map snd counts) = List.length l + list_sum (List.map snd acc).
Proof.
  revert acc. induction l as [|a l IH]; intros acc Hacc; cbn [fold_left].
  - cbv zeta. split; [exact Hacc|]. split; [intros k|]; reflexivity.
  - destruct (IH (bump a acc) (bump_ok a acc Hacc)) as (H1 & H2 & H3).
    cbv zeta. split; [exact H1|]. split.
    + intros k. rewrite H2, bump_count_of. cbn [count_occ].
      destruct (string_dec a k) as [->|Hne].
      * rewrite String.eqb_refl. lia.
      * apply String.eqb_neq in Hne. rewrite Hne. reflexivity.
    + rewrite H3, bump_sum. cbn [List.length]. lia.
Qed.

(** X7. The tally built for the formula overlay lists every distinct
    atom once, with the number of times it occurs among the atoms; no
    count is zero and the counts add up to the number of atoms. *)
Theorem atomCounts_tally :
  forall l : list string,
    NoDup (List.map fst (atomCounts l)) /\
    (forall k, count_of k (atomCounts l) = count_occ string_dec l k) /\
    (forall k n, (k, n) ∈ atomCounts l <-> 1 <= n /\ n = count_occ string_dec l k) /\
    list_sum (List.map snd (atomCounts l)) = List.length l.
Proof.
  intros l.
  destruct (tally_fold l []) as ((Hnd & Hpos) & Hcount & Hsum).
  { split; constructor. }
  cbv zeta in *. fold (atomCounts l) in *.
  assert (Hc : forall k, count_of k (atomCounts l) = count_occ string_dec l k).
  { intros k. rewrite Hcount. cbn. lia. }
  split; [exact Hnd|]. split; [exact Hc|]. split; [|cbn in Hsum; lia].
  intros k n. split.
  - intros Hin. split.
    + rewrite Forall_forall in Hpos. exact (Hpos _ Hin).
    + rewrite <- Hc. symmetry. apply count_of_in; assumption.
  - intros [Hn ->]. rewrite <- Hc.
    assert (Hpos' : 1 <= count_of k (atomCounts l)) by (rewrite Hc; exact Hn).
    clear -Hpos'. induction (atomCounts l) as [|[k' n'] rest IH]; cbn [count_of] in *; [lia|].
    destruct (String.eqb_spec k' k) as [->|Hne];
      [apply elem_of_cons; left; reflexivity | apply elem_of_cons; right; exact (IH Hpos')].
Qed.

End ViewerProperties.

Section ViewerDrawing.

Import MolecularVisualizer.
Local Open Scope string_scope.
Local Open Scope nat_scope.

(** X8. Under the "Element Colors" scheme the colour of a drawn atom
    depends on its position only and repeats every six positions: two
    atoms get the same colour exactly when their positions are congruent
    modulo 6, whatever the atoms and the molecular weight are. *)
Theorem element_colours_repeat_every_six :
  forall (mw mw' : number) (atom atom' : string) (i j : nat),
    getAtomColor element mw atom i = getAtomColor element mw' atom' j
    <-> i mod 6 = j mod 6.
Proof.
  intros mw mw' atom atom' i j. unfold getAtomColor.
  change (List.length elementColors) with 6.
  pose proof (Nat.mod_upper_bound i 6 ltac:(lia)) as Hi.
  pose proof (Nat.mod_upper_bound j 6 ltac:(lia)) as Hj.
  generalize dependent (i mod 6). generalize dependent (j mod 6). intros b Hb a Ha.
  do 6 (destruct a as [|a]; [do 6 (destruct b as [|b]; [cbn; split; intros H;
      first [reflexivity | discriminate H]|]); lia|]).
  lia.
Qed.

Lemma backbone_symbols (st : Settings) (mw : number) (total index : nat)
    (shown : list string) :
  List.map symbol (backbone_from st mw total index shown) = shown.
Proof.
  revert index. induction shown as [|atom rest IH]; intros index; [reflexivity|].
  cbn [backbone_from List.map symbol]. rewrite IH. reflexivity.
Qed.

Lemma backbone_lookup (st : Settings) (mw : number) (total index : nat)
    (shown : list string) (k : nat) (av : AtomView) :
  backbone_from st mw total index shown !! k = Some av ->
  shown !! k = Some (symbol av) /\
  colour av = getAtomColor (colorScheme st) mw (symbol av) (index + k) /\
  bond av = showBonds st && (S (index + k) <? total) /\
  hydrogens av = showHydrogens st && String.eqb (symbol av) "C" /\
  (yOffset av = (-20)%Z \/ yOffset av = 0%Z \/ yOffset av = 20%Z).
Proof.
  revert index k. induction shown as [|atom rest IH]; intros index k; [discriminate|].
  cbn [backbone_from]. destruct k as [|k]; cbn [lookup list_lookup].
  - intros [= <-]. cbn [symbol colour bond hydrogens yOffset].
    rewrite Nat.add_0_r. split; [reflexivity|]. split; [reflexivity|].
    split; [|split; [reflexivity|]].
    + f_equal. destruct (S index <? total) eqn:E.
      * apply Nat.ltb_lt in E. apply Z.ltb_lt. lia.
      * apply Nat.ltb_ge in E. apply Z.ltb_ge. lia.
    + repeat match goal with
             | |- context [if ?b then _ else _] => destruct b
             end; auto.
  - intros H. apply IH in H. rewrite Nat.add_succ_r. exact H.
Qed.

(** X9. The backbone row shows the first eight atoms of the molecule in
    order and no more; the ring is drawn exactly when the molecule has
    more than six atoms; and the bond to the right of a drawn atom is
    shown exactly when bonds are switched on and that atom is not the
    last atom of the molecule (so the eighth drawn atom of a longer
    molecule keeps its bond). *)
Theorem backbone_of_the_viewer :
  forall (st : Settings) (smiles : string) (mw : number),
    let v := renderMolecule st smiles mw in
    List.map symbol (backbone v) = firstn 8 (atoms smiles) /\
    List.length (backbone v) = Nat.min 8 (capitals smiles) /\
    (ring v = true <-> 6 < capitals smiles) /\
    (forall (k : nat) (av : AtomView),
        backbone v !! k = Some av ->
        k < 8 /\
        atoms smiles !! k = Some (symbol av) /\
        bond av = showBonds st && (S k <? capitals smiles) /\
        colour av = getAtomColor (colorScheme st) mw (symbol av) k).
Proof.
  intros st smiles mw v. subst v. cbn [renderMolecule backbone ring].
  pose proof (scan_atoms_count smiles) as Hcount. rewrite <- atoms_scan in Hcount.
  assert (Hsym := backbone_symbols st mw (List.length (atoms smiles)) 0
                    (firstn 8 (atoms smiles))).
  split; [exact Hsym|].
  split.
  { rewrite <- (List.length_map symbol), Hsym, List.length_firstn, Hcount. reflexivity. }
  split; [rewrite Hcount; apply Nat.ltb_lt|].
  intros k av Hk. apply backbone_lookup in Hk as (Hshown & Hcol & Hbond & _ & _).
  cbn [Nat.add] in *. rewrite Hcount in Hbond.
  assert (Hlt : k < 8).
  { apply lookup_lt_Some in Hshown. rewrite List.length_firstn in Hshown. lia. }
  split; [exact Hlt|].
  split; [|split; assumption].
  rewrite <- Hshown. symmetry. apply lookup_take_lt. exact Hlt.
Qed.

End ViewerDrawing.

(** ** Trimming and splitting the input fields *)

Section Trimming.

Import SMILESModule SMILESPanel.
Local Open Scope string_scope.
Local Open Scope nat_scope.

Lemma trimStart_length (s : string) : String.length (trimStart s) <= String.length s.
Proof.
  induction s as [|c s IH]; [reflexivity|]. cbn [trimStart].
  destruct (is_space c); cbn [String.length]; lia.
Qed.


Lemma trimStart_fixed_head (c : ascii) (s : string) :
  trimStart (String c s) = String c s -> is_space c = false.
Proof.
  cbn [trimStart]. destruct (is_space c); [|reflexivity].
  intros H. pose proof (trimStart_length s) as Hlen. rewrite H in Hlen.
  cbn [String.length] in Hlen. lia.
Qed.



Lemma trimEnd_app (a b : string) :
  b <> "" -> trimEnd b = b -> trimEnd (a ++ b) = a ++ b.
Proof.
  intros Hb Hfix. induction a as [|c a IH]; [exact Hfix|].
  cbn [append trimEnd]. rewrite IH.
  destruct (a ++ b) eqn:E; [|reflexivity].
  destruct a; cbn in E; [contradiction | discriminate].
Qed.






Lemma truthy_spec (s : string) : truthy s = true <-> s <> "".
Proof.
  unfold truthy. rewrite negb_true_iff. apply String.eqb_neq.
Qed.

Lemma analyzeAll_smiles (random : nat -> number) (k : nat) (l : list string) :
  List.map smiles (analyzeAll random k l) = List.map trim l.
Proof.
  revert k. induction l as [|x l IH]; intros k; [reflexivity|].
  cbn [analyzeAll List.map]. rewrite IH. reflexivity.
Qed.




Lemma clean_trim_fixed (x : string) : clean_line x -> trim x = x.
Proof. intros (_ & H1 & H2 & _). unfold trim. rewrite H1. exact H2. Qed.

Lemma join_LF_not_empty (x : string) (l : list string) :
  x <> "" -> JS.join JS.LF (x :: l) <> "".
Proof.
  intros Hx. destruct l; [exact Hx|]. rewrite join_cons.
  destruct x; [contradiction | discriminate].
Qed.

Lemma join_clean_trimEnd (l : list string) :
  l <> [] -> Forall clean_line l -> trimEnd (JS.join JS.LF l) = JS.join JS.LF l.
Proof.
  intros Hne H. induction H as [|x l Hx Hl IH]; [contradiction|].
  destruct l as [|y l]; [apply Hx|].
  rewrite join_cons, <- append_assoc. apply trimEnd_app.
  - inversion Hl as [|? ? (Hy & _) _]; subst. apply join_LF_not_empty, Hy.
  - apply IH. discriminate.
Qed.

Lemma join_clean_trim (l : list string) :
  l <> [] -> Forall clean_line l -> trim (JS.join JS.LF l) = JS.join JS.LF l.
Proof.
  intros Hne H. unfold trim.
  assert (Hstart : trimStart (JS.join JS.LF l) = JS.join JS.LF l).
  { destruct H as [|x l (Hx & Hs & _) Hl]; [contradiction|].
    destruct x as [|c t]; [contradiction|].
    pose proof (trimStart_fixed_head c t Hs) as Hc.
    destruct l; [exact Hs|]. rewrite join_cons. cbn [append trimStart]. rewrite Hc.
    reflexivity. }
  rewrite Hstart. apply join_clean_trimEnd; assumption.
Qed.

Lemma join_clean_lines (l : list string) :
  l <> [] -> Forall clean_line l -> JS.lines (JS.join JS.LF l) = l.
Proof.
  intros Hne H. destruct l as [|x l]; [contradiction|].
  rewrite join_as_following_lines. unfold JS.lines.
  inversion H as [|? ? (_ & _ & _ & Hx) Hl]; subst.
  rewrite lines_from_no_newline by exact Hx. cbn [append].
  apply following_lines_split.
  eapply Forall_impl; [exact Hl|]. intros y (_ & _ & _ & Hy). exact Hy.
Qed.

Lemma smilesList_round_trip (l : list string) :
  l <> [] -> Forall clean_line l -> smilesList (JS.join JS.LF l) = l.
Proof.
  intros Hne H. unfold smilesList.
  rewrite join_clean_trim, join_clean_lines by assumption.
  apply filter_everything.
  eapply Forall_impl; [exact H|]. intros x Hx.
  rewrite (clean_trim_fixed x Hx). apply truthy_spec, Hx.
Qed.

Lemma map_trim_clean (l : list string) :
  Forall clean_line l -> List.map trim l = l.
Proof.
  induction 1 as [|x l Hx Hl IH]; [reflexivity|].
  cbn [List.map]. rewrite IH, (clean_trim_fixed x Hx). reflexivity.
Qed.

End Trimming.

(** ** Analysing single strings and batches *)

Section Analysing.

Import SMILESModule SMILESPanel.
Local Open Scope string_scope.
Local Open Scope nat_scope.

Lemma analyzeBatch_results (random : nat -> number) (p : Panel) :
  trim (batchInput p) <> "" ->
  batchResults (lists (fst (analyzeBatch random p)))
    = analyzeAll random 0 (smilesList (batchInput p)).
Proof.
  intros H. unfold analyzeBatch.
  apply truthy_spec in H. rewrite H. reflexivity.
Qed.



(** X11. Splitting undoes joining: when the batch field holds lines
    joined by line feeds, each line non-empty, without white space at
    either end and without a line feed, the batch analysis analyses
    exactly those lines, in order.  "Load Samples" followed by the
    analysis therefore analyses the five sample molecules. *)
Theorem batch_round_trip :
  forall (random : nat -> number) (p : Panel) (l : list string),
    l <> [] ->
    Forall clean_line l ->
    batchInput p = JS.join JS.LF l ->
    List.map smiles (batchResults (lists (fst (analyzeBatch random p)))) = l.
Proof.
  intros random p l Hne Hclean Hin.
  assert (Htrim : trim (batchInput p) <> "").
  { rewrite Hin, join_clean_trim by assumption.
    destruct Hclean as [|x l (Hx & _) _]; [contradiction|]. apply join_LF_not_empty, Hx. }
  rewrite (analyzeBatch_results random p Htrim), analyzeAll_smiles, Hin.
  rewrite smilesList_round_trip by assumption. apply map_trim_clean, Hclean.
Qed.

Lemma batch_round_trip_witness :
  let random := fun _ : nat => JSNumber.of_decimal 5 1 in
  let p := loadSamples {| lists := Samples.smiles_state; inputSMILES := ""; analysis := None;
                          batchInput := ""; isAnalyzing := false;
                          selectedMolecule := None |} in
  sampleMolecules <> [] /\ Forall clean_line sampleMolecules /\
  List.map smiles (batchResults (lists (fst (analyzeBatch random p)))) = sampleMolecules.
Proof.
  cbv zeta.
  assert (Hne : sampleMolecules <> []) by discriminate.
  assert (Hclean : Forall clean_line sampleMolecules).
  { repeat (apply List.Forall_cons;
            [split; [discriminate | repeat split; vm_compute; reflexivity]|]).
    apply List.Forall_nil. }
  split; [exact Hne|]. split; [exact Hclean|].
  exact (batch_round_trip _ (loadSamples _) sampleMolecules Hne Hclean eq_refl).
Defined.

(** X12. A blank batch field is refused with an error toast and changes
    nothing.  Otherwise the results are replaced, but the filtered list
    is never touched: with the filter panel open, the rows shown after
    the analysis are still those of the earlier selection (none on first
    use) until "Apply Filters" is pressed again. *)
Theorem batch_keeps_the_old_selection :
  forall (random : nat -> number) (p : Panel),
    (trim (batchInput p) = "" ->
     fst (analyzeBatch random p) = p /\
     JS.title (snd (analyzeBatch random p)) = "Error" /\
     JS.toast_variant (snd (analyzeBatch random p)) = JS.destructive) /\
    filteredResults (lists (fst (analyzeBatch random p))) = filteredResults (lists p) /\
    (showFilters (lists p) = true ->
     rendered (lists (fst (analyzeBatch random p))) = filteredResults (lists p)) /\
    (trim (batchInput p) <> "" ->
     List.length (batchResults (lists (fst (analyzeBatch random p))))
       = List.length (smilesList (batchInput p)) /\
     JS.toast_variant (snd (analyzeBatch random p)) = JS.default).
Proof.
  intros random p. unfold analyzeBatch.
  destruct (truthy (trim (batchInput p))) eqn:Ht; cbn [negb fst snd lists].
  - apply truthy_spec in Ht. split; [intros H; contradiction|].
    split; [reflexivity|]. split.
    + intros Hs. unfold rendered. cbn [setBatchResults showFilters filteredResults].
      rewrite Hs. reflexivity.
    + intros _. cbn [setBatchResults batchResults JS.toast_variant]. split; [|reflexivity].
      rewrite <- (List.length_map smiles), analyzeAll_smiles, List.length_map. reflexivity.
  - split; [intros _; repeat split|]. split; [reflexivity|]. split.
    + intros Hs. unfold rendered. rewrite Hs. reflexivity.
    + intros H. exfalso. apply truthy_spec in H. congruence.
Qed.

(** X13. A blank single field is refused with an error toast and
    changes nothing.  Otherwise the analysis stored is that of the
    trimmed string, the batch lists are left alone, and the toast is the
    destructive "Invalid SMILES" exactly when the string has at most five
    characters or holds a capital X. *)
Theorem single_analysis_outcome :
  forall (random : nat -> number) (p : Panel),
    (trim (inputSMILES p) = "" ->
     fst (analyzeSingle random p) = p /\
     JS.title (snd (analyzeSingle random p)) = "Error" /\
     JS.toast_variant (snd (analyzeSingle random p)) = JS.destructive) /\
    (trim (inputSMILES p) <> "" ->
     exists r,
       analysis (fst (analyzeSingle random p)) = Some r /\
       smiles r = trim (inputSMILES p) /\
       lists (fst (analyzeSingle random p)) = lists p /\
       (JS.toast_variant (snd (analyzeSingle random p)) = JS.destructive <->
        String.length (trim (inputSMILES p)) <= 5 \/
        includes_X (trim (inputSMILES p)) = true)).
Proof.
  intros random p. unfold analyzeSingle.
  destruct (truthy (trim (inputSMILES p))) eqn:Ht; cbn [negb fst snd].
  - apply truthy_spec in Ht. split; [intros H; contradiction|]. intros _.
    eexists. split; [reflexivity|]. split; [reflexivity|]. split; [reflexivity|].
    cbn [JS.toast_variant].
    change (isValid (mockAnalyzeSMILES random (trim (inputSMILES p))))
      with ((5 <? String.length (trim (inputSMILES p)))
              && negb (includes_X (trim (inputSMILES p)))).
    destruct (Nat.ltb_spec 5 (String.length (trim (inputSMILES p)))) as [E1|E1];
      destruct (includes_X (trim (inputSMILES p))) eqn:E2; cbn [andb negb];
      split; intros H;
      first [ discriminate H | reflexivity | right; reflexivity
            | left; lia | destruct H as [H|H]; [lia | discriminate H] ].
  - split; [intros _; repeat split|]. intros H. exfalso. apply truthy_spec in H. congruence.
Qed.

Lemma filter_throwing_some (target : string) (a : SMILESAnalysis) (l : list SMILESAnalysis) :
  filter_throwing (similar target (Some a)) l =
  JS.Normal (List.filter
               (fun r => negb (String.eqb (smiles r) target)
                         && ((molecularWeight r
                                ># JSMath.mul (molecularWeight a) (JSNumber.of_decimal 8 1))
                             && (molecularWeight r
                                   <# JSMath.mul (molecularWeight a) (JSNumber.of_decimal 12 1))))
               l).
Proof.
  induction l as [|r l IH]; [reflexivity|].
  cbn [filter_throwing List.filter]. rewrite IH. unfold similar.
  destruct (String.eqb (smiles r) target); reflexivity.
Qed.

Lemma filter_throwing_none (target : string) (l : list SMILESAnalysis) :
  (Forall (fun r => smiles r = target) l ->
   filter_throwing (similar target None) l = JS.Normal []) /\
  (filter_throwing (similar target None) l = JS.Throw "TypeError" \/
   Forall (fun r => smiles r = target) l).
Proof.
  induction l as [|r l [IH1 IH2]]; [split; [reflexivity | right; constructor]|].
  cbn [filter_throwing]. unfold similar at 1 3.
  destruct (String.eqb_spec (smiles r) target) as [Heq|Hne].
  - split.
    + intros H. inversion H; subst. rewrite IH1 by assumption. reflexivity.
    + destruct IH2 as [->|IH2]; [left; reflexivity | right; constructor; assumption].
  - split; [|left; reflexivity].
    intros H. inversion H; subst. contradiction.
Qed.

(** X14. With an analysis at hand, the similarity search returns a
    subsequence of the batch results that never holds a result with the
    target string itself, all of whose weights lie strictly between 0.8
    and 1.2 times the analysed weight.  With no analysis at hand it
    throws as soon as some batch result has another string, and returns
    nothing otherwise. *)
Theorem similar_molecules_search :
  forall (target : string) (p : Panel),
    (forall a, analysis p = Some a ->
       exists found toast,
         findSimilarMolecules target p = JS.Normal (found, toast) /\
         found `sublist_of` batchResults (lists p) /\
         forall r, r ∈ found <->
           r ∈ batchResults (lists p) /\
           smiles r <> target /\
           (molecularWeight r ># JSMath.mul (molecularWeight a) (JSNumber.of_decimal 8 1)) = true /\
           (molecularWeight r <# JSMath.mul (molecularWeight a) (JSNumber.of_decimal 12 1)) = true)
    /\
    (analysis p = None ->
     (Forall (fun r => smiles r = target) (batchResults (lists p)) ->
      exists toast, findSimilarMolecules target p = JS.Normal ([], toast)) /\
     (~ Forall (fun r => smiles r = target) (batchResults (lists p)) ->
      findSimilarMolecules target p = JS.Throw "TypeError")).
Proof.
  intros target p. split.
  - intros a Ha. unfold findSimilarMolecules. rewrite Ha, filter_throwing_some.
    eexists _, _. split; [reflexivity|]. split; [apply filter_sublist|].
    intros r. rewrite filter_elem_of, !andb_true_iff, negb_true_iff, String.eqb_neq. tauto.
  - intros Ha. unfold findSimilarMolecules. rewrite Ha.
    destruct (filter_throwing_none target (batchResults (lists p))) as [H1 H2].
    split.
    + intros H. rewrite (H1 H). eexists. reflexivity.
    + intros H. destruct H2 as [->|H2]; [reflexivity | contradiction].
Qed.

End Analysing.

(** ** Generating molecules *)

Section Generating.

Import VAEModule VAEPanel.
Local Open Scope string_scope.
Local Open Scope nat_scope.

Lemma lt_le (x y : number) : (x <# y) = true -> (x <=# y) = true.
Proof.
  intros H. apply lt_compare in H. apply le_compare. left. exact H.
Qed.

Lemma compare_refl (x : number) : x <> JSNumber.NaN -> SFcompare x x = Some Eq.
Proof.
  destruct x as [s|s| |s m e]; cbn; intros H; try reflexivity; try (destruct s; reflexivity).
  - contradiction.
  - rewrite Z.compare_refl.
    change (Pos.compare_cont Eq m m) with (Pos.compare m m). rewrite Pos.compare_refl.
    destruct s; reflexivity.
Qed.

Lemma not_lt_either (x y : number) :
  JSMath.is_NaN x = false -> JSMath.is_NaN y = false ->
  (x <# y) = false -> (y <# x) = false -> (y <=# x) = true.
Proof.
  intros Hx Hy H1 H2.
  unfold JSNumber.lt, JSNumber.le in *.
  destruct (JSNumber.lessThan x y) as [[]|] eqn:E; try discriminate; [reflexivity|].
  unfold JSNumber.lessThan in E.
  destruct (SFcompare x y) as [[]|] eqn:Ec; try discriminate.
  apply compare_None in Ec as [->| ->]; discriminate.
Qed.

(** [Math.min] gives NaN or something at most its first argument. *)
Lemma min_le_l (x y : number) :
  JSMath.is_NaN (JSMath.min x y) = true \/ (JSMath.min x y <=# x) = true.
Proof.
  unfold JSMath.min.
  destruct (JSMath.is_NaN x) eqn:Hx; [left; reflexivity|].
  destruct (JSMath.is_NaN y) eqn:Hy; [left; reflexivity|]. cbn [orb]. right.
  assert (Hrefl : (x <=# x) = true).
  { apply le_compare. right. apply compare_refl. intros ->. discriminate. }
  destruct (y <# x) eqn:H1; [apply lt_le, H1|].
  destruct (x <# y) eqn:H2; [exact Hrefl|].
  destruct (JSMath.is_negative_zero y); [|exact Hrefl].
  apply not_lt_either; assumption.
Qed.

Lemma slice_to_firstn {A} (x : number) (l : list A) :
  exists n, JSMath.slice_to x l = firstn n l.
Proof. unfold JSMath.slice_to. eexists. reflexivity. Qed.

Lemma vary_all_lookup (p : Panel) (q : number) (random : nat -> number) (k i : nat)
    (l : list GeneratedMolecule) :
  vary_all p q random k l !! i = option_map (vary p q (random (k + i))) (l !! i).
Proof.
  revert k i. induction l as [|mol l IH]; intros k i; [reflexivity|].
  cbn [vary_all]. destruct i as [|i]; cbn [lookup list_lookup].
  - rewrite Nat.add_0_r. reflexivity.
  - change (vary_all p q random (S k) l !! i =
            option_map (vary p q (random (k + S i))) (l !! i)).
    rewrite IH, Nat.add_succ_r. reflexivity.
Qed.

Lemma vary_all_smiles (p : Panel) (q : number) (random : nat -> number) (k : nat)
    (l : list GeneratedMolecule) :
  List.map smiles (vary_all p q random k l) = List.map smiles l.
Proof.
  revert k. induction l as [|mol l IH]; intros k; [reflexivity|].
  cbn [vary_all List.map]. rewrite IH. reflexivity.
Qed.

Lemma vary_all_length (p : Panel) (q : number) (random : nat -> number) (k : nat)
    (l : list GeneratedMolecule) :
  List.length (vary_all p q random k l) = List.length l.
Proof.
  rewrite <- (List.length_map smiles), vary_all_smiles, List.length_map. reflexivity.
Qed.

Lemma selected_prefix (random : nat -> number) (p : Panel) :
  List.map smiles (selectedMolecules random p) `prefix_of` List.map smiles mockMolecules.
Proof.
  unfold selectedMolecules. cbv zeta. rewrite vary_all_smiles.
  destruct (slice_to_firstn
              (JSMath.min (batchSize p) (JSNumber.of_Z (Z.of_nat (List.length mockMolecules))))
              mockMolecules) as [n ->].
  rewrite <- List.firstn_map. apply prefix_take.
Qed.

Lemma generate_trained (random : nat -> number) (p : Panel) :
  modelStatus p = trained ->
  lists (fst (generateMolecules random p))
    = setGeneratedMolecules (selectedMolecules random p) (lists p) /\
  modelStatus (fst (generateMolecules random p)) = trained.
Proof.
  intros H. unfold generateMolecules. rewrite H. split; reflexivity.
Qed.

Lemma generate_untrained (random : nat -> number) (p : Panel) :
  modelStatus p <> trained -> fst (generateMolecules random p) = p.
Proof.
  intros H. unfold generateMolecules. destruct (modelStatus p); [reflexivity.. | contradiction].
Qed.

(** X15. Without a trained model "Generate" changes no cell of the
    panel and raises the single destructive toast "Model Not Trained". *)
Theorem generation_needs_a_trained_model :
  forall (random : nat -> number) (p : Panel),
    modelStatus p <> trained ->
    fst (generateMolecules random p) = p /\
    List.map JS.title (snd (generateMolecules random p)) = ["Model Not Trained"] /\
    List.map JS.toast_variant (snd (generateMolecules random p)) = [JS.destructive].
Proof.
  intros random p H. unfold generateMolecules.
  destruct (modelStatus p); [repeat split.. | contradiction].
Qed.

Lemma generation_needs_a_trained_model_witness :
  modelStatus initial <> trained /\
  fst (generateMolecules (fun _ => JSNumber.of_decimal 5 1) initial) = initial.
Proof.
  assert (H : modelStatus initial <> trained) by discriminate.
  split; [exact H|].
  exact (proj1 (generation_needs_a_trained_model (fun _ => JSNumber.of_decimal 5 1) initial H)).
Defined.

(** X16. With a trained model, the generated molecules are the first
    molecules of the built-in list, in order, with identifier, SMILES
    string, donor and acceptor counts and TPSA unchanged; the filtered
    list is reset to the generated one, so all of them are shown whether
    or not the filter panel is open.  For a batch size [n] on the slider
    (1 to 20) there are [min n 3] of them. *)
Theorem generation_outcome :
  forall (random : nat -> number) (p : Panel),
    modelStatus p = trained ->
    let p' := fst (generateMolecules random p) in
    filteredMolecules (lists p') = generatedMolecules (lists p') /\
    rendered (lists p') = generatedMolecules (lists p') /\
    List.map smiles (generatedMolecules (lists p'))
      `prefix_of` List.map smiles mockMolecules /\
    (forall (k : nat) (mol : GeneratedMolecule),
        generatedMolecules (lists p') !! k = Some mol ->
        exists original,
          mockMolecules !! k = Some original /\
          id mol = id original /\ smiles mol = smiles original /\
          hbd (properties mol) = hbd (properties original) /\
          hba (properties mol) = hba (properties original) /\
          tpsa (properties mol) = tpsa (properties original)) /\
    (forall n : Z,
        (1 <= n <= 20)%Z -> batchSize p = JSNumber.of_Z n ->
        List.length (generatedMolecules (lists p')) = Z.to_nat (Z.min n 3)).
Proof.
  intros random p H p'. subst p'.
  destruct (generate_trained random p H) as [-> _].
  cbn [setGeneratedMolecules generatedMolecules filteredMolecules].
  split; [reflexivity|].
  split; [unfold rendered; cbn; destruct (showFilters (lists p)); reflexivity|].
  split; [apply selected_prefix|].
  split.
  - intros k mol Hk. unfold selectedMolecules in Hk. cbv zeta in Hk.
    rewrite vary_all_lookup in Hk.
    destruct (slice_to_firstn
                (JSMath.min (batchSize p)
                   (JSNumber.of_Z (Z.of_nat (List.length mockMolecules))))
                mockMolecules) as [n Hn].
    rewrite Hn in Hk.
    destruct (firstn n mockMolecules !! k) as [original|] eqn:E; [|discriminate].
    injection Hk as <-. exists original. split; [|repeat split].
    change (firstn n mockMolecules) with (take n mockMolecules) in E.
    apply lookup_take_Some in E as [E _]. exact E.
  - intros n Hn Hb. unfold selectedMolecules. cbv zeta.
    rewrite vary_all_length, Hb.
    assert (Hcases : (n = 1 \/ n = 2 \/ n = 3 \/ n = 4 \/ n = 5 \/ n = 6 \/ n = 7 \/ n = 8
                      \/ n = 9 \/ n = 10 \/ n = 11 \/ n = 12 \/ n = 13 \/ n = 14 \/ n = 15
                      \/ n = 16 \/ n = 17 \/ n = 18 \/ n = 19 \/ n = 20)%Z) by lia.
    repeat (destruct Hcases as [->|Hcases]; [vm_compute; reflexivity|]).
    subst n. vm_compute. reflexivity.
Qed.

End Generating.

Section GeneratingMore.

Import VAEModule VAEPanel.
Local Open Scope string_scope.
Local Open Scope nat_scope.

Lemma generation_outcome_witness :
  let p := trained_panel in
  let p' := fst (generateMolecules (fun _ => JSNumber.of_decimal 5 1) p) in
  modelStatus p = trained /\
  List.map smiles (generatedMolecules (lists p')) = List.map smiles mockMolecules /\
  filteredMolecules (lists p') = generatedMolecules (lists p') /\
  List.length (generatedMolecules (lists p')) = 3.
Proof.
  cbv zeta.
  assert (H : modelStatus trained_panel = trained) by reflexivity.
  split; [exact H|]. split; [vm_compute; reflexivity|].
  destruct (generation_outcome (fun _ => JSNumber.of_decimal 5 1) _ H)
    as (Hf & _ & _ & _ & Hn).
  split; [exact Hf|]. apply (Hn 10%Z); [lia | reflexivity].
Defined.

(** X17. Whatever the sliders and the random draws, the drug-likeness
    of a generated molecule is NaN or at most 0.99. *)
Theorem generated_drug_likeness_is_capped :
  forall (random : nat -> number) (p : Panel) (mol : GeneratedMolecule),
    modelStatus p = trained ->
    mol ∈ generatedMolecules (lists (fst (generateMolecules random p))) ->
    JSMath.is_NaN (drugLikeness mol) = true \/
    (drugLikeness mol <=# JSNumber.of_decimal 99 2) = true.
Proof.
  intros random p mol H Hin.
  destruct (generate_trained random p H) as [Hl _]. rewrite Hl in Hin.
  cbn [setGeneratedMolecules generatedMolecules] in Hin.
  apply list_elem_of_lookup in Hin as [k Hk].
  unfold selectedMolecules in Hk. cbv zeta in Hk. rewrite vary_all_lookup in Hk.
  destruct (_ !! k) as [original|]; [|discriminate].
  injection Hk as <-. cbn [vary drugLikeness]. apply min_le_l.
Qed.

Lemma generated_drug_likeness_is_capped_witness :
  let p := trained_panel in
  modelStatus p = trained /\
  Forall (fun mol => JSMath.is_NaN (drugLikeness mol) = true \/
                     (drugLikeness mol <=# JSNumber.of_decimal 99 2) = true)
    (generatedMolecules (lists (fst (generateMolecules (fun _ => JSNumber.of_Z 1) p)))).
Proof.
  cbv zeta. split; [reflexivity|].
  apply Forall_forall. intros mol Hin.
  apply (generated_drug_likeness_is_capped (fun _ => JSNumber.of_Z 1)
           trained_panel mol); [reflexivity | exact Hin].
Defined.

(** X18. "Reset" empties both lists and marks the model untrained, so
    right after it "Export" only raises the "No Data to Export"
    notification and "Generate" changes nothing. *)
Theorem reset_clears_the_panel :
  forall p : Panel,
    let p' := fst (resetModel p) in
    generatedMolecules (lists p') = [] /\
    filteredMolecules (lists p') = [] /\
    rendered (lists p') = [] /\
    modelStatus p' = untrained /\
    CSVSpec.is_empty_export (exportResults (lists p')) /\
    CSVSpec.exported (exportResults (lists p')) = None /\
    (forall random, fst (generateMolecules random p') = p').
Proof.
  intros p p'. subst p'. cbn [resetModel fst lists modelStatus generatedMolecules
                                filteredMolecules].
  split; [reflexivity|]. split; [reflexivity|].
  split; [unfold rendered; cbn; destruct (showFilters (lists p)); reflexivity|].
  split; [reflexivity|].
  split; [apply vae_export_empty; reflexivity|].
  split; [apply vae_export_empty; reflexivity|].
  intros random. reflexivity.
Qed.

Lemma on_shown_consistent (f : Panel -> Panel) (s : Session) :
  (forall p, consistent p -> consistent (f p)) ->
  consistent (shown s) -> consistent (shown (on_shown f s)).
Proof. intros Hf Hs. apply Hf, Hs. Qed.

Lemma handle_consistent (e : Event) (s : Session) :
  consistent (shown s) -> consistent (shown (handle e s)).
Proof.
  intros Hc.
  destruct e as [| | |criteria| | |sm|latent temp batch diversity
                 |k pr loss kl recon last|k random]; cbn [handle]; try exact Hc.
  - unfold start_generation. destruct (modelStatus (shown s)); try exact Hc.
    split; [reflexivity | apply prefix_nil].
  - split; [reflexivity | apply prefix_nil].
  - destruct Hc as [_ H2]. split; [apply filter_sublist | exact H2].
  - unfold resume_training. destruct (waiting s !! k) as [[|captured i]|]; try exact Hc.
    destruct last; exact Hc.
  - unfold resume_generation. destruct (waiting s !! k) as [[|captured i]|]; try exact Hc.
    cbv zeta. destruct (S i <? List.length steps)%nat; [exact Hc|].
    split; [reflexivity | apply selected_prefix].
Qed.

Lemma run_from_consistent (events : list Event) (s : Session) :
  consistent (shown s) -> consistent (shown (run_from s events)).
Proof.
  revert s. induction events as [|e events IH]; intros s Hs; [exact Hs|].
  unfold run_from. cbn [fold_left]. apply IH, handle_consistent, Hs.
Qed.

(** A generation that nothing interrupts ends in the state and with the
    lists that [generateMolecules] describes. *)
Lemma undisturbed_generation_agrees (random : nat -> number) (p : Panel) :
  modelStatus p = trained ->
  run_from {| shown := p; waiting := [] |} (undisturbed_generation random)
  = {| shown := fst (generateMolecules random p); waiting := [] |}.
Proof.
  intros H. destruct p as [l st g pr tl kl rl sel ld te bs dw].
  cbn [modelStatus] in H. subst st.
  unfold generateMolecules. cbn [modelStatus fst]. reflexivity.
Qed.

(** X19. The calls of [trainModel] and [generateMolecules] are followed
    [await] by [await], so clicks, slider moves and other pending calls
    may come in between.  After any such sequence of events, the
    filtered list of the generator panel is a subsequence of the
    generated list (so "Showing x of y" has [x <= y <= 3]) and the
    generated SMILES strings are the first ones of the built-in list.
    An untrained model, on the other hand, may well show molecules: a
    reset while a generation is waiting leaves the model untrained and
    the generation then stores its three molecules. *)
Theorem generator_panel_invariant :
  (forall events : list Event,
      let p := shown (run events) in
      filteredMolecules (lists p) `sublist_of` generatedMolecules (lists p) /\
      List.length (filteredMolecules (lists p))
        <= List.length (generatedMolecules (lists p)) <= 3 /\
      List.map smiles (generatedMolecules (lists p))
        `prefix_of` List.map smiles mockMolecules)
  /\
  (forall random : nat -> number,
      let p := shown (run (reset_during_generation random)) in
      modelStatus p = untrained /\
      List.length (generatedMolecules (lists p)) = 3 /\
      filteredMolecules (lists p) = generatedMolecules (lists p)).
Proof.
  split.
  - intros events p. subst p.
    destruct (run_from_consistent events {| shown := initial; waiting := [] |}) as (H1 & H2).
    { split; [reflexivity | apply prefix_nil]. }
    fold (run events) in *.
    split; [exact H1|]. split; [|exact H2].
    split; [apply sublist_length, H1|].
    apply prefix_length in H2. rewrite !List.length_map in H2. exact H2.
  - intros random p. subst p. unfold run, run_from, reset_during_generation.
    cbn [fold_left handle start_training resume_training shown waiting lookup list_lookup
           app start_generation with_status with_isGenerating with_progress with_metrics
           modelStatus delete list_delete].
    cbn [resume_generation on_shown shown waiting lookup list_lookup steps List.length
           Nat.ltb Nat.leb insert list_insert delete list_delete].
    match goal with
    | |- context [selectedMolecules random ?c] =>
        assert (Hlen : List.length (selectedMolecules random c) = 3)
          by (unfold selectedMolecules; cbv zeta; rewrite vary_all_length;
              vm_compute; reflexivity);
        generalize dependent (selectedMolecules random c)
    end.
    intros selected Hlen. split; [reflexivity|]. split; [exact Hlen | reflexivity].
Qed.

End GeneratingMore.

(** The analyzer panel has no such invariant: its filtered list is only
    written by "Apply Filters". *)
Example analyzer_selection_goes_stale :
  let random := fun _ : nat => JSNumber.of_decimal 5 1 in
  let p0 := {| SMILESPanel.lists := {| SMILESModule.batchResults := [];
                                       SMILESModule.filteredResults := [];
                                       SMILESModule.showFilters := true |};
               SMILESPanel.inputSMILES := ""%string;
               SMILESPanel.analysis := None;
               SMILESPanel.batchInput := JS.join JS.LF SMILESPanel.sampleMolecules;
               SMILESPanel.isAnalyzing := false;
               SMILESPanel.selectedMolecule := None |} in
  let p1 := fst (SMILESPanel.analyzeBatch random p0) in
  List.length (SMILESModule.batchResults (SMILESPanel.lists p1)) = 5%nat /\
  SMILESModule.rendered (SMILESPanel.lists p1) = [].
Proof. vm_compute. split; reflexivity. Qed.
